(** * SIP trunk admission control and call lifecycle

    A shallow embedding of the telephony core of the backend:
    - [backend/app/models/sip_trunk.py]: the [SipTrunk] and [CallLog] rows
      and their methods;
    - [backend/app/services/sip_trunk_service.py]: the [SipTrunkService]
      operations that select a trunk, log and update calls, delete a trunk
      and probe its health.

    Conventions of the embedding.
    - Python [int] is [Z]; Python [float] is IEEE binary64, the kernel's
      primitive [float]; [str] is [string]; [None] is [option].
    - A [datetime] is an instant on the UTC time line counted in
      microseconds (all columns are [DateTime(timezone=True)]).  A naive
      [datetime], which Python refuses to subtract from an aware one, is
      no value of the model.  The quotient of [total_seconds()] is the
      IEEE 754 division of the standard library, rounded once.
    - A method that mutates [self] returns the new row next to its result.
    - The database is the pair of tables as lists of rows.  A query is a
      [filter] over the table; [commit] makes the working state the stored
      one and [rollback] restores the state the operation started from.
    - A row holds a value in every column declared [nullable=False] that
      the code fills or that has a default.  [account_id] is declared
      [nullable=False] with no default on both tables and the service
      never assigns it: it is kept as the attribute of the object, [None]
      until something sets it, and the INSERT of a row that holds [None]
      there fails the NOT NULL constraint with [IntegrityError].  The
      other constraints the database enforces (UNIQUE, column widths,
      foreign keys) are not part of the model, and a lookup that meets
      two rows raises as the ORM does.
    - An operation returns an [outcome]: the value it returns or the
      exception it raises. *)

From Stdlib Require Import ZArith List String Bool Lia Floats.
From Stdlib Require Import DecimalString.
Import ListNotations.

Local Open Scope string_scope.
Local Open Scope Z_scope.
Local Open Scope list_scope.

(** ** Python values *)

(** [datetime]: microseconds since the epoch, UTC. *)
Definition datetime := Z.

(** The exceptions the modelled code raises. *)
Inductive exn :=
| ValueError (msg : string)
| MultipleResultsFound
| IntegrityError.

Inductive outcome (A : Type) :=
| Returned (a : A)
| Raised (e : exn).
Arguments Returned {A} a.
Arguments Raised {A} e.

(** [Result.scalar_one_or_none()] of SQLAlchemy: no row gives [None], one
    row gives it, more than one row raises [MultipleResultsFound]. *)
Definition scalar_one_or_none {A : Type} (rows : list A) : outcome (option A) :=
  match rows with
  | [] => Returned None
  | [row] => Returned (Some row)
  | _ :: _ :: _ => Raised MultipleResultsFound
  end.

(** [float(n)] for a Python [int]: the nearest binary64, ties to even. *)
Definition float_of_int (n : Z) : float :=
  SF2Prim (binary_normalize prec emax n 0 false).

(** [a / b] for two Python [int]s: the binary64 nearest to the exact
    quotient, ties to even, whatever the size of the operands.  An [int]
    is taken as the float number of that mantissa and exponent 0, and
    [SFdiv] rounds the quotient once. *)
Definition Z2SF (n : Z) : spec_float :=
  match n with
  | Z0 => S754_zero false
  | Zpos p => S754_finite false p 0
  | Zneg p => S754_finite true p 0
  end.

Definition true_divide (a b : Z) : spec_float :=
  SFdiv prec emax (Z2SF a) (Z2SF b).

(** [int(x)] for a finite [float]: the fraction is dropped, toward zero.
    ([int] raises on an infinity or a NaN, which the quotient of a
    [timedelta] by [10**6] never is.) *)
Definition int_of_float (x : spec_float) : Z :=
  match x with
  | S754_finite s m e =>
      cond_Zopp s (if 0 <=? e then Zpos m * 2 ^ e else Zpos m / 2 ^ (- e))
  | _ => 0
  end.

(** ** Enumerations of [models/sip_trunk.py] *)

Inductive SipTrunkStatus := ACTIVE | INACTIVE | SUSPENDED | MAINTENANCE | ERROR.

Inductive SipTrunkProvider := TWILIO | TELNYX | BANDWIDTH | VONAGE | CUSTOM.

Inductive CallDirection := INBOUND | OUTBOUND | BIDIRECTIONAL.

Definition SipTrunkStatus_eqb (a b : SipTrunkStatus) : bool :=
  match a, b with
  | ACTIVE, ACTIVE | INACTIVE, INACTIVE | SUSPENDED, SUSPENDED
  | MAINTENANCE, MAINTENANCE | ERROR, ERROR => true
  | _, _ => false
  end.

Definition CallDirection_eqb (a b : CallDirection) : bool :=
  match a, b with
  | INBOUND, INBOUND | OUTBOUND, OUTBOUND | BIDIRECTIONAL, BIDIRECTIONAL => true
  | _, _ => false
  end.

(** [x is None] on an optional column. *)
Definition is_None {A : Type} (x : option A) : bool :=
  match x with None => true | Some _ => false end.

(** ** [class SipTrunk] *)

Module SipTrunk.

(** [account_id] is the attribute of the object: [None] until it is
    assigned, as [nullable=False] is checked by the database only. *)
Record t := mk {
  id : string;
  user_id : string;
  account_id : option string;
  provider : SipTrunkProvider;
  status : SipTrunkStatus;
  call_direction : CallDirection;
  max_concurrent_calls : Z;
  current_active_calls : Z;
  last_health_check : option datetime;
  health_status : string;
  latency_ms : option float;
  packet_loss_percent : option float;
  cost_per_minute : float;
  failover_trunk_id : option string;
  priority : Z;
  deleted_at : option datetime
}.

(** [self.current_active_calls = n] *)
Definition set_current_active_calls (n : Z) (self : t) : t :=
  {| id := id self; user_id := user_id self;
     account_id := account_id self; provider := provider self;
     status := status self; call_direction := call_direction self;
     max_concurrent_calls := max_concurrent_calls self;
     current_active_calls := n;
     last_health_check := last_health_check self;
     health_status := health_status self;
     latency_ms := latency_ms self;
     packet_loss_percent := packet_loss_percent self;
     cost_per_minute := cost_per_minute self;
     failover_trunk_id := failover_trunk_id self;
     priority := priority self; deleted_at := deleted_at self |}.


(** [is_active]: "Check if trunk is active and healthy". *)
Definition is_active (self : t) : bool :=
  SipTrunkStatus_eqb (status self) ACTIVE
  && String.eqb (health_status self) "healthy".

(** [can_handle_call]: "Check if trunk can handle another call". *)
Definition can_handle_call (self : t) : bool :=
  is_active self && (current_active_calls self <? max_concurrent_calls self).

(** [increment_active_calls]: the returned [bool] and the row after. *)
Definition increment_active_calls (self : t) : bool * t :=
  if can_handle_call self
  then (true, set_current_active_calls (current_active_calls self + 1) self)
  else (false, self).

(** [decrement_active_calls]: returns [None]; the row after. *)
Definition decrement_active_calls (self : t) : t :=
  if current_active_calls self >? 0
  then set_current_active_calls (current_active_calls self - 1) self
  else self.

(** [update_health_status(status, latency=None, packet_loss=None)];
    [now] is the value of [datetime.utcnow()]. *)
Definition update_health_status (now : datetime) (new_status : string)
    (latency packet_loss : option float) (self : t) : t :=
  {| id := id self; user_id := user_id self;
     account_id := account_id self; provider := provider self;
     status := status self; call_direction := call_direction self;
     max_concurrent_calls := max_concurrent_calls self;
     current_active_calls := current_active_calls self;
     last_health_check := Some now;
     health_status := new_status;
     latency_ms :=
       match latency with Some l => Some l | None => latency_ms self end;
     packet_loss_percent :=
       match packet_loss with
       | Some p => Some p
       | None => packet_loss_percent self
       end;
     cost_per_minute := cost_per_minute self;
     failover_trunk_id := failover_trunk_id self;
     priority := priority self; deleted_at := deleted_at self |}.

(** The soft delete of [delete_sip_trunk]:
    [deleted_at = utcnow(); status = INACTIVE]. *)
Definition soft_delete (now : datetime) (self : t) : t :=
  {| id := id self; user_id := user_id self;
     account_id := account_id self; provider := provider self;
     status := INACTIVE; call_direction := call_direction self;
     max_concurrent_calls := max_concurrent_calls self;
     current_active_calls := current_active_calls self;
     last_health_check := last_health_check self;
     health_status := health_status self;
     latency_ms := latency_ms self;
     packet_loss_percent := packet_loss_percent self;
     cost_per_minute := cost_per_minute self;
     failover_trunk_id := failover_trunk_id self;
     priority := priority self; deleted_at := Some now |}.

(** The capacity invariant of the counter. *)
Definition within_capacity (self : t) : Prop :=
  0 <= current_active_calls self <= max_concurrent_calls self.

(** What [can_handle_call] tests, as a proposition. *)
Definition admissible (self : t) : Prop :=
  status self = ACTIVE
  /\ health_status self = "healthy"
  /\ current_active_calls self < max_concurrent_calls self.

(** One capacity operation on a trunk, and a run of them. *)
Inductive capacity_op := Increment | Decrement.

Definition apply_op (op : capacity_op) (self : t) : t :=
  match op with
  | Increment => snd (increment_active_calls self)
  | Decrement => decrement_active_calls self
  end.

Definition run_ops (ops : list capacity_op) (self : t) : t :=
  fold_left (fun tr op => apply_op op tr) ops self.

(** [self.status = st] *)
Definition set_status (st : SipTrunkStatus) (self : t) : t :=
  {| id := id self; user_id := user_id self;
     account_id := account_id self; provider := provider self;
     status := st; call_direction := call_direction self;
     max_concurrent_calls := max_concurrent_calls self;
     current_active_calls := current_active_calls self;
     last_health_check := last_health_check self;
     health_status := health_status self;
     latency_ms := latency_ms self;
     packet_loss_percent := packet_loss_percent self;
     cost_per_minute := cost_per_minute self;
     failover_trunk_id := failover_trunk_id self;
     priority := priority self; deleted_at := deleted_at self |}.

(** [utilization_percent].  The quotient of two [int]s is the binary64
    nearest to it, which is the quotient of the two floats while both
    counts are below 2**53. *)
Definition utilization_percent (self : t) : float :=
  if max_concurrent_calls self =? 0 then 0%float
  else (float_of_int (current_active_calls self)
        / float_of_int (max_concurrent_calls self) * 100)%float.

(** [k] calls of [increment_active_calls] in a row: how many returned
    [True], and the row after the last. *)
Fixpoint increment_many (k : nat) (self : t) : Z * t :=
  match k with
  | O => (0, self)
  | S k' =>
      let (taken, after) := increment_active_calls self in
      let (count, final) := increment_many k' after in
      ((if taken then 1 else 0) + count, final)
  end.

End SipTrunk.

(** ** [class CallLog] *)

Module CallLog.

(** The columns declared [nullable=False] hold a value; the others are
    optional.  [account_id] is the attribute of the object, [None] until
    it is assigned. *)
Record t := mk {
  call_id : string;
  user_id : string;
  account_id : option string;
  sip_trunk_id : string;
  direction : CallDirection;
  from_number : string;
  to_number : string;
  started_at : datetime;
  answered_at : option datetime;
  ended_at : option datetime;
  duration_seconds : option Z;
  status : string;
  hangup_cause : option string;
  quality_score : option float;
  codec_used : option string;
  cost : float;
  credits_used : Z
}.

(** [self.duration_seconds = d] *)
Definition set_duration_seconds (d : option Z) (self : t) : t :=
  {| call_id := call_id self; user_id := user_id self;
     account_id := account_id self;
     sip_trunk_id := sip_trunk_id self; direction := direction self;
     from_number := from_number self; to_number := to_number self;
     started_at := started_at self; answered_at := answered_at self;
     ended_at := ended_at self;
     duration_seconds := d;
     status := status self; hangup_cause := hangup_cause self;
     quality_score := quality_score self; codec_used := codec_used self;
     cost := cost self; credits_used := credits_used self |}.

(** [self.cost = c] *)
Definition set_cost (c : float) (self : t) : t :=
  {| call_id := call_id self; user_id := user_id self;
     account_id := account_id self;
     sip_trunk_id := sip_trunk_id self; direction := direction self;
     from_number := from_number self; to_number := to_number self;
     started_at := started_at self; answered_at := answered_at self;
     ended_at := ended_at self;
     duration_seconds := duration_seconds self;
     status := status self; hangup_cause := hangup_cause self;
     quality_score := quality_score self; codec_used := codec_used self;
     cost := c; credits_used := credits_used self |}.

(** [is_completed] and [was_answered]. *)
Definition is_completed (self : t) : bool := negb (is_None (ended_at self)).
Definition was_answered (self : t) : bool := negb (is_None (answered_at self)).

(** [int(td.total_seconds())] for a [timedelta] of [us] microseconds.
    [total_seconds()] divides the microseconds by [10**6] as two [int]s,
    which gives the binary64 nearest to the quotient, and [int()] drops
    the fraction of that float, toward zero. *)
Definition whole_seconds (us : Z) : Z :=
  int_of_float (true_divide us 1000000).

(** [calculate_duration]: the returned [int] and the row after.  A
    [datetime] is always true in a condition, so [self.answered_at and
    self.ended_at] tests that neither is [None]. *)
Definition calculate_duration (self : t) : Z * t :=
  match answered_at self, ended_at self with
  | Some answered, Some ended =>
      let duration := whole_seconds (ended - answered) in
      (duration, set_duration_seconds (Some duration) self)
  | _, _ => (0, self)
  end.

(** [calculate_cost(rate_per_minute)]: the returned [float] and the row
    after.  [if self.duration_seconds] is false on [None] and on [0]. *)
Definition calculate_cost (rate_per_minute : float) (self : t) : float * t :=
  match duration_seconds self with
  | Some d =>
      if d =? 0 then (0%float, self)
      else
        let minutes := (float_of_int d / 60)%float in
        let c := (minutes * rate_per_minute)%float in
        (c, set_cost c self)
  | None => (0%float, self)
  end.

End CallLog.

(** ** Schemas of [schemas/sip_trunk.py] *)

(** [CallLogCreate]. *)
Module CallLogCreate.
Record t := mk {
  call_id : string;
  sip_trunk_id : string;
  direction : CallDirection;
  from_number : string;
  to_number : string;
  started_at : datetime;
  status : string
}.
End CallLogCreate.

(** [CallLogUpdate].  Every field is optional and its default is [None];
    [dict(exclude_unset=True)] keeps the fields the request gave, so a
    field of a nullable column is [None] when the request left it out,
    [Some None] when the request gave [null] and [Some (Some v)] when it
    gave [v].  For the three NOT NULL columns ([status], [cost],
    [credits_used]) the field is [None] when left out and [Some v] when
    given: a request that would store [null] there is outside the model. *)
Module CallLogUpdate.
Record t := mk {
  answered_at : option (option datetime);
  ended_at : option (option datetime);
  status : option string;
  hangup_cause : option (option string);
  quality_score : option (option float);
  codec_used : option (option string);
  duration_seconds : option (option Z);
  cost : option float;
  credits_used : option Z
}.

(** [update_data.<field>] on a nullable field: the value given, [None]
    when the field was left out. *)
Definition attr {A : Type} (field : option (option A)) : option A :=
  match field with Some v => v | None => None end.

(** One [setattr] of the loop over [update_dict.items()]: a field that
    was left out is not in the dict and leaves the attribute alone. *)
Definition setattr {A : Type} (field : option A) (old : A) : A :=
  match field with Some v => v | None => old end.

(** [for field, value in update_dict.items(): setattr(call_log, field, value)] *)
Definition setattrs (update_data : t) (call_log : CallLog.t) : CallLog.t :=
  {| CallLog.call_id := CallLog.call_id call_log;
     CallLog.user_id := CallLog.user_id call_log;
     CallLog.account_id := CallLog.account_id call_log;
     CallLog.sip_trunk_id := CallLog.sip_trunk_id call_log;
     CallLog.direction := CallLog.direction call_log;
     CallLog.from_number := CallLog.from_number call_log;
     CallLog.to_number := CallLog.to_number call_log;
     CallLog.started_at := CallLog.started_at call_log;
     CallLog.answered_at :=
       setattr (answered_at update_data) (CallLog.answered_at call_log);
     CallLog.ended_at :=
       setattr (ended_at update_data) (CallLog.ended_at call_log);
     CallLog.duration_seconds :=
       setattr (duration_seconds update_data)
         (CallLog.duration_seconds call_log);
     CallLog.status := setattr (status update_data) (CallLog.status call_log);
     CallLog.hangup_cause :=
       setattr (hangup_cause update_data) (CallLog.hangup_cause call_log);
     CallLog.quality_score :=
       setattr (quality_score update_data) (CallLog.quality_score call_log);
     CallLog.codec_used :=
       setattr (codec_used update_data) (CallLog.codec_used call_log);
     CallLog.cost := setattr (cost update_data) (CallLog.cost call_log);
     CallLog.credits_used :=
       setattr (credits_used update_data) (CallLog.credits_used call_log) |}.
End CallLogUpdate.

(** [CallLogResponse]: the columns of the row and the two computed
    properties. *)
Module CallLogResponse.
Record t := mk {
  row : CallLog.t;
  is_completed : bool;
  was_answered : bool
}.
End CallLogResponse.

(** [SipTrunkCreate], by the fields that reach a column of the row. *)
Module SipTrunkCreate.
Record t := mk {
  provider : SipTrunkProvider;
  call_direction : CallDirection;
  max_concurrent_calls : Z;
  cost_per_minute : float;
  priority : Z
}.
End SipTrunkCreate.

(** [SipTrunkUpdate], by the fields that reach a column of the row, and
    [sip_password], whose presence decides the re-initialisation.  Every
    column here is NOT NULL: a field is [None] when the request left it
    out and [Some v] when it gave [v]. *)
Module SipTrunkUpdate.
Record t := mk {
  status : option SipTrunkStatus;
  sip_password : option string;
  call_direction : option CallDirection;
  max_concurrent_calls : option Z;
  cost_per_minute : option float;
  priority : option Z
}.

(** [for field, value in update_dict.items(): setattr(trunk, field, value)] *)
Definition setattrs (update_data : t) (trunk : SipTrunk.t) : SipTrunk.t :=
  {| SipTrunk.id := SipTrunk.id trunk;
     SipTrunk.user_id := SipTrunk.user_id trunk;
     SipTrunk.account_id := SipTrunk.account_id trunk;
     SipTrunk.provider := SipTrunk.provider trunk;
     SipTrunk.status :=
       CallLogUpdate.setattr (status update_data) (SipTrunk.status trunk);
     SipTrunk.call_direction :=
       CallLogUpdate.setattr (call_direction update_data)
         (SipTrunk.call_direction trunk);
     SipTrunk.max_concurrent_calls :=
       CallLogUpdate.setattr (max_concurrent_calls update_data)
         (SipTrunk.max_concurrent_calls trunk);
     SipTrunk.current_active_calls := SipTrunk.current_active_calls trunk;
     SipTrunk.last_health_check := SipTrunk.last_health_check trunk;
     SipTrunk.health_status := SipTrunk.health_status trunk;
     SipTrunk.latency_ms := SipTrunk.latency_ms trunk;
     SipTrunk.packet_loss_percent := SipTrunk.packet_loss_percent trunk;
     SipTrunk.cost_per_minute :=
       CallLogUpdate.setattr (cost_per_minute update_data)
         (SipTrunk.cost_per_minute trunk);
     SipTrunk.failover_trunk_id := SipTrunk.failover_trunk_id trunk;
     SipTrunk.priority :=
       CallLogUpdate.setattr (priority update_data) (SipTrunk.priority trunk);
     SipTrunk.deleted_at := SipTrunk.deleted_at trunk |}.

(** [any(field in update_dict for field in ['sip_domain', 'sip_username',
    'sip_password', 'provider'])]: of the four, the schema has only
    [sip_password]. *)
Definition configuration_changed (update_data : t) : bool :=
  negb (is_None (sip_password update_data)).
End SipTrunkUpdate.

(** [SipTrunkResponse], by the fields [_trunk_to_response] fills from the
    columns of the row and from its three properties. *)
Module SipTrunkResponse.
Record t := mk {
  id : string;
  user_id : string;
  provider : SipTrunkProvider;
  status : SipTrunkStatus;
  call_direction : CallDirection;
  max_concurrent_calls : Z;
  current_active_calls : Z;
  last_health_check : option datetime;
  health_status : string;
  latency_ms : option float;
  packet_loss_percent : option float;
  cost_per_minute : float;
  utilization_percent : float;
  is_active : bool;
  can_handle_call : bool
}.
End SipTrunkResponse.

(** ** [class User] of [models/user.py], by what the service reads *)

Inductive UserTier := FREE | PRO | ENTERPRISE.

(** The value of a member of [UserTier(str, enum.Enum)]: the string it
    equals and hashes as. *)
Definition UserTier_value (tier : UserTier) : string :=
  match tier with
  | FREE => "free"
  | PRO => "pro"
  | ENTERPRISE => "enterprise"
  end.

Module User.
Record t := mk {
  id : string;
  tier : UserTier
}.
End User.

(** ** The session *)

(** The two tables. *)
Record db := mk_db {
  sip_trunks : list SipTrunk.t;
  call_logs : list CallLog.t
}.

(** Code that runs inside a [try] block on the session: it reads and
    writes the working state, and an exception leaves the block. *)
Definition Session (A : Type) : Type := db -> outcome (A * db).

Definition ret {A : Type} (a : A) : Session A :=
  fun s => Returned (a, s).

Definition raise {A : Type} (e : exn) : Session A :=
  fun _ => Raised e.

Definition bind {A B : Type} (m : Session A) (k : A -> Session B) : Session B :=
  fun s =>
    match m s with
    | Returned (a, s') => k a s'
    | Raised e => Raised e
    end.

Notation "x <- m ;; k" := (bind m (fun x => k))
  (at level 61, m at next level, right associativity).
Notation "m ;;; k" := (bind m (fun _ => k))
  (at level 61, right associativity).

(** [result = await self.db.execute(query); result.scalar_one_or_none()] *)
Definition execute_scalar_one_or_none {A : Type} (query : db -> list A)
  : Session (option A) :=
  fun s =>
    match scalar_one_or_none (query s) with
    | Returned found => Returned (found, s)
    | Raised e => Raised e
    end.

(** A mutated trunk is the session's object of its row: the row with its
    [id] now reads as [trunk]. *)
Definition flush_trunk (trunk : SipTrunk.t) : Session unit :=
  fun s =>
    Returned (tt,
      {| sip_trunks :=
           map (fun row =>
                  if String.eqb (SipTrunk.id row) (SipTrunk.id trunk)
                  then trunk else row)
               (sip_trunks s);
         call_logs := call_logs s |}).

(** The same for a call log, whose row the service finds by [call_id]. *)
Definition flush_call_log (call_log : CallLog.t) : Session unit :=
  fun s =>
    Returned (tt,
      {| sip_trunks := sip_trunks s;
         call_logs :=
           map (fun row =>
                  if String.eqb (CallLog.call_id row) (CallLog.call_id call_log)
                  then call_log else row)
               (call_logs s) |}).

(** [self.db.add(call_log)] *)
Definition add_call_log (call_log : CallLog.t) : Session unit :=
  fun s =>
    Returned (tt,
      {| sip_trunks := sip_trunks s;
         call_logs := call_logs s ++ [call_log] |}).

(** [await self.db.commit()] with a new row pending.  The flush sends the
    INSERT of the row, and the database refuses [NULL] in [account_id],
    declared [nullable=False] with no default: [IntegrityError]. *)
Definition commit_insert (account_id : option string) : Session unit :=
  match account_id with
  | Some _ => ret tt
  | None => raise IntegrityError
  end.

(** ** [class SipTrunkService] *)

Module SipTrunkService.

(** [self.providers]: the dict has the keys ["twilio"] and ["telnyx"]. *)
Definition providers (p : SipTrunkProvider) : bool :=
  match p with
  | TWILIO | TELNYX => true
  | BANDWIDTH | VONAGE | CUSTOM => false
  end.

(** [_get_trunk(user_id, trunk_id)] *)
Definition _get_trunk (user_id trunk_id : string) : Session (option SipTrunk.t) :=
  execute_scalar_one_or_none (fun s =>
    filter (fun row =>
              String.eqb (SipTrunk.id row) trunk_id
              && String.eqb (SipTrunk.user_id row) user_id
              && is_None (SipTrunk.deleted_at row))
           (sip_trunks s)).

(** [_get_trunk_by_id(trunk_id)] *)
Definition _get_trunk_by_id (trunk_id : string) : Session (option SipTrunk.t) :=
  execute_scalar_one_or_none (fun s =>
    filter (fun row => String.eqb (SipTrunk.id row) trunk_id) (sip_trunks s)).

(** [_call_log_to_response(call_log)] *)
Definition _call_log_to_response (call_log : CallLog.t) : CallLogResponse.t :=
  {| CallLogResponse.row := call_log;
     CallLogResponse.is_completed := CallLog.is_completed call_log;
     CallLogResponse.was_answered := CallLog.was_answered call_log |}.

(** *** [delete_sip_trunk] *)

(** The [try] block up to the commit. *)
Definition delete_sip_trunk_body (now : datetime) (user_id trunk_id : string)
  : Session bool :=
  found <- _get_trunk user_id trunk_id ;;
  match found with
  | None => ret false
  | Some trunk =>
      if SipTrunk.current_active_calls trunk >? 0
      then raise (ValueError "Cannot delete trunk with active calls")
      else flush_trunk (SipTrunk.soft_delete now trunk) ;;; ret true
  end.

(** [delete_sip_trunk(user_id, trunk_id)]: the outcome and the database
    after.  [except Exception: rollback; raise] restores the state the
    call started from.  [_cleanup_trunk_with_provider] runs after the
    commit, catches what the provider raises and touches no row. *)
Definition delete_sip_trunk (now : datetime) (user_id trunk_id : string)
    (s : db) : outcome bool * db :=
  match delete_sip_trunk_body now user_id trunk_id s with
  | Returned (deleted, s') => (Returned deleted, s')
  | Raised e => (Raised e, s)
  end.

(** *** [get_available_trunk_for_call] *)

(** The [where] clause of the query. *)
Definition available_where (user_id : string) (direction : CallDirection)
    (row : SipTrunk.t) : bool :=
  String.eqb (SipTrunk.user_id row) user_id
  && SipTrunkStatus_eqb (SipTrunk.status row) ACTIVE
  && is_None (SipTrunk.deleted_at row)
  && (CallDirection_eqb (SipTrunk.call_direction row) BIDIRECTIONAL
      || CallDirection_eqb (SipTrunk.call_direction row) direction)
  && (SipTrunk.current_active_calls row <? SipTrunk.max_concurrent_calls row).

(** [order_by(SipTrunk.priority, SipTrunk.current_active_calls)]: the
    order of the keys, and a stable insertion sort by it. *)
Definition order_key_leb (a b : SipTrunk.t) : bool :=
  (SipTrunk.priority a <? SipTrunk.priority b)
  || ((SipTrunk.priority a =? SipTrunk.priority b)
      && (SipTrunk.current_active_calls a <=? SipTrunk.current_active_calls b)).

Fixpoint insert_by_key (row : SipTrunk.t) (sorted : list SipTrunk.t)
  : list SipTrunk.t :=
  match sorted with
  | [] => [row]
  | head :: rest =>
      if order_key_leb row head then row :: sorted
      else head :: insert_by_key row rest
  end.

Definition order_by_priority_load (rows : list SipTrunk.t) : list SipTrunk.t :=
  fold_right insert_by_key [] rows.

Definition available_query (user_id : string) (direction : CallDirection)
    (s : db) : list SipTrunk.t :=
  order_by_priority_load (filter (available_where user_id direction) (sip_trunks s)).

(** [get_available_trunk_for_call(user_id, direction)]: it reads only,
    and has no [try] block. *)
Definition get_available_trunk_for_call (user_id : string)
    (direction : CallDirection) (s : db) : outcome (option SipTrunk.t) :=
  scalar_one_or_none (available_query user_id direction s).

(** *** [log_call] *)

(** The row [CallLog(...)] builds, with the column defaults of the
    insert ([cost = 0.0], [credits_used = 0]).  No keyword gives
    [account_id], and nothing assigns it later. *)
Definition new_call_log (trunk : SipTrunk.t) (call_data : CallLogCreate.t)
  : CallLog.t :=
  {| CallLog.call_id := CallLogCreate.call_id call_data;
     CallLog.user_id := SipTrunk.user_id trunk;
     CallLog.account_id := None;
     CallLog.sip_trunk_id := CallLogCreate.sip_trunk_id call_data;
     CallLog.direction := CallLogCreate.direction call_data;
     CallLog.from_number := CallLogCreate.from_number call_data;
     CallLog.to_number := CallLogCreate.to_number call_data;
     CallLog.started_at := CallLogCreate.started_at call_data;
     CallLog.answered_at := None;
     CallLog.ended_at := None;
     CallLog.duration_seconds := None;
     CallLog.status := CallLogCreate.status call_data;
     CallLog.hangup_cause := None;
     CallLog.quality_score := None;
     CallLog.codec_used := None;
     CallLog.cost := 0%float;
     CallLog.credits_used := 0 |}.

(** The [try] block through the commit.  The [bool] that
    [increment_active_calls] returns is dropped. *)
Definition log_call_body (call_data : CallLogCreate.t) : Session CallLog.t :=
  found <- _get_trunk_by_id (CallLogCreate.sip_trunk_id call_data) ;;
  match found with
  | None => raise (ValueError "SIP trunk not found")
  | Some trunk =>
      let call_log := new_call_log trunk call_data in
      add_call_log call_log ;;;
      flush_trunk (snd (SipTrunk.increment_active_calls trunk)) ;;;
      commit_insert (CallLog.account_id call_log) ;;;
      ret call_log
  end.

(** [log_call(call_data)]: the outcome and the database after.
    [except Exception: rollback; raise] restores the state the call
    started from, the counter of the trunk included. *)
Definition log_call (call_data : CallLogCreate.t) (s : db)
  : outcome CallLogResponse.t * db :=
  match log_call_body call_data s with
  | Returned (call_log, s') => (Returned (_call_log_to_response call_log), s')
  | Raised e => (Raised e, s)
  end.

(** *** [update_call_log] *)

(** The [try] block up to the commit.  The test of the first [if] reads
    [call_log.ended_at] after the loop of [setattr] has run. *)
Definition update_call_log_body (call_id : string)
    (update_data : CallLogUpdate.t) : Session (option CallLog.t) :=
  found <- execute_scalar_one_or_none (fun s =>
             filter (fun row => String.eqb (CallLog.call_id row) call_id)
                    (call_logs s)) ;;
  match found with
  | None => ret None
  | Some call_log =>
      let call_log := CallLogUpdate.setattrs update_data call_log in
      (* If call ended, decrement active calls on trunk *)
      (if negb (is_None (CallLogUpdate.attr (CallLogUpdate.ended_at update_data)))
          && is_None (CallLog.ended_at call_log)
       then
         trunk <- _get_trunk_by_id (CallLog.sip_trunk_id call_log) ;;
         match trunk with
         | Some trunk => flush_trunk (SipTrunk.decrement_active_calls trunk)
         | None => ret tt
         end
       else ret tt) ;;;
      (* Calculate duration and cost if call ended *)
      call_log <-
        (if negb (is_None (CallLog.ended_at call_log))
            && negb (is_None (CallLog.answered_at call_log))
         then
           let call_log := snd (CallLog.calculate_duration call_log) in
           trunk <- _get_trunk_by_id (CallLog.sip_trunk_id call_log) ;;
           match trunk with
           | Some trunk =>
               ret (snd (CallLog.calculate_cost
                           (SipTrunk.cost_per_minute trunk) call_log))
           | None => ret call_log
           end
         else ret call_log) ;;
      flush_call_log call_log ;;;
      ret (Some call_log)
  end.

(** [update_call_log(call_id, update_data)] *)
Definition update_call_log (call_id : string) (update_data : CallLogUpdate.t)
    (s : db) : outcome (option CallLogResponse.t) * db :=
  match update_call_log_body call_id update_data s with
  | Returned (Some call_log, s') =>
      (Returned (Some (_call_log_to_response call_log)), s')
  | Returned (None, _) => (Returned None, s)
  | Raised e => (Raised e, s)
  end.

(** *** [_perform_health_check] *)

(** The dict a provider's [health_check] returns, by the keys the
    service reads with [.get]; a key that is absent reads as [None]. *)
Record health_result := mk_health_result {
  hr_status : option string;
  hr_latency_ms : option float;
  hr_packet_loss_percent : option float
}.

(** What [await provider.health_check(trunk)] does. *)
Inductive probe :=
| ProbeReturns (result : health_result)
| ProbeRaises.

(** [_perform_health_check(trunk)]: the dict it returns and the trunk
    after.  [health_result.get("status", "unknown")] reads ["unknown"]
    when the key is absent. *)
Definition _perform_health_check (now : datetime) (p : probe)
    (trunk : SipTrunk.t) : health_result * SipTrunk.t :=
  if providers (SipTrunk.provider trunk) then
    match p with
    | ProbeReturns result =>
        (result,
         SipTrunk.update_health_status now
           (match hr_status result with Some st => st | None => "unknown" end)
           (hr_latency_ms result) (hr_packet_loss_percent result) trunk)
    | ProbeRaises =>
        ({| hr_status := Some "error"; hr_latency_ms := None;
            hr_packet_loss_percent := None |},
         SipTrunk.update_health_status now "error" None None trunk)
    end
  else
    ({| hr_status := Some "unknown"; hr_latency_ms := None;
        hr_packet_loss_percent := None |},
     SipTrunk.update_health_status now "unknown" None None trunk).

(** A run of health checks on one trunk, each with the time it is made
    at and what the provider does. *)
Definition run_health_checks (checks : list (datetime * probe))
    (trunk : SipTrunk.t) : SipTrunk.t :=
  fold_left (fun tr check =>
               snd (_perform_health_check (fst check) (snd check) tr))
            checks trunk.

(** *** [_trunk_to_response], [get_trunk_by_id] *)

(** [_trunk_to_response(trunk)].  The response schema checks the bounds of
    [SipTrunkBase] again; the rows hold values within them, as the create
    and update schemas let no other in. *)
Definition _trunk_to_response (trunk : SipTrunk.t) : SipTrunkResponse.t :=
  {| SipTrunkResponse.id := SipTrunk.id trunk;
     SipTrunkResponse.user_id := SipTrunk.user_id trunk;
     SipTrunkResponse.provider := SipTrunk.provider trunk;
     SipTrunkResponse.status := SipTrunk.status trunk;
     SipTrunkResponse.call_direction := SipTrunk.call_direction trunk;
     SipTrunkResponse.max_concurrent_calls := SipTrunk.max_concurrent_calls trunk;
     SipTrunkResponse.current_active_calls := SipTrunk.current_active_calls trunk;
     SipTrunkResponse.last_health_check := SipTrunk.last_health_check trunk;
     SipTrunkResponse.health_status := SipTrunk.health_status trunk;
     SipTrunkResponse.latency_ms := SipTrunk.latency_ms trunk;
     SipTrunkResponse.packet_loss_percent := SipTrunk.packet_loss_percent trunk;
     SipTrunkResponse.cost_per_minute := SipTrunk.cost_per_minute trunk;
     SipTrunkResponse.utilization_percent := SipTrunk.utilization_percent trunk;
     SipTrunkResponse.is_active := SipTrunk.is_active trunk;
     SipTrunkResponse.can_handle_call := SipTrunk.can_handle_call trunk |}.

(** [get_trunk_by_id(user_id, trunk_id)]: it reads only, and has no [try]
    block. *)
Definition get_trunk_by_id (user_id trunk_id : string) (s : db)
  : outcome (option SipTrunkResponse.t) :=
  match _get_trunk user_id trunk_id s with
  | Returned (Some trunk, _) => Returned (Some (_trunk_to_response trunk))
  | Returned (None, _) => Returned None
  | Raised e => Raised e
  end.

(** *** [_initialize_trunk_with_provider] *)

(** What an awaited call of a provider client does, when only returning
    or raising matters. *)
Inductive provider_call := CallReturns | CallRaises.

(** [_initialize_trunk_with_provider(trunk)]; [init] is what
    [provider.initialize_trunk(trunk)] does. *)
Definition _initialize_trunk_with_provider (init : provider_call)
    (trunk : SipTrunk.t) : SipTrunk.t :=
  if providers (SipTrunk.provider trunk) then
    match init with
    | CallReturns => SipTrunk.set_status ACTIVE trunk
    | CallRaises => SipTrunk.set_status ERROR trunk
    end
  else trunk.

(** *** [create_sip_trunk] *)

(** [_get_user(user_id)], over the table of users. *)
Definition _get_user (users : list User.t) (user_id : string)
  : outcome (option User.t) :=
  scalar_one_or_none
    (filter (fun row => String.eqb (User.id row) user_id) users).

(** [_count_user_trunks(user_id)] *)
Definition _count_user_trunks (user_id : string) (s : db) : Z :=
  Z.of_nat
    (List.length
       (filter (fun row =>
                  String.eqb (SipTrunk.user_id row) user_id
                  && is_None (SipTrunk.deleted_at row))
               (sip_trunks s))).

(** [_get_max_trunks_for_tier(tier)]: [limits.get(tier, 1)]. *)
Definition _get_max_trunks_for_tier (tier : string) : Z :=
  if String.eqb tier "free" then 1
  else if String.eqb tier "pro" then 5
  else if String.eqb tier "enterprise" then 50
  else 1.

(** The row [SipTrunk(...)] builds, with the column defaults of the
    insert; [trunk_id] is the [uuid4()] drawn for it.  No keyword gives
    [account_id], and nothing assigns it later. *)
Definition new_trunk (trunk_id user_id : string) (trunk_data : SipTrunkCreate.t)
  : SipTrunk.t :=
  {| SipTrunk.id := trunk_id;
     SipTrunk.user_id := user_id;
     SipTrunk.account_id := None;
     SipTrunk.provider := SipTrunkCreate.provider trunk_data;
     SipTrunk.status := INACTIVE;
     SipTrunk.call_direction := SipTrunkCreate.call_direction trunk_data;
     SipTrunk.max_concurrent_calls := SipTrunkCreate.max_concurrent_calls trunk_data;
     SipTrunk.current_active_calls := 0;
     SipTrunk.last_health_check := None;
     SipTrunk.health_status := "unknown";
     SipTrunk.latency_ms := None;
     SipTrunk.packet_loss_percent := None;
     SipTrunk.cost_per_minute := SipTrunkCreate.cost_per_minute trunk_data;
     SipTrunk.failover_trunk_id := None;
     SipTrunk.priority := SipTrunkCreate.priority trunk_data;
     SipTrunk.deleted_at := None |}.

(** The message of the limit: an f-string with [max_trunks] in decimal. *)
Definition trunk_limit_message (max_trunks : Z) : string :=
  "Maximum number of trunks ("
  ++ NilZero.string_of_int (Z.to_int max_trunks)
  ++ ") reached for your tier".

(** The checks that open the [try] block: the trunk to insert, or the
    exception. *)
Definition create_sip_trunk_checks (users : list User.t)
    (user_id trunk_id : string) (trunk_data : SipTrunkCreate.t) (s : db)
  : outcome SipTrunk.t :=
  match _get_user users user_id with
  | Raised e => Raised e
  | Returned None => Raised (ValueError "User not found")
  | Returned (Some user) =>
      let current_trunks := _count_user_trunks user_id s in
      let max_trunks := _get_max_trunks_for_tier (UserTier_value (User.tier user)) in
      if current_trunks >=? max_trunks
      then Raised (ValueError (trunk_limit_message max_trunks))
      else Returned (new_trunk trunk_id user_id trunk_data)
  end.

(** [create_sip_trunk(user_id, trunk_data)]: the outcome and the database
    the request leaves.  The trunk is added and committed: the commit
    sends the INSERT, which fails on a trunk with no [account_id], and
    [except Exception: rollback; raise] restores the state the call started
    from.  After a commit that passes, [_initialize_trunk_with_provider]
    and [_perform_health_check] write on the same object, and the commit
    that ends a request that returns stores what they wrote. *)
Definition create_sip_trunk (users : list User.t) (init : provider_call)
    (now : datetime) (p : probe) (user_id trunk_id : string)
    (trunk_data : SipTrunkCreate.t) (s : db)
  : outcome SipTrunkResponse.t * db :=
  match create_sip_trunk_checks users user_id trunk_id trunk_data s with
  | Returned trunk =>
      match commit_insert (SipTrunk.account_id trunk) s with
      | Returned _ =>
          let trunk := _initialize_trunk_with_provider init trunk in
          let trunk := snd (_perform_health_check now p trunk) in
          (Returned (_trunk_to_response trunk),
           {| sip_trunks := sip_trunks s ++ [trunk];
              call_logs := call_logs s |})
      | Raised e => (Raised e, s)
      end
  | Raised e => (Raised e, s)
  end.

(** *** [update_sip_trunk] *)

(** The [try] block.  Nothing raises after the lookup, so the commit in
    the middle does not show; [updated_at] is no column of the model.
    The re-initialisation writes after the commit, on the same object. *)
Definition update_sip_trunk_body (init : provider_call)
    (user_id trunk_id : string) (update_data : SipTrunkUpdate.t)
  : Session (option SipTrunk.t) :=
  found <- _get_trunk user_id trunk_id ;;
  match found with
  | None => ret None
  | Some trunk =>
      let trunk := SipTrunkUpdate.setattrs update_data trunk in
      let trunk :=
        if SipTrunkUpdate.configuration_changed update_data
        then _initialize_trunk_with_provider init trunk
        else trunk in
      flush_trunk trunk ;;;
      ret (Some trunk)
  end.

(** [update_sip_trunk(user_id, trunk_id, update_data)]: the outcome and
    the database the request leaves. *)
Definition update_sip_trunk (init : provider_call) (user_id trunk_id : string)
    (update_data : SipTrunkUpdate.t) (s : db)
  : outcome (option SipTrunkResponse.t) * db :=
  match update_sip_trunk_body init user_id trunk_id update_data s with
  | Returned (Some trunk, s') => (Returned (Some (_trunk_to_response trunk)), s')
  | Returned (None, _) => (Returned None, s)
  | Raised e => (Raised e, s)
  end.

(** *** [perform_health_checks] *)

(** [d[key] = value] on a dict kept as the list of its items in insertion
    order. *)
Definition dict_set {V : Type} (key : string) (value : V)
    (d : list (string * V)) : list (string * V) :=
  if existsb (fun item => String.eqb (fst item) key) d
  then map (fun item => if String.eqb (fst item) key then (key, value) else item) d
  else d ++ [(key, value)].

(** The rows of the query: not deleted, and of [user_id] when the argument
    is true in a condition, that is neither [None] nor [""]. *)
Definition health_check_where (user_id : option string) (row : SipTrunk.t)
  : bool :=
  is_None (SipTrunk.deleted_at row)
  && match user_id with
     | None => true
     | Some u => if String.eqb u "" then true
                 else String.eqb (SipTrunk.user_id row) u
     end.

(** [perform_health_checks(user_id=None)]: the dict it returns and the
    database after its commit.  [world] gives, for a trunk, the time of
    its check and what its provider does.  [_perform_health_check] lets no
    exception out, so the [except] of the loop is not taken. *)
Definition perform_health_checks (world : SipTrunk.t -> datetime * probe)
    (user_id : option string) (s : db)
  : list (string * health_result) * db :=
  let check trunk :=
    _perform_health_check (fst (world trunk)) (snd (world trunk)) trunk in
  (fold_left
     (fun health_results trunk =>
        dict_set (SipTrunk.id trunk) (fst (check trunk)) health_results)
     (filter (health_check_where user_id) (sip_trunks s)) [],
   {| sip_trunks :=
        map (fun row =>
               if health_check_where user_id row then snd (check row) else row)
            (sip_trunks s);
      call_logs := call_logs s |}).

End SipTrunkService.

(** ** The provider clients of [services/telephony_providers.py] *)

(** What the one [GET] of a client does: the request raises, or a response
    comes back with its status code and, in [body], what reading the JSON
    gives when the code asks for it: [None] when [response.json()] or the
    reads on it raise, [Some st] for an object whose ["status"] key holds
    [st] ([Some None] when the key is absent). *)
Inductive http_get :=
| GetRaises
| GetResponse (status_code : Z) (body : option (option string)).

Definition error_result : SipTrunkService.health_result :=
  {| SipTrunkService.hr_status := Some "error";
     SipTrunkService.hr_latency_ms := None;
     SipTrunkService.hr_packet_loss_percent := None |}.

Definition timed_result (status : string) (latency_ms : float)
  : SipTrunkService.health_result :=
  {| SipTrunkService.hr_status := Some status;
     SipTrunkService.hr_latency_ms := Some latency_ms;
     SipTrunkService.hr_packet_loss_percent := None |}.

Module TwilioProvider.

(** [initialize_trunk(trunk)]; [credentials] tells whether [account_sid]
    and [auth_token] are both set. *)
Definition initialize_trunk (credentials : bool) (http : http_get)
  : SipTrunkService.provider_call :=
  if credentials then
    match http with
    | GetRaises => SipTrunkService.CallRaises
    | GetResponse status_code body =>
        if status_code =? 200 then
          match body with
          | Some _ => SipTrunkService.CallReturns
          | None => SipTrunkService.CallRaises
          end
        else SipTrunkService.CallRaises
    end
  else SipTrunkService.CallRaises.

(** [health_check(trunk)]; [latency_ms] is the time measured around the
    request. *)
Definition health_check (http : http_get) (latency_ms : float)
  : SipTrunkService.probe :=
  match http with
  | GetRaises => SipTrunkService.ProbeReturns error_result
  | GetResponse status_code body =>
      if status_code =? 200 then
        match body with
        | Some account_status =>
            let status :=
              match account_status with Some st => st | None => "unknown" end in
            SipTrunkService.ProbeReturns
              (timed_result
                 (if String.eqb status "active" then "healthy" else "unhealthy")
                 latency_ms)
        | None => SipTrunkService.ProbeReturns error_result
        end
      else SipTrunkService.ProbeReturns (timed_result "unhealthy" latency_ms)
  end.

End TwilioProvider.

Module TelnyxProvider.

(** [initialize_trunk(trunk)]; [credentials] tells whether [api_key] is
    set. *)
Definition initialize_trunk (credentials : bool) (http : http_get)
  : SipTrunkService.provider_call :=
  if credentials then
    match http with
    | GetRaises => SipTrunkService.CallRaises
    | GetResponse status_code body =>
        if status_code =? 200 then
          match body with
          | Some _ => SipTrunkService.CallReturns
          | None => SipTrunkService.CallRaises
          end
        else SipTrunkService.CallRaises
    end
  else SipTrunkService.CallRaises.

(** [health_check(trunk)]: a response with code 200 whose JSON reads is
    healthy, whatever the account says. *)
Definition health_check (http : http_get) (latency_ms : float)
  : SipTrunkService.probe :=
  match http with
  | GetRaises => SipTrunkService.ProbeReturns error_result
  | GetResponse status_code body =>
      if status_code =? 200 then
        match body with
        | Some _ => SipTrunkService.ProbeReturns (timed_result "healthy" latency_ms)
        | None => SipTrunkService.ProbeReturns error_result
        end
      else SipTrunkService.ProbeReturns (timed_result "unhealthy" latency_ms)
  end.

End TelnyxProvider.

(** The clients in [self.providers] of the service, by provider. *)
Definition provider_health_check (p : SipTrunkProvider)
  : option (http_get -> float -> SipTrunkService.probe) :=
  match p with
  | TWILIO => Some TwilioProvider.health_check
  | TELNYX => Some TelnyxProvider.health_check
  | BANDWIDTH | VONAGE | CUSTOM => None
  end.

(** [_perform_health_check(trunk)] with the client of the trunk's provider
    in place: [http] and [latency_ms] are what the client meets.  A
    provider with no client makes no request. *)
Definition health_check_with_client (now : datetime) (http : http_get)
    (latency_ms : float) (trunk : SipTrunk.t) : SipTrunk.t :=
  match provider_health_check (SipTrunk.provider trunk) with
  | Some client =>
      snd (SipTrunkService._perform_health_check now (client http latency_ms) trunk)
  | None => SipTrunk.update_health_status now "unknown" None None trunk
  end.

(** The same for [initialize_trunk]: [credentials] and [http] are what the
    client has and meets. *)
Definition provider_initialize_trunk (p : SipTrunkProvider)
  : option (bool -> http_get -> SipTrunkService.provider_call) :=
  match p with
  | TWILIO => Some TwilioProvider.initialize_trunk
  | TELNYX => Some TelnyxProvider.initialize_trunk
  | BANDWIDTH | VONAGE | CUSTOM => None
  end.

Definition initialize_with_client (credentials : bool) (http : http_get)
    (trunk : SipTrunk.t) : SipTrunk.t :=
  match provider_initialize_trunk (SipTrunk.provider trunk) with
  | Some client =>
      SipTrunkService._initialize_trunk_with_provider (client credentials http)
        trunk
  | None => trunk
  end.

(** ** Requests in sequence *)

(** The writing operations of the service, each with what it is called
    with and what the outside answers. *)
Inductive request :=
| CreateSipTrunk (users : list User.t) (init : SipTrunkService.provider_call)
    (now : datetime) (p : SipTrunkService.probe) (user_id trunk_id : string)
    (trunk_data : SipTrunkCreate.t)
| UpdateSipTrunk (init : SipTrunkService.provider_call)
    (user_id trunk_id : string) (update_data : SipTrunkUpdate.t)
| DeleteSipTrunk (now : datetime) (user_id trunk_id : string)
| PerformHealthChecks (world : SipTrunk.t -> datetime * SipTrunkService.probe)
    (user_id : option string)
| LogCall (call_data : CallLogCreate.t)
| UpdateCallLog (call_id : string) (update_data : CallLogUpdate.t).

(** The database a request leaves. *)
Definition handle (r : request) (s : db) : db :=
  match r with
  | CreateSipTrunk users init now p user_id trunk_id trunk_data =>
      snd (SipTrunkService.create_sip_trunk users init now p user_id trunk_id
             trunk_data s)
  | UpdateSipTrunk init user_id trunk_id update_data =>
      snd (SipTrunkService.update_sip_trunk init user_id trunk_id update_data s)
  | DeleteSipTrunk now user_id trunk_id =>
      snd (SipTrunkService.delete_sip_trunk now user_id trunk_id s)
  | PerformHealthChecks world user_id =>
      snd (SipTrunkService.perform_health_checks world user_id s)
  | LogCall call_data => snd (SipTrunkService.log_call call_data s)
  | UpdateCallLog call_id update_data =>
      snd (SipTrunkService.update_call_log call_id update_data s)
  end.

Definition handle_all (requests : list request) (s : db) : db :=
  fold_left (fun state r => handle r state) requests s.

(** The capacity invariant on every row, and what a request must be for
    the service to keep it: a create within the bound of its schema, and
    an update that does not set [max_concurrent_calls]. *)
Definition db_within_capacity (s : db) : Prop :=
  Forall SipTrunk.within_capacity (sip_trunks s).

(** The [id]s a run of requests asks to create trunks under. *)
Definition created_ids (requests : list request) : list string :=
  flat_map (fun r =>
              match r with
              | CreateSipTrunk _ _ _ _ _ trunk_id _ => [trunk_id]
              | _ => []
              end)
           requests.

(** [after] holds the rows of [before] in place, each under its [id] with
    a counter that is not lower, followed by the rows added since. *)
Definition counters_grow (before after : list SipTrunk.t) : Prop :=
  exists kept added,
    after = kept ++ added
    /\ Forall2 (fun old new =>
                  SipTrunk.id new = SipTrunk.id old
                  /\ SipTrunk.current_active_calls old
                     <= SipTrunk.current_active_calls new)
               before kept.

Definition keeps_capacity (r : request) : Prop :=
  match r with
  | CreateSipTrunk _ _ _ _ _ _ trunk_data =>
      1 <= SipTrunkCreate.max_concurrent_calls trunk_data
  | UpdateSipTrunk _ _ _ update_data =>
      SipTrunkUpdate.max_concurrent_calls update_data = None
  | _ => True
  end.

(** ** What the statements below compare the service with *)


(** What the second [if] of [update_call_log] makes of the call log the
    loop of [setattr] has written: [rate] is the [cost_per_minute] of the
    trunk of the call, [None] when the lookup finds no trunk. *)
Definition settled (rate : option float) (call_log : CallLog.t) : CallLog.t :=
  if negb (is_None (CallLog.ended_at call_log))
     && negb (is_None (CallLog.answered_at call_log))
  then
    let timed := snd (CallLog.calculate_duration call_log) in
    match rate with
    | Some r => snd (CallLog.calculate_cost r timed)
    | None => timed
    end
  else call_log.

(** Two states of a trunk that differ at most in the four health columns
    ([last_health_check], [health_status], [latency_ms],
    [packet_loss_percent]). *)
Definition same_but_health (before after : SipTrunk.t) : Prop :=
  SipTrunk.id after = SipTrunk.id before
  /\ SipTrunk.user_id after = SipTrunk.user_id before
  /\ SipTrunk.account_id after = SipTrunk.account_id before
  /\ SipTrunk.provider after = SipTrunk.provider before
  /\ SipTrunk.status after = SipTrunk.status before
  /\ SipTrunk.call_direction after = SipTrunk.call_direction before
  /\ SipTrunk.max_concurrent_calls after = SipTrunk.max_concurrent_calls before
  /\ SipTrunk.current_active_calls after = SipTrunk.current_active_calls before
  /\ SipTrunk.cost_per_minute after = SipTrunk.cost_per_minute before
  /\ SipTrunk.failover_trunk_id after = SipTrunk.failover_trunk_id before
  /\ SipTrunk.priority after = SipTrunk.priority before
  /\ SipTrunk.deleted_at after = SipTrunk.deleted_at before.



(** ** Sample rows *)

Module Sample.

Definition trunk (tid : string) (st : SipTrunkStatus) (health : string)
    (prio active cap : Z) (failover : option string) : SipTrunk.t :=
  {| SipTrunk.id := tid; SipTrunk.user_id := "u1";
     SipTrunk.account_id := Some "acct1";
     SipTrunk.provider := TWILIO; SipTrunk.status := st;
     SipTrunk.call_direction := BIDIRECTIONAL;
     SipTrunk.max_concurrent_calls := cap;
     SipTrunk.current_active_calls := active;
     SipTrunk.last_health_check := None;
     SipTrunk.health_status := health;
     SipTrunk.latency_ms := None;
     SipTrunk.packet_loss_percent := None;
     SipTrunk.cost_per_minute := 0.5%float;
     SipTrunk.failover_trunk_id := failover;
     SipTrunk.priority := prio;
     SipTrunk.deleted_at := None |}.

(** A call on trunk ["A"], started at second 0. *)
Definition call (cid status : string) (answered ended : option datetime)
    (duration : option Z) : CallLog.t :=
  {| CallLog.call_id := cid; CallLog.user_id := "u1";
     CallLog.account_id := Some "acct1";
     CallLog.sip_trunk_id := "A"; CallLog.direction := OUTBOUND;
     CallLog.from_number := "+15550100"; CallLog.to_number := "+15550101";
     CallLog.started_at := 0;
     CallLog.answered_at := answered; CallLog.ended_at := ended;
     CallLog.duration_seconds := duration;
     CallLog.status := status; CallLog.hangup_cause := None;
     CallLog.quality_score := None; CallLog.codec_used := None;
     CallLog.cost := 0%float; CallLog.credits_used := 0 |}.

(** Whole seconds as a [datetime]. *)
Definition seconds (n : Z) : datetime := n * 1000000.

(** A request to log a call on trunk ["A"]. *)
Definition create (cid : string) : CallLogCreate.t :=
  {| CallLogCreate.call_id := cid; CallLogCreate.sip_trunk_id := "A";
     CallLogCreate.direction := OUTBOUND;
     CallLogCreate.from_number := "+15550100";
     CallLogCreate.to_number := "+15550101";
     CallLogCreate.started_at := 0;
     CallLogCreate.status := "initiated" |}.

(** The update that reports the end of a call at second [n]. *)
Definition ended_update (n : Z) : CallLogUpdate.t :=
  {| CallLogUpdate.answered_at := None;
     CallLogUpdate.ended_at := Some (Some (seconds n));
     CallLogUpdate.status := None; CallLogUpdate.hangup_cause := None;
     CallLogUpdate.quality_score := None; CallLogUpdate.codec_used := None;
     CallLogUpdate.duration_seconds := None; CallLogUpdate.cost := None;
     CallLogUpdate.credits_used := None |}.


(** One healthy trunk ["A"] carrying its only call ["c1"] (1 of 5), the
    call answered at second 10 and not ended. *)
Definition one_call_in_progress : db :=
  {| sip_trunks := [trunk "A" ACTIVE "healthy" 1 1 5 None];
     call_logs := [call "c1" "answered" (Some (seconds 10)) None None] |}.

(** Trunk ["A"] idle, its call ["c1"] ended at second 70. *)
Definition one_call_ended : db :=
  {| sip_trunks := [trunk "A" ACTIVE "healthy" 1 0 5 None];
     call_logs :=
       [call "c1" "ended" (Some (seconds 10)) (Some (seconds 70)) (Some 60)] |}.

(** Trunk ["A"] full (5 of 5) and no call logged yet. *)
Definition full_trunk : db :=
  {| sip_trunks := [trunk "A" ACTIVE "healthy" 1 5 5 None];
     call_logs := [] |}.

(** The three trunks of one user: priority 1 at 3 of 5, priority 1 at 1
    of 5, priority 2 at 0 of 5. *)
Definition three_trunks : db :=
  {| sip_trunks := [trunk "T1" ACTIVE "healthy" 1 3 5 None;
                    trunk "T2" ACTIVE "healthy" 1 1 5 None;
                    trunk "T3" ACTIVE "healthy" 2 0 5 None];
     call_logs := [] |}.


(** The same cycle with ["B"] idle too: both trunks pass the filter of
    the query. *)
Definition failover_cycle_idle : db :=
  {| sip_trunks := [trunk "A" ACTIVE "unhealthy" 1 0 5 (Some "B");
                    trunk "B" ACTIVE "unhealthy" 1 0 5 (Some "A")];
     call_logs := [] |}.

(** Two users: ["u1"] on the free tier, ["u2"] on the pro tier. *)
Definition users : list User.t :=
  [{| User.id := "u1"; User.tier := FREE |};
   {| User.id := "u2"; User.tier := PRO |}].

(** A request to create a trunk of [provider] with room for 5 calls. *)
Definition create_trunk (provider : SipTrunkProvider) : SipTrunkCreate.t :=
  {| SipTrunkCreate.provider := provider;
     SipTrunkCreate.call_direction := BIDIRECTIONAL;
     SipTrunkCreate.max_concurrent_calls := 5;
     SipTrunkCreate.cost_per_minute := 0.5%float;
     SipTrunkCreate.priority := 1 |}.

(** A health check that reports ["healthy"] after 20 ms. *)
Definition healthy_probe : SipTrunkService.probe :=
  SipTrunkService.ProbeReturns
    {| SipTrunkService.hr_status := Some "healthy";
       SipTrunkService.hr_latency_ms := Some 20%float;
       SipTrunkService.hr_packet_loss_percent := None |}.

(** The update of a trunk that only sets [max_concurrent_calls]. *)
Definition capacity_update (m : Z) : SipTrunkUpdate.t :=
  {| SipTrunkUpdate.status := None; SipTrunkUpdate.sip_password := None;
     SipTrunkUpdate.call_direction := None;
     SipTrunkUpdate.max_concurrent_calls := Some m;
     SipTrunkUpdate.cost_per_minute := None;
     SipTrunkUpdate.priority := None |}.

(** The update that suspends a trunk and changes its password. *)
Definition suspend_with_password : SipTrunkUpdate.t :=
  {| SipTrunkUpdate.status := Some SUSPENDED;
     SipTrunkUpdate.sip_password := Some "secret";
     SipTrunkUpdate.call_direction := None;
     SipTrunkUpdate.max_concurrent_calls := None;
     SipTrunkUpdate.cost_per_minute := None;
     SipTrunkUpdate.priority := None |}.

End Sample.

(** * Properties *)

Lemma SipTrunkStatus_eqb_eq (a b : SipTrunkStatus) :
  SipTrunkStatus_eqb a b = true <-> a = b.
Proof. destruct a, b; simpl; split; congruence. Qed.

Lemma can_handle_call_admissible (self : SipTrunk.t) :
  SipTrunk.can_handle_call self = true <-> SipTrunk.admissible self.
Proof.
  unfold SipTrunk.can_handle_call, SipTrunk.is_active, SipTrunk.admissible.
  rewrite !andb_true_iff, SipTrunkStatus_eqb_eq, String.eqb_eq, Z.ltb_lt.
  tauto.
Qed.

Lemma increment_admitted (self : SipTrunk.t) :
  SipTrunk.admissible self ->
  SipTrunk.increment_active_calls self
  = (true,
     SipTrunk.set_current_active_calls
       (SipTrunk.current_active_calls self + 1) self).
Proof.
  intros H. apply can_handle_call_admissible in H.
  unfold SipTrunk.increment_active_calls. now rewrite H.
Qed.

Lemma increment_refused (self : SipTrunk.t) :
  ~ SipTrunk.admissible self ->
  SipTrunk.increment_active_calls self = (false, self).
Proof.
  intros H. unfold SipTrunk.increment_active_calls.
  destruct (SipTrunk.can_handle_call self) eqn:E; [| reflexivity].
  apply can_handle_call_admissible in E. contradiction.
Qed.

(** C2, as the code has it: [increment_active_calls] returns [True] and
    raises [current_active_calls] by exactly one when the trunk's status is
    ACTIVE, its [health_status] is ["healthy"] and
    [current_active_calls < max_concurrent_calls]; in every other case
    (an ["unknown"] health among them) it returns [False] and the trunk is
    unchanged. *)
Theorem increment_active_calls_iff_admissible (self : SipTrunk.t) :
  (SipTrunk.admissible self
   /\ SipTrunk.increment_active_calls self
      = (true,
         SipTrunk.set_current_active_calls
           (SipTrunk.current_active_calls self + 1) self))
  \/ (~ SipTrunk.admissible self
      /\ SipTrunk.increment_active_calls self = (false, self)).
Proof.
  destruct (SipTrunk.can_handle_call self) eqn:E.
  - apply can_handle_call_admissible in E.
    left. split; [assumption | now apply increment_admitted].
  - assert (H : ~ SipTrunk.admissible self).
    { intro H. apply can_handle_call_admissible in H. congruence. }
    right. split; [assumption | now apply increment_refused].
Qed.

(** C2, the claim as stated fails: an ACTIVE trunk whose health is
    ["unknown"] and that has free capacity (0 of 10) is refused. *)
Lemma increment_active_calls_refuses_unknown_health :
  let tr := Sample.trunk "A" ACTIVE "unknown" 1 0 10 None in
  SipTrunk.status tr = ACTIVE
  /\ SipTrunk.health_status tr = "unknown"
  /\ SipTrunk.current_active_calls tr < SipTrunk.max_concurrent_calls tr
  /\ SipTrunk.increment_active_calls tr = (false, tr).
Proof. cbv zeta. repeat split. Qed.

Lemma increment_within_capacity (self : SipTrunk.t) :
  SipTrunk.within_capacity self ->
  SipTrunk.within_capacity (snd (SipTrunk.increment_active_calls self)).
Proof.
  unfold SipTrunk.within_capacity, SipTrunk.increment_active_calls.
  destruct (SipTrunk.can_handle_call self) eqn:E; simpl; [| tauto].
  apply can_handle_call_admissible in E. destruct E as (_ & _ & Hlt). lia.
Qed.

Lemma decrement_within_capacity (self : SipTrunk.t) :
  SipTrunk.within_capacity self ->
  SipTrunk.within_capacity (SipTrunk.decrement_active_calls self).
Proof.
  unfold SipTrunk.within_capacity, SipTrunk.decrement_active_calls.
  destruct (SipTrunk.current_active_calls self >? 0) eqn:E; simpl; [| tauto].
  apply Z.gtb_lt in E. lia.
Qed.

Lemma apply_op_max_concurrent_calls (op : SipTrunk.capacity_op) (self : SipTrunk.t) :
  SipTrunk.max_concurrent_calls (SipTrunk.apply_op op self)
  = SipTrunk.max_concurrent_calls self.
Proof.
  destruct op; simpl;
    unfold SipTrunk.increment_active_calls, SipTrunk.decrement_active_calls;
    [destruct (SipTrunk.can_handle_call self)
    | destruct (SipTrunk.current_active_calls self >? 0)]; reflexivity.
Qed.

(** C3: from a trunk with [0 <= current_active_calls <= max_concurrent_calls],
    every finite sequence of [increment_active_calls] and
    [decrement_active_calls] ends in a trunk with the same
    [max_concurrent_calls] and [0 <= current_active_calls <=
    max_concurrent_calls]. *)
Theorem run_ops_within_capacity (ops : list SipTrunk.capacity_op) (self : SipTrunk.t) :
  SipTrunk.within_capacity self ->
  SipTrunk.within_capacity (SipTrunk.run_ops ops self)
  /\ SipTrunk.max_concurrent_calls (SipTrunk.run_ops ops self)
     = SipTrunk.max_concurrent_calls self.
Proof.
  unfold SipTrunk.run_ops. revert self.
  induction ops as [| op ops IH]; intros self Hinv; simpl.
  - split; [assumption | reflexivity].
  - destruct (IH (SipTrunk.apply_op op self)) as [Hcap Hmax].
    + destruct op; simpl;
        [now apply increment_within_capacity
        | now apply decrement_within_capacity].
    + split; [assumption |].
      now rewrite Hmax, apply_op_max_concurrent_calls.
Qed.

Lemma run_ops_within_capacity_witness :
  let tr := Sample.trunk "A" ACTIVE "healthy" 1 1 2 None in
  let ops := [SipTrunk.Increment; SipTrunk.Increment; SipTrunk.Decrement;
              SipTrunk.Decrement; SipTrunk.Decrement; SipTrunk.Increment] in
  SipTrunk.within_capacity tr
  /\ SipTrunk.within_capacity (SipTrunk.run_ops ops tr)
  /\ SipTrunk.current_active_calls (SipTrunk.run_ops ops tr) = 1.
Proof.
  cbv zeta.
  split; [unfold SipTrunk.within_capacity; simpl; lia |].
  split; [| reflexivity].
  apply run_ops_within_capacity. unfold SipTrunk.within_capacity; simpl; lia.
Defined.

(** ** Lookups *)

Lemma scalar_one_or_none_Some {A : Type} (rows : list A) (row : A) :
  scalar_one_or_none rows = Returned (Some row) -> rows = [row].
Proof.
  destruct rows as [| r [| r' rest]]; simpl; intros H; try discriminate.
  now inversion H.
Qed.

Lemma execute_scalar_one_or_none_Some {A : Type} (query : db -> list A)
    (s : db) (row : A) :
  execute_scalar_one_or_none query s = Returned (Some row, s) ->
  query s = [row].
Proof.
  unfold execute_scalar_one_or_none.
  destruct (scalar_one_or_none (query s)) as [found |] eqn:E; [| discriminate].
  intros H. inversion H; subst. now apply scalar_one_or_none_Some.
Qed.

(** ** Duration and cost *)

(** *** [int(total_seconds())] in binary64 *)

(** The number of binary digits of a positive number. *)
Lemma digits2_pos_bounds (p : positive) :
  2 ^ (Zpos (digits2_pos p) - 1) <= Zpos p < 2 ^ Zpos (digits2_pos p).
Proof.
  induction p as [p IH | p IH |]; cbn [digits2_pos].
  - rewrite Pos2Z.inj_succ.
    replace (Z.succ (Zpos (digits2_pos p)) - 1) with (Z.succ (Zpos (digits2_pos p) - 1)) by lia.
    rewrite !Z.pow_succ_r by lia. lia.
  - rewrite Pos2Z.inj_succ.
    replace (Z.succ (Zpos (digits2_pos p)) - 1) with (Z.succ (Zpos (digits2_pos p) - 1)) by lia.
    rewrite !Z.pow_succ_r by lia. lia.
  - cbn. lia.
Qed.

Lemma digits2_pos_eq (p : positive) (n : Z) :
  2 ^ (n - 1) <= Zpos p < 2 ^ n -> Zpos (digits2_pos p) = n.
Proof.
  intros [Hlo Hhi].
  pose proof (digits2_pos_bounds p) as [Dlo Dhi].
  destruct (Z.lt_trichotomy (Zpos (digits2_pos p)) n) as [Hlt | [Heq | Hgt]];
    [| exact Heq |].
  - assert (2 ^ Zpos (digits2_pos p) <= 2 ^ (n - 1))
      by (apply Z.pow_le_mono_r; lia).
    lia.
  - assert (0 <= n).
    { destruct (Z.le_gt_cases 0 n) as [H | H]; [exact H |].
      rewrite (Z.pow_neg_r 2 n) in Hhi by lia. lia. }
    assert (2 ^ n <= 2 ^ (Zpos (digits2_pos p) - 1))
      by (apply Z.pow_le_mono_r; lia).
    lia.
Qed.

(** The quotient [SFdiv] computes before rounding, for a mantissa of at
    most 54 digits over [10**6]: the dividend is shifted to 73 digits, so
    that the integer quotient has 53 or 54. *)
Lemma SFdiv_core_binary_by_million (p : positive) :
  let t := 73 - Zpos (digits2_pos p) in
  Zpos (digits2_pos p) <= 54 ->
  SFdiv_core_binary prec emax (Zpos p) 0 1000000 0
  = (Zpos p * 2 ^ t / 1000000, - t,
     new_location 1000000 ((Zpos p * 2 ^ t) mod 1000000)).
Proof.
  intros t Hd.
  unfold SFdiv_core_binary.
  change (Zdigits2 (Zpos p)) with (Zpos (digits2_pos p)).
  change (Zdigits2 1000000) with 20.
  unfold fexp, emin, prec, emax.
  replace (Z.min _ (0 - 0)) with (- t) by (subst t; lia).
  replace (0 - 0 - - t) with t by lia.
  assert (Ht : 19 <= t) by (subst t; lia).
  destruct t as [| t' | t'] eqn:Et; try lia.
  rewrite Z.shiftl_mul_pow2 by lia.
  unfold Z.div, Z.modulo.
  destruct (Z.div_eucl _ _). reflexivity.
Qed.


Lemma Zdigits2_eq (q n : Z) :
  0 < q -> 2 ^ (n - 1) <= q < 2 ^ n -> Zdigits2 q = n.
Proof.
  intros Hq H. destruct q as [| p | p]; try lia.
  cbn [Zdigits2]. now apply digits2_pos_eq.
Qed.

Lemma shr_record_of_loc_m (m : Z) (l : location) :
  shr_m (shr_record_of_loc m l) = m.
Proof. destruct l as [| []]; reflexivity. Qed.

Lemma loc_of_shr_record_of_loc (m : Z) (l : location) :
  loc_of_shr_record (shr_record_of_loc m l) = l.
Proof. destruct l as [| []]; reflexivity. Qed.


(** The last normalisation of [binary_round_aux], on a mantissa of 53
    digits or on [2**53]: the integer part of the float it gives. *)
Lemma finish_round (s : bool) (m e : Z) :
  2 ^ 52 <= m <= 2 ^ 53 -> -1074 <= e <= -2 ->
  int_of_float
    (let '(mrs, e') := shr_fexp prec emax m e loc_Exact in
     match shr_m mrs with
     | Z0 => S754_zero s
     | Zpos m' => if e' <=? emax - prec then S754_finite s m' e' else S754_infinity s
     | Zneg _ => S754_nan
     end)
  = cond_Zopp s (m / 2 ^ (- e)).
Proof.
  intros Hm He.
  destruct (Z.eq_dec m (2 ^ 53)) as [-> | Hne].
  - unfold shr_fexp.
    change (Zdigits2 (2 ^ 53)) with 54.
    unfold fexp, emin, prec, emax.
    replace (Z.max (54 + e - 53) (3 - 1024 - 53) - e) with 1 by lia.
    cbn [shr shr_record_of_loc iter_pos]. 
    change (shr_m (shr_1 {| shr_m := 2 ^ 53; shr_r := false; shr_s := false |}))
      with (2 ^ 52).
    change (2 ^ 52) with (Zpos 4503599627370496).
    cbv iota beta.
    replace (e + 1 <=? 1024 - 53) with true by (symmetry; apply Z.leb_le; lia).
    unfold int_of_float.
    replace (0 <=? e + 1) with false by (symmetry; apply Z.leb_gt; lia).
    f_equal.
    replace (- e) with (1 + (- (e + 1))) by lia.
    rewrite Z.pow_add_r by lia.
    change (2 ^ 53) with (2 * 4503599627370496). change (2 ^ 1) with 2.
    rewrite Z.div_mul_cancel_l by lia. reflexivity.
  - unfold shr_fexp.
    rewrite (Zdigits2_eq m 53) by (change (2 ^ (53 - 1)) with (2 ^ 52); lia).
    unfold fexp, emin, prec, emax.
    replace (Z.max (53 + e - 53) (3 - 1024 - 53) - e) with 0 by lia.
    cbn [shr shr_record_of_loc shr_m].
    destruct m as [| m' | m']; try lia.
    replace (e <=? 1024 - 53) with true by (symmetry; apply Z.leb_le; lia).
    unfold int_of_float.
    replace (0 <=? e) with false by (symmetry; apply Z.leb_gt; lia).
    reflexivity.
Qed.


Lemma round_nearest_even_cases (m : Z) (l : location) :
  round_nearest_even m l = m
  \/ (round_nearest_even m l = m + 1
      /\ (l = loc_Inexact Eq \/ l = loc_Inexact Gt)).
Proof.
  destruct l as [| []]; cbn [round_nearest_even]; auto.
  destruct (Z.even m); auto.
Qed.

(** Rounding a quotient of 53 digits: the mantissa stays or goes one up,
    and it goes up only from a remainder of a half or more. *)
Lemma round_53 (s : bool) (q e : Z) (l : location) :
  2 ^ 52 <= q < 2 ^ 53 -> -1074 <= e <= -2 ->
  exists m,
    int_of_float (binary_round_aux prec emax s q e l) = cond_Zopp s (m / 2 ^ (- e))
    /\ (m = q \/ (m = q + 1 /\ (l = loc_Inexact Eq \/ l = loc_Inexact Gt))).
Proof.
  intros Hq He.
  exists (round_nearest_even q l). split; [| apply round_nearest_even_cases].
  unfold binary_round_aux.
  unfold shr_fexp at 1.
  rewrite (Zdigits2_eq q 53) by (change (2 ^ (53 - 1)) with (2 ^ 52); lia).
  unfold fexp at 1. unfold emin, prec at 1 2, emax at 1.
  replace (Z.max (53 + e - 53) (3 - 1024 - 53) - e) with 0 by lia.
  cbn [shr].
  rewrite shr_record_of_loc_m, loc_of_shr_record_of_loc.
  apply finish_round; [| exact He].
  destruct (round_nearest_even_cases q l) as [-> | [-> _]]; lia.
Qed.

(** Rounding a quotient of 54 digits: its last digit is shifted out, and
    the mantissa goes one up only when that digit was 1. *)
Lemma round_54 (s : bool) (q e : Z) (l : location) :
  2 ^ 53 <= q < 2 ^ 54 -> -1074 <= e <= -3 ->
  exists m,
    int_of_float (binary_round_aux prec emax s q e l)
    = cond_Zopp s (m / 2 ^ (- (e + 1)))
    /\ (m = q / 2 \/ (m = q / 2 + 1 /\ Z.odd q = true)).
Proof.
  intros Hq He.
  unfold binary_round_aux.
  unfold shr_fexp at 1.
  rewrite (Zdigits2_eq q 54) by (change (2 ^ (54 - 1)) with (2 ^ 53); lia).
  unfold fexp at 1. unfold emin, prec at 1 2, emax at 1.
  replace (Z.max (54 + e - 53) (3 - 1024 - 53) - e) with 1 by lia.
  cbn [shr iter_pos].
  assert (Hhalf : 2 ^ 52 <= q / 2 < 2 ^ 53).
  { change (2 ^ 53) with (2 * 2 ^ 52) in Hq. change (2 ^ 54) with (2 * 2 ^ 53) in Hq.
    split; [apply Z.div_le_lower_bound | apply Z.div_lt_upper_bound]; lia. }
  set (mrs := shr_1 (shr_record_of_loc q l)).
  assert (Hmrs : shr_m mrs = q / 2 /\ (shr_r mrs = true -> Z.odd q = true)).
  { subst mrs. destruct q as [| [p | p |] | p]; try lia;
      destruct l as [| []]; cbn [shr_record_of_loc shr_1 shr_m shr_r];
      (split; [| (reflexivity || discriminate)]).
    all: try (rewrite Pos2Z.inj_xI, Z.mul_comm, Z.div_add_l by lia; reflexivity).
    all: try (rewrite Pos2Z.inj_xO, Z.mul_comm, Z.div_mul by lia; reflexivity). }
  destruct Hmrs as [Hm Hr].
  exists (round_nearest_even (shr_m mrs) (loc_of_shr_record mrs)). split.
  - apply finish_round; [| lia].
    destruct (round_nearest_even_cases (shr_m mrs) (loc_of_shr_record mrs))
      as [-> | [-> _]]; lia.
  - destruct (round_nearest_even_cases (shr_m mrs) (loc_of_shr_record mrs))
      as [-> | [-> Hl]]; [left; exact Hm | right].
    split; [now rewrite Hm |]. apply Hr.
    destruct mrs as [m [] []]; cbn in Hl |- *; destruct Hl; try discriminate;
      reflexivity.
Qed.


Lemma new_location_rounds_up (r : Z) :
  0 <= r < 1000000 ->
  new_location 1000000 r = loc_Inexact Eq \/ new_location 1000000 r = loc_Inexact Gt ->
  1000000 <= 2 * r.
Proof.
  intros Hr. unfold new_location. change (Z.even 1000000) with true. cbv iota.
  unfold new_location_even.
  destruct (r =? 0); [intros [H | H]; discriminate H |].
  destruct (Z.compare_spec (2 * r) 1000000) as [E | E | E];
    intros [H | H]; try discriminate H; lia.
Qed.

(** Below [2**34 * 10**6] the rounding of the quotient by [10**6] never
    reaches the next integer. *)
Lemma true_divide_exact (s : bool) (p : positive) :
  Zpos p < 17179869184000000 ->
  int_of_float (SFdiv prec emax (S754_finite s p 0) (S754_finite false 1000000 0))
  = cond_Zopp s (Zpos p / 1000000).
Proof.
  intros Hp.
  pose proof (digits2_pos_bounds p) as [Dlo Dhi].
  assert (Hd : Zpos (digits2_pos p) <= 54).
  { destruct (Z.le_gt_cases (Zpos (digits2_pos p)) 54) as [H | H]; [exact H |].
    assert (2 ^ 54 <= 2 ^ (Zpos (digits2_pos p) - 1))
      by (apply Z.pow_le_mono_r; lia).
    change (2 ^ 54) with 18014398509481984 in *. lia. }
  unfold SFdiv. rewrite (SFdiv_core_binary_by_million p Hd). cbv zeta.
  replace (xorb s false) with s by (destruct s; reflexivity).
  set (d := Zpos (digits2_pos p)) in *.
  set (t := 73 - d).
  assert (Ht : 19 <= t <= 72) by (subst t d; lia).
  set (T := 2 ^ t).
  set (k := Zpos p / 1000000).
  pose proof (Z.div_mod (Zpos p) 1000000 ltac:(lia)) as Hk.
  pose proof (Z.mod_pos_bound (Zpos p) 1000000 ltac:(lia)) as Hkr.
  fold k in Hk.
  set (rp := Zpos p mod 1000000) in *.
  pose proof (Z.div_mod (Zpos p * T) 1000000 ltac:(lia)) as Hq.
  pose proof (Z.mod_pos_bound (Zpos p * T) 1000000 ltac:(lia)) as Hqr.
  set (q := Zpos p * T / 1000000) in *.
  set (r := (Zpos p * T) mod 1000000) in *.
  assert (HT : 524288 <= T).
  { subst T. change 524288 with (2 ^ 19). apply Z.pow_le_mono_r; lia. }
  assert (HN : 2 ^ 72 <= Zpos p * T < 2 ^ 73).
  { subst T t.
    assert (E72 : 2 ^ 72 = 2 ^ (d - 1) * 2 ^ (73 - d))
      by (rewrite <- Z.pow_add_r by lia; f_equal; lia).
    assert (E73 : 2 ^ 73 = 2 ^ d * 2 ^ (73 - d))
      by (rewrite <- Z.pow_add_r by lia; f_equal; lia).
    rewrite E72, E73.
    assert (0 < 2 ^ (73 - d)) by (apply Z.pow_pos_nonneg; lia).
    split; [apply Z.mul_le_mono_nonneg_r | apply Z.mul_lt_mono_pos_r]; lia. }
  change (2 ^ 72) with 4722366482869645213696 in HN.
  change (2 ^ 73) with 9444732965739290427392 in HN.
  assert (Hqb : 2 ^ 52 <= q < 2 ^ 54).
  { change (2 ^ 52) with 4503599627370496. change (2 ^ 54) with 18014398509481984.
    lia. }
  assert (k_nonneg : 0 <= k) by (subst k; apply Z.div_pos; lia).
  assert (Hlow : k * T <= q) by nia.
  assert (Hhigh : q < (k + 1) * T) by nia.
  assert (Hr_up : q + 1 = (k + 1) * T -> r <= 1000000 - T) by nia.
  destruct (Z.lt_ge_cases q (2 ^ 53)) as [Hlt | Hge].
  - destruct (round_53 s q (- t) (new_location 1000000 r)) as (m & -> & Hm);
      [lia | lia |].
    f_equal. rewrite Z.opp_involutive. fold T.
    symmetry. apply Z.div_unique with (r := m - k * T).
    + left. destruct Hm as [-> | [-> Hup]]; [lia |].
      apply new_location_rounds_up in Hup; [| exact Hqr].
      assert (q + 1 <> (k + 1) * T) by (intros E; specialize (Hr_up E); lia).
      lia.
    + lia.
  - destruct (round_54 s q (- t) (new_location 1000000 r)) as (m & -> & Hm);
      [lia | lia |].
    f_equal.
    replace (- (- t + 1)) with (t - 1) by lia.
    set (T' := 2 ^ (t - 1)).
    assert (HT' : T = 2 * T').
    { subst T T'. replace t with (Z.succ (t - 1)) at 1 by lia.
      apply Z.pow_succ_r. lia. }
    pose proof (Z.div_mod q 2 ltac:(lia)) as Hhalf.
    pose proof (Z.mod_pos_bound q 2 ltac:(lia)) as Hhalfr.
    symmetry. apply Z.div_unique with (r := m - k * T').
    + left. destruct Hm as [-> | [-> Hodd]]; [nia |].
      apply Z.odd_spec in Hodd. destruct Hodd as [h Hh].
      assert (Hone : q mod 2 = 1)
        by (rewrite Hh, Z.add_comm, Z.mul_comm, Z.mod_add by lia; reflexivity).
      assert (q / 2 + 1 <> (k + 1) * T').
      { intros E.
        assert (Eq : q + 1 = (k + 1) * T) by nia.
        specialize (Hr_up Eq).
        assert (T = 524288).
        { destruct (Z.eq_dec t 19) as [E19 | N19]; [subst T; now rewrite E19 |].
          assert (2 ^ 20 <= T) by (subst T; apply Z.pow_le_mono_r; lia).
          change (2 ^ 20) with 1048576 in *. lia. }
        change (2 ^ 53) with 9007199254740992 in Hge. nia. }
      nia.
    + lia.
Qed.

(** [int(td.total_seconds())] is the quotient of the microseconds by
    [10**6] rounded toward zero while the [timedelta] is shorter than
    [2**34] seconds (some 544 years). *)
Lemma whole_seconds_exact (us : Z) :
  Z.abs us < 2 ^ 34 * 1000000 -> CallLog.whole_seconds us = us ÷ 1000000.
Proof.
  change (2 ^ 34 * 1000000) with 17179869184000000.
  intros H. unfold CallLog.whole_seconds, true_divide.
  destruct us as [| p | p]; cbn [Z2SF].
  - reflexivity.
  - rewrite true_divide_exact by lia. cbn [cond_Zopp].
    now rewrite Z.quot_div_nonneg by lia.
  - rewrite true_divide_exact by lia. cbn [cond_Zopp].
    change (Zneg p) with (- Zpos p).
    rewrite Z.quot_opp_l by lia. now rewrite Z.quot_div_nonneg by lia.
Qed.

(** From [2**34] seconds on the float can round up to the next second: a
    difference of 63902822400.999999 seconds reads as 63902822401. *)
Example whole_seconds_rounds_up :
  CallLog.whole_seconds 63902822400999999 = 63902822401
  /\ 63902822400999999 ÷ 1000000 = 63902822400.
Proof. split; vm_compute; reflexivity. Qed.

(** *** The two methods *)

(** C8, as the code has it: with [answered_at] and [ended_at] set and
    less than [2**34] seconds (some 544 years) apart, [calculate_duration]
    stores and returns [ended_at - answered_at] in whole seconds rounded
    toward zero, with no lower bound: it is the floor and at least 0 when
    [ended_at] is not before [answered_at], and it is negative when
    [ended_at] is a second or more before.  On the row so obtained
    [calculate_cost] stores and returns [(duration_seconds / 60.0) * rate]
    when [duration_seconds] is not 0, and returns [0.0] leaving [cost] as
    it was when it is 0.  (Farther apart, the float of [total_seconds()]
    can round up to the next second.) *)
Theorem calculate_duration_then_cost (call_log : CallLog.t)
    (answered ended : datetime) (rate : float) :
  CallLog.answered_at call_log = Some answered ->
  CallLog.ended_at call_log = Some ended ->
  Z.abs (ended - answered) < 2 ^ 34 * 1000000 ->
  let d := (ended - answered) ÷ 1000000 in
  let timed := CallLog.set_duration_seconds (Some d) call_log in
  let c := (float_of_int d / 60 * rate)%float in
  CallLog.calculate_duration call_log = (d, timed)
  /\ (answered <= ended -> d = (ended - answered) / 1000000 /\ 0 <= d)
  /\ (ended - answered <= -1000000 -> d < 0)
  /\ CallLog.calculate_cost rate timed
     = if d =? 0 then (0%float, timed) else (c, CallLog.set_cost c timed).
Proof.
  intros Ha He Hbound d timed c.
  split; [| split; [| split]].
  - unfold CallLog.calculate_duration. rewrite Ha, He.
    now rewrite whole_seconds_exact by exact Hbound.
  - intros Hle. subst d.
    rewrite Z.quot_div_nonneg by lia.
    split; [reflexivity | apply Z.div_pos; lia].
  - intros Hneg. subst d.
    rewrite <- (Z.opp_involutive (ended - answered)), Z.quot_opp_l by lia.
    rewrite Z.quot_div_nonneg by lia.
    assert (1 <= - (ended - answered) / 1000000)
      by (apply Z.div_le_lower_bound; lia).
    lia.
  - unfold CallLog.calculate_cost. subst timed. simpl.
    destruct (d =? 0); reflexivity.
Qed.

Lemma calculate_duration_then_cost_witness :
  let call_log :=
    Sample.call "c1" "ended" (Some (Sample.seconds 10)) (Some 100500000) None in
  let timed := CallLog.set_duration_seconds (Some 90) call_log in
  CallLog.calculate_duration call_log = (90, timed)
  /\ CallLog.calculate_cost 0.5%float timed
     = (0.75%float, CallLog.set_cost 0.75%float timed).
Proof.
  cbv zeta.
  destruct (calculate_duration_then_cost
              (Sample.call "c1" "ended" (Some (Sample.seconds 10))
                           (Some 100500000) None)
              (Sample.seconds 10) 100500000 0.5%float
              eq_refl eq_refl eq_refl) as (Hd & _ & _ & Hc).
  split; [exact Hd | exact Hc].
Defined.

(** C8, the claim as stated fails: a call answered at second 10 whose
    [ended_at] is second 5 gets [duration_seconds = -5], where the floor
    with a minimum of 0 is 0. *)
Lemma calculate_duration_negative :
  let call_log :=
    Sample.call "c1" "ended" (Some (Sample.seconds 10)) (Some (Sample.seconds 5))
                None in
  fst (CallLog.calculate_duration call_log) = -5
  /\ CallLog.duration_seconds (snd (CallLog.calculate_duration call_log))
     = Some (-5)
  /\ Z.max 0 ((Sample.seconds 5 - Sample.seconds 10) / 1000000) = 0.
Proof. cbv zeta. repeat split. Qed.

(** ** Logging a call *)

Lemma refused_not_admissible (trunk : SipTrunk.t) :
  SipTrunk.current_active_calls trunk = SipTrunk.max_concurrent_calls trunk
  \/ SipTrunk.status trunk <> ACTIVE
  \/ SipTrunk.health_status trunk <> "healthy" ->
  SipTrunk.increment_active_calls trunk = (false, trunk).
Proof.
  intros H. apply increment_refused. intros (Hst & Hh & Hlt).
  destruct H as [H | [H | H]]; [lia | contradiction | contradiction].
Qed.

(** Whenever the trunk of the call exists, whatever it is, the commit of
    [log_call] fails and the rollback restores the database. *)
Lemma log_call_found (call_data : CallLogCreate.t) (s : db) (trunk : SipTrunk.t) :
  SipTrunkService._get_trunk_by_id (CallLogCreate.sip_trunk_id call_data) s
  = Returned (Some trunk, s) ->
  SipTrunkService.log_call call_data s = (Raised IntegrityError, s).
Proof.
  intros Hfound.
  unfold SipTrunkService.log_call, SipTrunkService.log_call_body, bind.
  rewrite Hfound. reflexivity.
Qed.

(** No call of [log_call] returns or changes the database. *)
Lemma log_call_raises (call_data : CallLogCreate.t) (s : db) :
  exists e, SipTrunkService.log_call call_data s = (Raised e, s).
Proof.
  unfold SipTrunkService.log_call, SipTrunkService.log_call_body, bind,
    SipTrunkService._get_trunk_by_id, execute_scalar_one_or_none.
  destruct (scalar_one_or_none _) as [[trunk |] | e]; cbn;
    eexists; reflexivity.
Qed.

(** C9, the code at the failing input and at every other: when the trunk
    of the call exists and its admission check fails (the counter equals
    [max_concurrent_calls], or the status is not ACTIVE, or the health is
    not ["healthy"]), [increment_active_calls] returns [False] and that
    result is dropped, but [log_call] does not succeed: the call log it
    builds has no [account_id], the commit raises [IntegrityError], and
    the rollback leaves the database the call started from.  No call log
    is created and none is returned. *)
Theorem log_call_refused_admission_creates_nothing (call_data : CallLogCreate.t)
    (s : db) (trunk : SipTrunk.t) :
  SipTrunkService._get_trunk_by_id (CallLogCreate.sip_trunk_id call_data) s
  = Returned (Some trunk, s) ->
  SipTrunk.current_active_calls trunk = SipTrunk.max_concurrent_calls trunk
  \/ SipTrunk.status trunk <> ACTIVE
  \/ SipTrunk.health_status trunk <> "healthy" ->
  fst (SipTrunk.increment_active_calls trunk) = false
  /\ CallLog.account_id (SipTrunkService.new_call_log trunk call_data) = None
  /\ SipTrunkService.log_call call_data s = (Raised IntegrityError, s).
Proof.
  intros Hfound Hrefused.
  pose proof (refused_not_admissible trunk Hrefused) as Hinc.
  split; [now rewrite Hinc |]. split; [reflexivity |].
  exact (log_call_found call_data s trunk Hfound).
Qed.

Lemma log_call_refused_admission_creates_nothing_witness :
  fst (SipTrunk.increment_active_calls
         (Sample.trunk "A" ACTIVE "healthy" 1 5 5 None)) = false
  /\ SipTrunkService.log_call (Sample.create "c9") Sample.full_trunk
     = (Raised IntegrityError, Sample.full_trunk)
  /\ call_logs (snd (SipTrunkService.log_call (Sample.create "c9")
                        Sample.full_trunk)) = [].
Proof.
  destruct (log_call_refused_admission_creates_nothing
              (Sample.create "c9") Sample.full_trunk
              (Sample.trunk "A" ACTIVE "healthy" 1 5 5 None)
              eq_refl (or_introl eq_refl)) as (Hinc & _ & Hlog).
  split; [exact Hinc |]. split; [exact Hlog |]. now rewrite Hlog.
Defined.

(** ** Deleting a trunk *)

(** C10: when the trunk of the user is found and its
    [current_active_calls] is above 0, [delete_sip_trunk] raises
    [ValueError("Cannot delete trunk with active calls")] and the database
    is the one the call started from: the trunk keeps its [deleted_at]
    and its [status]. *)
Theorem delete_sip_trunk_with_active_calls (now : datetime)
    (user_id trunk_id : string) (s : db) (trunk : SipTrunk.t) :
  SipTrunkService._get_trunk user_id trunk_id s = Returned (Some trunk, s) ->
  0 < SipTrunk.current_active_calls trunk ->
  SipTrunkService.delete_sip_trunk now user_id trunk_id s
  = (Raised (ValueError "Cannot delete trunk with active calls"), s).
Proof.
  intros Hfound Hactive.
  unfold SipTrunkService.delete_sip_trunk, SipTrunkService.delete_sip_trunk_body, bind.
  rewrite Hfound.
  assert (E : (SipTrunk.current_active_calls trunk >? 0) = true)
    by (apply Z.gtb_lt; exact Hactive).
  now rewrite E.
Qed.

Lemma delete_sip_trunk_with_active_calls_witness :
  SipTrunkService.delete_sip_trunk (Sample.seconds 99) "u1" "A"
    Sample.one_call_in_progress
  = (Raised (ValueError "Cannot delete trunk with active calls"),
     Sample.one_call_in_progress).
Proof.
  apply (delete_sip_trunk_with_active_calls (Sample.seconds 99) "u1" "A"
           Sample.one_call_in_progress
           (Sample.trunk "A" ACTIVE "healthy" 1 1 5 None)).
  - reflexivity.
  - reflexivity.
Defined.

(** An idle trunk is soft-deleted: the guard is what keeps the row. *)
Example delete_sip_trunk_idle :
  SipTrunkService.delete_sip_trunk (Sample.seconds 99) "u1" "A"
    Sample.one_call_ended
  = (Returned true,
     {| sip_trunks :=
          [SipTrunk.soft_delete (Sample.seconds 99)
             (Sample.trunk "A" ACTIVE "healthy" 1 0 5 None)];
        call_logs := call_logs Sample.one_call_ended |}).
Proof. reflexivity. Qed.

(** ** Updating a call *)

(** The test [update_data.ended_at and not call_log.ended_at] is made on
    the call log the loop of [setattr] has already written: when the
    request gives [ended_at], the attribute holds it. *)
Lemma ended_guard_false (update_data : CallLogUpdate.t) (call_log : CallLog.t) :
  negb (is_None (CallLogUpdate.attr (CallLogUpdate.ended_at update_data)))
  && is_None (CallLog.ended_at (CallLogUpdate.setattrs update_data call_log))
  = false.
Proof.
  simpl. destruct (CallLogUpdate.ended_at update_data) as [[ended |] |];
    reflexivity.
Qed.

(** No call of [update_call_log] writes a trunk row. *)
Lemma update_call_log_keeps_trunks (call_id : string)
    (update_data : CallLogUpdate.t) (s : db) :
  sip_trunks (snd (SipTrunkService.update_call_log call_id update_data s))
  = sip_trunks s.
Proof.
  unfold SipTrunkService.update_call_log, SipTrunkService.update_call_log_body.
  unfold bind at 1. unfold execute_scalar_one_or_none at 1.
  destruct (scalar_one_or_none _) as [[call_log |] |]; try reflexivity.
  unfold bind at 1. rewrite ended_guard_false.
  unfold ret at 1. cbv beta iota.
  unfold bind at 1.
  destruct (negb (is_None (CallLog.ended_at _)) && _).
  - unfold bind at 1. unfold SipTrunkService._get_trunk_by_id.
    unfold execute_scalar_one_or_none.
    destruct (scalar_one_or_none _) as [[trunk |] |]; reflexivity.
  - reflexivity.
Qed.

(** C1, the code at the failing input: trunk ["A"] carries one call,
    ["c1"], answered at second 10 and not ended.  The update that sets
    [ended_at] to second 70 is stored (the call log gets [ended_at] and
    [duration_seconds = 60]), and the trunk's [current_active_calls] is
    still 1 where one release gives 0. *)
Theorem update_call_log_ended_keeps_active_calls :
  let result :=
    SipTrunkService.update_call_log "c1" (Sample.ended_update 70)
      Sample.one_call_in_progress in
  map CallLog.ended_at (call_logs (snd result)) = [Some (Sample.seconds 70)]
  /\ map CallLog.duration_seconds (call_logs (snd result)) = [Some 60]
  /\ map SipTrunk.current_active_calls (sip_trunks (snd result)) = [1]
  /\ map SipTrunk.current_active_calls
       (map SipTrunk.decrement_active_calls
          (sip_trunks Sample.one_call_in_progress)) = [0].
Proof. cbv zeta. repeat split. Qed.

(** A table whose [id]s are pairwise distinct answers a lookup by [id]
    with at most one row. *)
Lemma filter_by_id_at_most_one (trunk_id : string) (trunks : list SipTrunk.t) :
  NoDup (map SipTrunk.id trunks) ->
  (List.length (filter (fun row => String.eqb (SipTrunk.id row) trunk_id) trunks) <= 1)%nat.
Proof.
  induction trunks as [| row trunks IH]; simpl; intros Hnd; [lia |].
  inversion Hnd as [| ? ? Hnotin Hnd']; subst.
  destruct (String.eqb (SipTrunk.id row) trunk_id) eqn:E; [| now apply IH].
  apply String.eqb_eq in E. simpl.
  assert (Hnil : filter (fun row => String.eqb (SipTrunk.id row) trunk_id) trunks = []).
  { destruct (filter _ trunks) as [| other rest] eqn:F; [reflexivity |].
    exfalso. apply Hnotin.
    assert (Hin : In other (filter (fun row => String.eqb (SipTrunk.id row) trunk_id) trunks))
      by (rewrite F; now left).
    apply filter_In in Hin. destruct Hin as [Hin Hid].
    apply String.eqb_eq in Hid. rewrite E, <- Hid. now apply in_map. }
  rewrite Hnil. simpl. lia.
Qed.

Lemma get_trunk_by_id_returns (trunk_id : string) (s : db) :
  NoDup (map SipTrunk.id (sip_trunks s)) ->
  exists found, SipTrunkService._get_trunk_by_id trunk_id s = Returned (found, s).
Proof.
  intros Hnd. pose proof (filter_by_id_at_most_one trunk_id _ Hnd) as Hlen.
  unfold SipTrunkService._get_trunk_by_id, execute_scalar_one_or_none.
  destruct (filter _ (sip_trunks s)) as [| row [| row' rest]]; simpl in *.
  - now exists None.
  - now exists (Some row).
  - lia.
Qed.




(** ** Selecting a trunk *)

(** C5, the code at the failing input: the three trunks are ACTIVE, not
    deleted, bidirectional and below capacity, so the query returns the
    three rows, the priority-1 trunk at 1 of 5 first; on more than one row
    [scalar_one_or_none] raises [MultipleResultsFound] and no trunk is
    returned. *)
Theorem get_available_trunk_for_call_three_trunks :
  map SipTrunk.id
    (SipTrunkService.available_query "u1" BIDIRECTIONAL Sample.three_trunks)
  = ["T2"; "T1"; "T3"]
  /\ SipTrunkService.get_available_trunk_for_call "u1" BIDIRECTIONAL
       Sample.three_trunks
     = Raised MultipleResultsFound.
Proof. split; reflexivity. Qed.

(** With one row passing the filter the call returns it. *)
Example get_available_trunk_for_call_single :
  SipTrunkService.get_available_trunk_for_call "u1" OUTBOUND
    Sample.one_call_in_progress
  = Returned (Some (Sample.trunk "A" ACTIVE "healthy" 1 1 5 None)).
Proof. reflexivity. Qed.

Lemma insert_by_key_length (row : SipTrunk.t) (rows : list SipTrunk.t) :
  List.length (SipTrunkService.insert_by_key row rows) = S (List.length rows).
Proof.
  induction rows as [| head rest IH]; simpl; [reflexivity |].
  destruct (SipTrunkService.order_key_leb row head); simpl; [reflexivity |].
  now rewrite IH.
Qed.

Lemma order_by_priority_load_length (rows : list SipTrunk.t) :
  List.length (SipTrunkService.order_by_priority_load rows) = List.length rows.
Proof.
  induction rows as [| row rows IH]; simpl; [reflexivity |].
  now rewrite insert_by_key_length, IH.
Qed.


(** *** Failover links *)

Section KeyPreserving.

Variable relink : SipTrunk.t -> SipTrunk.t.
Hypothesis relink_key :
  forall a b, SipTrunkService.order_key_leb (relink a) (relink b)
              = SipTrunkService.order_key_leb a b.

Lemma insert_by_key_map (row : SipTrunk.t) (rows : list SipTrunk.t) :
  SipTrunkService.insert_by_key (relink row) (map relink rows)
  = map relink (SipTrunkService.insert_by_key row rows).
Proof.
  induction rows as [| head rest IH]; simpl; [reflexivity |].
  rewrite relink_key.
  destruct (SipTrunkService.order_key_leb row head); simpl; [reflexivity |].
  now rewrite IH.
Qed.

Lemma order_by_priority_load_map (rows : list SipTrunk.t) :
  SipTrunkService.order_by_priority_load (map relink rows)
  = map relink (SipTrunkService.order_by_priority_load rows).
Proof.
  unfold SipTrunkService.order_by_priority_load.
  induction rows as [| row rows IH]; simpl; [reflexivity |].
  now rewrite IH, insert_by_key_map.
Qed.

End KeyPreserving.

Lemma filter_map_preserved {A : Type} (p : A -> bool) (f : A -> A) (l : list A) :
  (forall x, p (f x) = p x) -> filter p (map f l) = map f (filter p l).
Proof.
  intros H. induction l as [| x l IH]; simpl; [reflexivity |].
  rewrite H. destruct (p x); simpl; now rewrite IH.
Qed.

Lemma filter_nil_iff {A : Type} (p : A -> bool) (l : list A) :
  filter p l = [] <-> forall x, In x l -> p x = false.
Proof.
  induction l as [| x l IH]; simpl.
  - split; [intros _ y [] | reflexivity].
  - destruct (p x) eqn:E.
    + split; [discriminate |]. intros H. specialize (H x (or_introl eq_refl)).
      congruence.
    + rewrite IH. split.
      * intros H y [<- | Hy]; [assumption | now apply H].
      * intros H y Hy. apply H. now right.
Qed.



(** On the same cycle with both trunks below capacity the call raises:
    two rows pass the filter.  Here too no link is followed. *)
Example get_available_trunk_for_call_on_idle_cycle :
  SipTrunkService.get_available_trunk_for_call "u1" OUTBOUND
    Sample.failover_cycle_idle
  = Raised MultipleResultsFound.
Proof. reflexivity. Qed.

(** ** Health checks *)

Lemma perform_health_check_fields (now : datetime) (p : SipTrunkService.probe)
    (trunk : SipTrunk.t) :
  let after := snd (SipTrunkService._perform_health_check now p trunk) in
  SipTrunk.status after = SipTrunk.status trunk
  /\ forall user_id direction,
       SipTrunkService.available_where user_id direction after
       = SipTrunkService.available_where user_id direction trunk.
Proof.
  unfold SipTrunkService._perform_health_check.
  destruct (SipTrunkService.providers (SipTrunk.provider trunk));
    [destruct p |]; simpl; split; reflexivity.
Qed.

(** C6, as the code has it: a health check counts no failures and never
    writes [trunk.status].  After any run of checks the status is the one
    before and the trunk passes or fails the filter of
    [get_available_trunk_for_call] as before.  One check in which the
    provider raises sets [health_status] to ["error"] at once (["unknown"]
    for a provider the service has no client for), after which
    [can_handle_call] is false; a check that returns status [st] sets
    [health_status] to [st]. *)
Theorem health_checks_never_write_status
    (checks : list (datetime * SipTrunkService.probe)) (trunk : SipTrunk.t)
    (user_id : string) (direction : CallDirection) (now : datetime)
    (st : string) (latency loss : option float) :
  let after := SipTrunkService.run_health_checks checks trunk in
  let failed := snd (SipTrunkService._perform_health_check now
                       SipTrunkService.ProbeRaises trunk) in
  let answered :=
    snd (SipTrunkService._perform_health_check now
           (SipTrunkService.ProbeReturns
              {| SipTrunkService.hr_status := Some st;
                 SipTrunkService.hr_latency_ms := latency;
                 SipTrunkService.hr_packet_loss_percent := loss |}) trunk) in
  SipTrunk.status after = SipTrunk.status trunk
  /\ SipTrunkService.available_where user_id direction after
     = SipTrunkService.available_where user_id direction trunk
  /\ SipTrunk.health_status failed
     = (if SipTrunkService.providers (SipTrunk.provider trunk)
        then "error" else "unknown")
  /\ SipTrunk.can_handle_call failed = false
  /\ SipTrunk.health_status answered
     = (if SipTrunkService.providers (SipTrunk.provider trunk)
        then st else "unknown").
Proof.
  cbv zeta. split; [| split; [| split; [| split]]].
  - unfold SipTrunkService.run_health_checks. revert trunk.
    induction checks as [| check checks IH]; intros trunk; simpl; [reflexivity |].
    rewrite IH. apply perform_health_check_fields.
  - unfold SipTrunkService.run_health_checks. revert trunk.
    induction checks as [| check checks IH]; intros trunk; simpl; [reflexivity |].
    rewrite IH. apply perform_health_check_fields.
  - unfold SipTrunkService._perform_health_check.
    destruct (SipTrunkService.providers _); reflexivity.
  - unfold SipTrunkService._perform_health_check, SipTrunk.can_handle_call,
      SipTrunk.is_active.
    destruct (SipTrunkService.providers _); simpl;
      now rewrite andb_false_r.
  - unfold SipTrunkService._perform_health_check.
    destruct (SipTrunkService.providers _); reflexivity.
Qed.

(** C6, the claim as stated fails: after three failed checks in a row
    of an ACTIVE trunk (the provider answers ["unhealthy"], then raises,
    then answers ["error"]), [health_status] is ["error"] but the status is
    still ACTIVE and the trunk still passes the filter of the selection;
    and a trunk in status ERROR stays in ERROR after a check that reports
    ["healthy"]. *)
Lemma three_failed_checks_keep_status :
  let failed :=
    SipTrunkService.run_health_checks
      [(Sample.seconds 60,
        SipTrunkService.ProbeReturns
          {| SipTrunkService.hr_status := Some "unhealthy";
             SipTrunkService.hr_latency_ms := Some 250%float;
             SipTrunkService.hr_packet_loss_percent := None |});
       (Sample.seconds 120, SipTrunkService.ProbeRaises);
       (Sample.seconds 180,
        SipTrunkService.ProbeReturns
          {| SipTrunkService.hr_status := Some "error";
             SipTrunkService.hr_latency_ms := None;
             SipTrunkService.hr_packet_loss_percent := None |})]
      (Sample.trunk "A" ACTIVE "healthy" 1 0 5 None) in
  let recovered :=
    SipTrunkService.run_health_checks
      [(Sample.seconds 240,
        SipTrunkService.ProbeReturns
          {| SipTrunkService.hr_status := Some "healthy";
             SipTrunkService.hr_latency_ms := Some 20%float;
             SipTrunkService.hr_packet_loss_percent := None |})]
      (Sample.trunk "A" ERROR "error" 1 0 5 None) in
  SipTrunk.status failed = ACTIVE
  /\ SipTrunk.health_status failed = "error"
  /\ SipTrunkService.available_where "u1" OUTBOUND failed = true
  /\ SipTrunk.status recovered = ERROR
  /\ SipTrunk.health_status recovered = "healthy".
Proof. cbv zeta. repeat split. Qed.

(** * Further properties of the model and the service *)

(** ** The counter of a trunk *)

(** X1: a call counted and then released leaves the trunk as it was:
    when [increment_active_calls] admits on a trunk whose counter is not
    negative, [decrement_active_calls] on the result gives back the row. *)
Theorem increment_then_decrement_restores (self : SipTrunk.t) :
  SipTrunk.admissible self ->
  0 <= SipTrunk.current_active_calls self ->
  fst (SipTrunk.increment_active_calls self) = true
  /\ SipTrunk.decrement_active_calls (snd (SipTrunk.increment_active_calls self))
     = self.
Proof.
  intros Hadm Hnonneg. rewrite (increment_admitted self Hadm). simpl.
  split; [reflexivity |].
  unfold SipTrunk.decrement_active_calls. simpl.
  assert (E : (SipTrunk.current_active_calls self + 1 >? 0) = true)
    by (apply Z.gtb_lt; lia).
  rewrite E. destruct self; unfold SipTrunk.set_current_active_calls; simpl.
  f_equal. lia.
Qed.

Lemma increment_then_decrement_restores_witness :
  let tr := Sample.trunk "A" ACTIVE "healthy" 1 4 5 None in
  fst (SipTrunk.increment_active_calls tr) = true
  /\ SipTrunk.decrement_active_calls (snd (SipTrunk.increment_active_calls tr))
     = tr.
Proof.
  cbv zeta. apply increment_then_decrement_restores.
  - repeat split.
  - simpl. lia.
Defined.

(** X2: on a trunk that is active and healthy, with
    [0 <= current_active_calls <= max_concurrent_calls], [k] calls of
    [increment_active_calls] in a row return [True] for exactly
    [min k (max_concurrent_calls - current_active_calls)] and leave
    the counter at [min max_concurrent_calls (current_active_calls + k)]:
    the free slots are all given out and never one more. *)
Theorem increment_many_fills_free_slots (k : nat) (self : SipTrunk.t) :
  SipTrunk.is_active self = true ->
  SipTrunk.within_capacity self ->
  fst (SipTrunk.increment_many k self)
  = Z.min (Z.of_nat k)
      (SipTrunk.max_concurrent_calls self - SipTrunk.current_active_calls self)
  /\ SipTrunk.current_active_calls (snd (SipTrunk.increment_many k self))
     = Z.min (SipTrunk.max_concurrent_calls self)
         (SipTrunk.current_active_calls self + Z.of_nat k).
Proof.
  revert self. induction k as [| k IH]; intros self Hact Hcap.
  - unfold SipTrunk.within_capacity in Hcap. simpl. lia.
  - cbn [SipTrunk.increment_many]. rewrite Nat2Z.inj_succ.
    unfold SipTrunk.within_capacity in Hcap.
    destruct (SipTrunk.current_active_calls self <? SipTrunk.max_concurrent_calls self)
      eqn:Elt.
    + assert (Hinc : SipTrunk.increment_active_calls self
                     = (true, SipTrunk.set_current_active_calls
                                (SipTrunk.current_active_calls self + 1) self)).
      { unfold SipTrunk.increment_active_calls, SipTrunk.can_handle_call.
        now rewrite Hact, Elt. }
      rewrite Hinc. apply Z.ltb_lt in Elt.
      destruct (IH (SipTrunk.set_current_active_calls
                      (SipTrunk.current_active_calls self + 1) self))
        as [IHcount IHcur].
      * exact Hact.
      * unfold SipTrunk.within_capacity.
        cbn [SipTrunk.set_current_active_calls SipTrunk.current_active_calls
             SipTrunk.max_concurrent_calls]. lia.
      * destruct (SipTrunk.increment_many k _) as [count final].
        cbn [fst snd SipTrunk.set_current_active_calls
             SipTrunk.current_active_calls SipTrunk.max_concurrent_calls] in *.
        lia.
    + assert (Hinc : SipTrunk.increment_active_calls self = (false, self)).
      { unfold SipTrunk.increment_active_calls, SipTrunk.can_handle_call.
        now rewrite Hact, Elt. }
      rewrite Hinc. apply Z.ltb_ge in Elt.
      destruct (IH self Hact) as [IHcount IHcur].
      * exact Hcap.
      * destruct (SipTrunk.increment_many k self) as [count final].
        cbn [fst snd] in *. lia.
Qed.

Lemma increment_many_fills_free_slots_witness :
  let tr := Sample.trunk "A" ACTIVE "healthy" 1 3 5 None in
  fst (SipTrunk.increment_many 4 tr) = 2
  /\ SipTrunk.current_active_calls (snd (SipTrunk.increment_many 4 tr)) = 5.
Proof.
  cbv zeta.
  apply (increment_many_fills_free_slots 4 (Sample.trunk "A" ACTIVE "healthy" 1 3 5 None)).
  - reflexivity.
  - unfold SipTrunk.within_capacity. simpl. lia.
Defined.

(** X3: [k] calls of [decrement_active_calls] in a row on a trunk whose
    counter is not negative leave it at [max 0 (current_active_calls - k)]:
    releases beyond the calls counted are absorbed at zero. *)
Theorem release_many_stops_at_zero (k : nat) (self : SipTrunk.t) :
  0 <= SipTrunk.current_active_calls self ->
  SipTrunk.current_active_calls
    (SipTrunk.run_ops (repeat SipTrunk.Decrement k) self)
  = Z.max 0 (SipTrunk.current_active_calls self - Z.of_nat k).
Proof.
  unfold SipTrunk.run_ops. revert self.
  induction k as [| k IH]; intros self Hnonneg.
  - simpl. lia.
  - cbn [repeat fold_left SipTrunk.apply_op].
    assert (Hdec : SipTrunk.current_active_calls (SipTrunk.decrement_active_calls self)
                   = Z.max 0 (SipTrunk.current_active_calls self - 1)).
    { unfold SipTrunk.decrement_active_calls.
      destruct (SipTrunk.current_active_calls self >? 0) eqn:E; simpl.
      - apply Z.gtb_lt in E. lia.
      - pose proof (Zgt_cases (SipTrunk.current_active_calls self) 0) as Hc.
        rewrite E in Hc. lia. }
    rewrite IH by (rewrite Hdec; lia).
    rewrite Hdec. lia.
Qed.

Lemma release_many_stops_at_zero_witness :
  SipTrunk.current_active_calls
    (SipTrunk.run_ops (repeat SipTrunk.Decrement 5)
       (Sample.trunk "A" ACTIVE "healthy" 1 3 5 None))
  = 0.
Proof.
  apply (release_many_stops_at_zero 5 (Sample.trunk "A" ACTIVE "healthy" 1 3 5 None)).
  simpl. lia.
Defined.

(** ** Rows found and written by key *)

Section KeyedRows.

Variable A : Type.
Variable key : A -> string.

Lemma put_lookup (k : string) (rows : list A) (found written : A) :
  filter (fun row => String.eqb (key row) k) rows = [found] ->
  key written = k ->
  filter (fun row => String.eqb (key row) k)
    (map (fun row => if String.eqb (key row) (key written) then written else row)
         rows)
  = [written].
Proof.
  intros Hfound Hk. rewrite Hk. revert Hfound.
  induction rows as [| row rows IH]; simpl; [discriminate |].
  destruct (String.eqb (key row) k) eqn:E.
  - intros Hf. simpl. rewrite Hk, String.eqb_refl. f_equal.
    inversion Hf as [[Hrow Hrest]]. clear - Hrest Hk.
    induction rows as [| r rows IH]; simpl in *; [reflexivity |].
    destruct (String.eqb (key r) k) eqn:E; [discriminate |].
    rewrite E. now apply IH.
  - intros Hf. simpl. rewrite E. now apply IH.
Qed.

Lemma put_frame (k : string) (rows : list A) (written : A) :
  key written = k ->
  filter (fun row => negb (String.eqb (key row) k))
    (map (fun row => if String.eqb (key row) (key written) then written else row)
         rows)
  = filter (fun row => negb (String.eqb (key row) k)) rows.
Proof.
  intros Hk. rewrite Hk.
  induction rows as [| row rows IH]; simpl; [reflexivity |].
  destruct (String.eqb (key row) k) eqn:E; simpl.
  - rewrite Hk, String.eqb_refl. simpl. exact IH.
  - rewrite E. simpl. now rewrite IH.
Qed.

Lemma put_keys (rows : list A) (written : A) :
  map key
    (map (fun row => if String.eqb (key row) (key written) then written else row)
         rows)
  = map key rows.
Proof.
  induction rows as [| row rows IH]; simpl; [reflexivity |].
  rewrite IH. destruct (String.eqb (key row) (key written)) eqn:E;
    [apply String.eqb_eq in E; now rewrite E | reflexivity].
Qed.

Lemma put_Forall (P : A -> Prop) (rows : list A) (written : A) :
  P written -> Forall P rows ->
  Forall P
    (map (fun row => if String.eqb (key row) (key written) then written else row)
         rows).
Proof.
  intros Hw Hrows. induction Hrows as [| row rows Hrow _ IH]; simpl;
    constructor; [destruct (String.eqb _ _); assumption | exact IH].
Qed.

Lemma filter_key_nil (k : string) (rows : list A) :
  ~ In k (map key rows) ->
  filter (fun row => String.eqb (key row) k) rows = [].
Proof.
  intros Hnotin. apply filter_nil_iff. intros row Hrow.
  destruct (String.eqb (key row) k) eqn:E; [| reflexivity].
  apply String.eqb_eq in E. exfalso. apply Hnotin. rewrite <- E.
  now apply in_map.
Qed.

Lemma filter_key_In (k : string) (rows : list A) :
  In k (map key rows) ->
  filter (fun row => String.eqb (key row) k) rows <> [].
Proof.
  intros Hin Hnil. apply in_map_iff in Hin. destruct Hin as (row & Hk & Hrow).
  pose proof (proj1 (filter_nil_iff _ _) Hnil row Hrow) as Hf.
  cbv beta in Hf. rewrite Hk, String.eqb_refl in Hf. discriminate.
Qed.

End KeyedRows.

Lemma get_trunk_found (user_id trunk_id : string) (s : db) (trunk : SipTrunk.t) :
  SipTrunkService._get_trunk user_id trunk_id s = Returned (Some trunk, s) ->
  In trunk (sip_trunks s)
  /\ SipTrunk.id trunk = trunk_id
  /\ SipTrunk.user_id trunk = user_id
  /\ SipTrunk.deleted_at trunk = None.
Proof.
  intros H. apply execute_scalar_one_or_none_Some in H.
  assert (Hin : In trunk
                  (filter (fun row =>
                             String.eqb (SipTrunk.id row) trunk_id
                             && String.eqb (SipTrunk.user_id row) user_id
                             && is_None (SipTrunk.deleted_at row))
                          (sip_trunks s)))
    by (rewrite H; now left).
  apply filter_In in Hin. destruct Hin as [Hin Hp].
  apply andb_true_iff in Hp. destruct Hp as [Hp Hdel].
  apply andb_true_iff in Hp. destruct Hp as [Hid Huser].
  apply String.eqb_eq in Hid, Huser.
  destruct (SipTrunk.deleted_at trunk); [discriminate |]. tauto.
Qed.

(** ** Deleting a trunk, again *)

(** X4: when the trunk of the user is found with no active call,
    [delete_sip_trunk] returns [True] and the trunk is gone for the
    service, though its row stays: [get_trunk_by_id] returns [None] for
    it, a second [delete_sip_trunk] returns [False] and changes nothing,
    no row with its [id] passes the filter of
    [get_available_trunk_for_call], and the call logs are untouched. *)
Theorem delete_sip_trunk_then_gone (now later : datetime)
    (user_id trunk_id : string) (s : db) (trunk : SipTrunk.t) :
  SipTrunkService._get_trunk user_id trunk_id s = Returned (Some trunk, s) ->
  SipTrunk.current_active_calls trunk <= 0 ->
  let s' := snd (SipTrunkService.delete_sip_trunk now user_id trunk_id s) in
  fst (SipTrunkService.delete_sip_trunk now user_id trunk_id s) = Returned true
  /\ SipTrunkService.get_trunk_by_id user_id trunk_id s' = Returned None
  /\ SipTrunkService.delete_sip_trunk later user_id trunk_id s'
     = (Returned false, s')
  /\ (forall u direction row,
        In row (sip_trunks s') -> SipTrunk.id row = trunk_id ->
        SipTrunkService.available_where u direction row = false)
  /\ map SipTrunk.id (sip_trunks s') = map SipTrunk.id (sip_trunks s)
  /\ call_logs s' = call_logs s.
Proof.
  intros Hfound Hidle.
  destruct (get_trunk_found _ _ _ _ Hfound) as (Hin & Hid & Huser & Hdel).
  assert (E : (SipTrunk.current_active_calls trunk >? 0) = false).
  { pose proof (Zgt_cases (SipTrunk.current_active_calls trunk) 0) as Hc.
    destruct (SipTrunk.current_active_calls trunk >? 0); [lia | reflexivity]. }
  assert (Hrun : SipTrunkService.delete_sip_trunk now user_id trunk_id s
                 = (Returned true,
                    {| sip_trunks :=
                         map (fun row =>
                                if String.eqb (SipTrunk.id row)
                                     (SipTrunk.id (SipTrunk.soft_delete now trunk))
                                then SipTrunk.soft_delete now trunk else row)
                             (sip_trunks s);
                       call_logs := call_logs s |})).
  { unfold SipTrunkService.delete_sip_trunk,
      SipTrunkService.delete_sip_trunk_body, bind.
    rewrite Hfound, E. reflexivity. }
  rewrite Hrun. cbv zeta. cbn [fst snd sip_trunks call_logs].
  assert (Hrows : forall row,
            In row (map (fun row =>
                           if String.eqb (SipTrunk.id row)
                                (SipTrunk.id (SipTrunk.soft_delete now trunk))
                           then SipTrunk.soft_delete now trunk else row)
                        (sip_trunks s)) ->
            SipTrunk.id row = trunk_id -> SipTrunk.deleted_at row = Some now).
  { intros row Hrow Hrid. apply in_map_iff in Hrow.
    destruct Hrow as (row0 & Hrow0 & _).
    cbn [SipTrunk.soft_delete SipTrunk.id] in Hrow0.
    destruct (String.eqb (SipTrunk.id row0) (SipTrunk.id trunk)) eqn:E0.
    - now subst row.
    - subst row. apply String.eqb_neq in E0. congruence. }
  assert (Hnone : filter (fun row =>
                            String.eqb (SipTrunk.id row) trunk_id
                            && String.eqb (SipTrunk.user_id row) user_id
                            && is_None (SipTrunk.deleted_at row))
                    (map (fun row =>
                            if String.eqb (SipTrunk.id row)
                                 (SipTrunk.id (SipTrunk.soft_delete now trunk))
                            then SipTrunk.soft_delete now trunk else row)
                         (sip_trunks s)) = []).
  { apply filter_nil_iff. intros row Hrow.
    destruct (String.eqb (SipTrunk.id row) trunk_id) eqn:E1; [| reflexivity].
    apply String.eqb_eq in E1. rewrite (Hrows row Hrow E1).
    now rewrite andb_false_r. }
  split; [reflexivity |].
  split; [| split; [| split; [| split]]].
  - unfold SipTrunkService.get_trunk_by_id, SipTrunkService._get_trunk,
      execute_scalar_one_or_none.
    cbn [sip_trunks]. now rewrite Hnone.
  - unfold SipTrunkService.delete_sip_trunk,
      SipTrunkService.delete_sip_trunk_body, bind,
      SipTrunkService._get_trunk, execute_scalar_one_or_none.
    cbn [sip_trunks]. now rewrite Hnone.
  - intros u direction row Hrow Hrid.
    unfold SipTrunkService.available_where.
    rewrite (Hrows row Hrow Hrid). cbn [is_None].
    now rewrite andb_false_r.
  - apply (put_keys SipTrunk.t SipTrunk.id).
  - reflexivity.
Qed.

Lemma delete_sip_trunk_then_gone_witness :
  let s' :=
    snd (SipTrunkService.delete_sip_trunk (Sample.seconds 99) "u1" "A"
           Sample.one_call_ended) in
  fst (SipTrunkService.delete_sip_trunk (Sample.seconds 99) "u1" "A"
         Sample.one_call_ended) = Returned true
  /\ SipTrunkService.get_trunk_by_id "u1" "A" s' = Returned None
  /\ SipTrunkService.delete_sip_trunk (Sample.seconds 120) "u1" "A" s'
     = (Returned false, s').
Proof.
  cbv zeta.
  destruct (delete_sip_trunk_then_gone (Sample.seconds 99) (Sample.seconds 120)
              "u1" "A" Sample.one_call_ended
              (Sample.trunk "A" ACTIVE "healthy" 1 0 5 None))
    as (H1 & H2 & H3 & _).
  - reflexivity.
  - simpl. lia.
  - exact (conj H1 (conj H2 H3)).
Defined.

(** ** Logging a call, again *)

(** X6: [log_call] never logs a call.  For every request and every
    database it raises and leaves the database as it was, the counters of
    the trunks included.  When no trunk has the [sip_trunk_id] of the call
    it raises [ValueError("SIP trunk not found")]; when, in a table with
    distinct [id]s, a trunk has it, whatever its owner, status, health or
    deletion, it raises [IntegrityError], as the call log it builds has no
    [account_id]. *)
Theorem log_call_always_raises (call_data : CallLogCreate.t) (s : db) :
  (exists e, SipTrunkService.log_call call_data s = (Raised e, s))
  /\ (~ In (CallLogCreate.sip_trunk_id call_data) (map SipTrunk.id (sip_trunks s)) ->
      SipTrunkService.log_call call_data s
      = (Raised (ValueError "SIP trunk not found"), s))
  /\ (NoDup (map SipTrunk.id (sip_trunks s)) ->
      In (CallLogCreate.sip_trunk_id call_data) (map SipTrunk.id (sip_trunks s)) ->
      SipTrunkService.log_call call_data s = (Raised IntegrityError, s)).
Proof.
  split; [apply log_call_raises | split].
  - intros Hnotin.
    unfold SipTrunkService.log_call, SipTrunkService.log_call_body, bind,
      SipTrunkService._get_trunk_by_id, execute_scalar_one_or_none.
    now rewrite (filter_key_nil _ SipTrunk.id _ _ Hnotin).
  - intros Hnd Hin.
    destruct (get_trunk_by_id_returns (CallLogCreate.sip_trunk_id call_data) s Hnd)
      as [found Hget].
    destruct found as [trunk |].
    + exact (log_call_found call_data s trunk Hget).
    + exfalso. apply (filter_key_In _ SipTrunk.id _ _ Hin).
      unfold SipTrunkService._get_trunk_by_id, execute_scalar_one_or_none in Hget.
      destruct (filter _ (sip_trunks s)) as [| a [| b rest]];
        [reflexivity | discriminate | discriminate].
Qed.

(** ** Updating a call, again *)

Lemma calculate_duration_keeps (call_log : CallLog.t) :
  let timed := snd (CallLog.calculate_duration call_log) in
  CallLog.call_id timed = CallLog.call_id call_log
  /\ CallLog.sip_trunk_id timed = CallLog.sip_trunk_id call_log
  /\ CallLog.answered_at timed = CallLog.answered_at call_log
  /\ CallLog.ended_at timed = CallLog.ended_at call_log.
Proof.
  unfold CallLog.calculate_duration.
  destruct (CallLog.answered_at call_log) eqn:Ea, (CallLog.ended_at call_log) eqn:Ee;
    simpl; rewrite ?Ea, ?Ee; repeat split; reflexivity.
Qed.

Lemma calculate_cost_keeps (rate : float) (call_log : CallLog.t) :
  let priced := snd (CallLog.calculate_cost rate call_log) in
  CallLog.call_id priced = CallLog.call_id call_log
  /\ CallLog.sip_trunk_id priced = CallLog.sip_trunk_id call_log
  /\ CallLog.answered_at priced = CallLog.answered_at call_log
  /\ CallLog.ended_at priced = CallLog.ended_at call_log
  /\ CallLog.duration_seconds priced = CallLog.duration_seconds call_log.
Proof.
  unfold CallLog.calculate_cost.
  destruct (CallLog.duration_seconds call_log) as [d |] eqn:Ed; simpl;
    [destruct (d =? 0); simpl |]; rewrite ?Ed; repeat split; reflexivity.
Qed.

Lemma settled_keeps (rate : option float) (call_log : CallLog.t) :
  CallLog.call_id (settled rate call_log) = CallLog.call_id call_log
  /\ CallLog.sip_trunk_id (settled rate call_log) = CallLog.sip_trunk_id call_log
  /\ CallLog.answered_at (settled rate call_log) = CallLog.answered_at call_log
  /\ CallLog.ended_at (settled rate call_log) = CallLog.ended_at call_log.
Proof.
  unfold settled.
  destruct (negb (is_None (CallLog.ended_at call_log))
            && negb (is_None (CallLog.answered_at call_log)));
    [| repeat split; reflexivity].
  destruct (calculate_duration_keeps call_log) as (H1 & H2 & H3 & H4).
  destruct rate as [r |]; [| tauto].
  destruct (calculate_cost_keeps r (snd (CallLog.calculate_duration call_log)))
    as (G1 & G2 & G3 & G4 & _).
  cbv zeta in *. rewrite G1, G2, G3, G4. tauto.
Qed.

(** What a call of [update_call_log] that finds its call log does: [rate]
    is read from the trunk only when both times are set. *)
Lemma update_call_log_found (call_id : string) (update_data : CallLogUpdate.t)
    (s : db) (call_log : CallLog.t) (found : option SipTrunk.t) :
  filter (fun row => String.eqb (CallLog.call_id row) call_id) (call_logs s)
  = [call_log] ->
  SipTrunkService._get_trunk_by_id (CallLog.sip_trunk_id call_log) s
  = Returned (found, s) ->
  let written :=
    settled (option_map SipTrunk.cost_per_minute found)
      (CallLogUpdate.setattrs update_data call_log) in
  SipTrunkService.update_call_log call_id update_data s
  = (Returned (Some (SipTrunkService._call_log_to_response written)),
     {| sip_trunks := sip_trunks s;
        call_logs :=
          map (fun row =>
                 if String.eqb (CallLog.call_id row) (CallLog.call_id written)
                 then written else row)
              (call_logs s) |}).
Proof.
  intros Hcall Htrunk written.
  unfold SipTrunkService.update_call_log, SipTrunkService.update_call_log_body.
  unfold bind at 1. unfold execute_scalar_one_or_none at 1.
  rewrite Hcall. simpl scalar_one_or_none. cbv beta iota.
  unfold bind at 1. rewrite ended_guard_false.
  unfold ret at 1. cbv beta iota.
  unfold bind at 1.
  subst written. unfold settled.
  set (c1 := CallLogUpdate.setattrs update_data call_log).
  destruct (negb (is_None (CallLog.ended_at c1))
            && negb (is_None (CallLog.answered_at c1))).
  - unfold bind at 1.
    replace (CallLog.sip_trunk_id (snd (CallLog.calculate_duration c1)))
      with (CallLog.sip_trunk_id call_log)
      by (symmetry; apply (calculate_duration_keeps c1)).
    rewrite Htrunk.
    destruct found as [trunk |]; reflexivity.
  - reflexivity.
Qed.

(** When the times are not both set no trunk is looked up. *)
Lemma update_call_log_found_open (call_id : string)
    (update_data : CallLogUpdate.t) (s : db) (call_log : CallLog.t) :
  filter (fun row => String.eqb (CallLog.call_id row) call_id) (call_logs s)
  = [call_log] ->
  negb (is_None (CallLog.ended_at (CallLogUpdate.setattrs update_data call_log)))
  && negb (is_None (CallLog.answered_at
                      (CallLogUpdate.setattrs update_data call_log))) = false ->
  let written := CallLogUpdate.setattrs update_data call_log in
  SipTrunkService.update_call_log call_id update_data s
  = (Returned (Some (SipTrunkService._call_log_to_response written)),
     {| sip_trunks := sip_trunks s;
        call_logs :=
          map (fun row =>
                 if String.eqb (CallLog.call_id row) (CallLog.call_id written)
                 then written else row)
              (call_logs s) |}).
Proof.
  intros Hcall Hopen written.
  unfold SipTrunkService.update_call_log, SipTrunkService.update_call_log_body.
  unfold bind at 1. unfold execute_scalar_one_or_none at 1.
  rewrite Hcall. simpl scalar_one_or_none. cbv beta iota.
  unfold bind at 1. rewrite ended_guard_false.
  unfold ret at 1. cbv beta iota.
  unfold bind at 1. rewrite Hopen. reflexivity.
Qed.

(** Every call of [update_call_log] either leaves the database as it was
    or writes one call log under the [call_id] it was given. *)
Lemma update_call_log_cases (call_id : string) (update_data : CallLogUpdate.t)
    (s : db) :
  snd (SipTrunkService.update_call_log call_id update_data s) = s
  \/ exists (call_log : CallLog.t) (rate : option float),
       filter (fun row => String.eqb (CallLog.call_id row) call_id) (call_logs s)
       = [call_log]
       /\ SipTrunkService.update_call_log call_id update_data s
          = (Returned
               (Some (SipTrunkService._call_log_to_response
                        (settled rate
                           (CallLogUpdate.setattrs update_data call_log)))),
             {| sip_trunks := sip_trunks s;
                call_logs :=
                  map (fun row =>
                         if String.eqb (CallLog.call_id row)
                              (CallLog.call_id
                                 (settled rate
                                    (CallLogUpdate.setattrs update_data call_log)))
                         then settled rate
                                (CallLogUpdate.setattrs update_data call_log)
                         else row)
                      (call_logs s) |}).
Proof.
  destruct (filter (fun row => String.eqb (CallLog.call_id row) call_id)
                   (call_logs s)) as [| call_log [| other rest]] eqn:Hcall.
  - left. unfold SipTrunkService.update_call_log,
      SipTrunkService.update_call_log_body.
    unfold bind at 1. unfold execute_scalar_one_or_none at 1.
    now rewrite Hcall.
  - destruct (negb (is_None (CallLog.ended_at
                               (CallLogUpdate.setattrs update_data call_log)))
              && negb (is_None (CallLog.answered_at
                                  (CallLogUpdate.setattrs update_data call_log))))
      eqn:Hguard.
    + destruct (SipTrunkService._get_trunk_by_id (CallLog.sip_trunk_id call_log) s)
        as [[found s0] | e] eqn:Htrunk.
      * assert (s0 = s).
        { unfold SipTrunkService._get_trunk_by_id, execute_scalar_one_or_none
            in Htrunk.
          destruct (scalar_one_or_none _); [now inversion Htrunk | discriminate]. }
        subst s0. right.
        exists call_log, (option_map SipTrunk.cost_per_minute found).
        split; [reflexivity |].
        exact (update_call_log_found call_id update_data s call_log found
                 Hcall Htrunk).
      * left. unfold SipTrunkService.update_call_log,
          SipTrunkService.update_call_log_body.
        unfold bind at 1. unfold execute_scalar_one_or_none at 1.
        rewrite Hcall. simpl scalar_one_or_none. cbv beta iota.
        unfold bind at 1. rewrite ended_guard_false.
        unfold ret at 1. cbv beta iota.
        unfold bind at 1. rewrite Hguard. unfold bind at 1.
        replace (CallLog.sip_trunk_id
                   (snd (CallLog.calculate_duration
                           (CallLogUpdate.setattrs update_data call_log))))
          with (CallLog.sip_trunk_id call_log)
          by (symmetry;
              apply (calculate_duration_keeps
                       (CallLogUpdate.setattrs update_data call_log))).
        now rewrite Htrunk.
    + right. exists call_log, None. split; [reflexivity |].
      unfold settled. rewrite Hguard.
      exact (update_call_log_found_open call_id update_data s call_log
               Hcall Hguard).
  - left. unfold SipTrunkService.update_call_log,
      SipTrunkService.update_call_log_body.
    unfold bind at 1. unfold execute_scalar_one_or_none at 1.
    now rewrite Hcall.
Qed.

(** X7: [update_call_log] writes no call log but the one it was called
    for, and adds or removes none: after any call the [call_id]s of the
    table are the same in the same order, and the rows under every other
    [call_id] are as before. *)
Theorem update_call_log_touches_one_call (call_id : string)
    (update_data : CallLogUpdate.t) (s : db) :
  let s' := snd (SipTrunkService.update_call_log call_id update_data s) in
  map CallLog.call_id (call_logs s') = map CallLog.call_id (call_logs s)
  /\ filter (fun row => negb (String.eqb (CallLog.call_id row) call_id))
            (call_logs s')
     = filter (fun row => negb (String.eqb (CallLog.call_id row) call_id))
              (call_logs s).
Proof.
  cbv zeta.
  destruct (update_call_log_cases call_id update_data s)
    as [Hsame | (call_log & rate & Hcall & Hrun)].
  - rewrite Hsame. split; reflexivity.
  - rewrite Hrun. cbn [snd call_logs].
    split.
    + apply (put_keys CallLog.t CallLog.call_id).
    + apply (put_frame CallLog.t CallLog.call_id).
      rewrite (proj1 (settled_keeps rate _)).
      assert (Hin : In call_log
                      (filter (fun row => String.eqb (CallLog.call_id row) call_id)
                              (call_logs s)))
        by (rewrite Hcall; now left).
      apply filter_In in Hin. now apply String.eqb_eq.
Qed.



Lemma setattrs_twice (update_data : CallLogUpdate.t) (call_log : CallLog.t) :
  CallLogUpdate.setattrs update_data (CallLogUpdate.setattrs update_data call_log)
  = CallLogUpdate.setattrs update_data call_log.
Proof.
  destruct update_data as [a e st h q c d co cr].
  unfold CallLogUpdate.setattrs; simpl.
  destruct a, e, st, h, q, c, d, co, cr; reflexivity.
Qed.

Lemma setattr_twice {A : Type} (field : option A) (old : A) :
  CallLogUpdate.setattr field (CallLogUpdate.setattr field old)
  = CallLogUpdate.setattr field old.
Proof. destruct field; reflexivity. Qed.

Lemma settled_open (rate : option float) (call_log : CallLog.t) :
  negb (is_None (CallLog.ended_at call_log))
  && negb (is_None (CallLog.answered_at call_log)) = false ->
  settled rate call_log = call_log.
Proof. intros H. unfold settled. now rewrite H. Qed.

Lemma settled_timed (rate : option float) (call_log : CallLog.t)
    (answered ended : datetime) :
  CallLog.answered_at call_log = Some answered ->
  CallLog.ended_at call_log = Some ended ->
  settled rate call_log
  = let d := CallLog.whole_seconds (ended - answered) in
    let timed := CallLog.set_duration_seconds (Some d) call_log in
    match rate with
    | Some r =>
        if d =? 0 then timed
        else CallLog.set_cost (float_of_int d / 60 * r)%float timed
    | None => timed
    end.
Proof.
  intros Ha He. unfold settled, CallLog.calculate_duration.
  rewrite Ha, He. cbn [is_None negb andb snd].
  destruct rate as [r |]; [| reflexivity].
  unfold CallLog.calculate_cost.
  cbn [CallLog.duration_seconds CallLog.set_duration_seconds].
  cbv zeta.
  destruct (CallLog.whole_seconds (ended - answered) =? 0); reflexivity.
Qed.

(** Two call logs with the same columns are the same row. *)
Lemma CallLog_ext (x y : CallLog.t) :
  CallLog.call_id x = CallLog.call_id y ->
  CallLog.user_id x = CallLog.user_id y ->
  CallLog.account_id x = CallLog.account_id y ->
  CallLog.sip_trunk_id x = CallLog.sip_trunk_id y ->
  CallLog.direction x = CallLog.direction y ->
  CallLog.from_number x = CallLog.from_number y ->
  CallLog.to_number x = CallLog.to_number y ->
  CallLog.started_at x = CallLog.started_at y ->
  CallLog.answered_at x = CallLog.answered_at y ->
  CallLog.ended_at x = CallLog.ended_at y ->
  CallLog.duration_seconds x = CallLog.duration_seconds y ->
  CallLog.status x = CallLog.status y ->
  CallLog.hangup_cause x = CallLog.hangup_cause y ->
  CallLog.quality_score x = CallLog.quality_score y ->
  CallLog.codec_used x = CallLog.codec_used y ->
  CallLog.cost x = CallLog.cost y ->
  CallLog.credits_used x = CallLog.credits_used y ->
  x = y.
Proof.
  destruct x, y. cbn. intros. subst. reflexivity.
Qed.

Ltac call_log_columns :=
  apply CallLog_ext;
  lazy beta iota delta
    [CallLog.set_cost CallLog.set_duration_seconds CallLogUpdate.setattrs
     CallLog.call_id CallLog.user_id CallLog.account_id
     CallLog.sip_trunk_id CallLog.direction
     CallLog.from_number CallLog.to_number CallLog.started_at
     CallLog.answered_at CallLog.ended_at CallLog.duration_seconds
     CallLog.status CallLog.hangup_cause CallLog.quality_score
     CallLog.codec_used CallLog.cost CallLog.credits_used];
  first [reflexivity | apply setattr_twice].

Lemma restamped (update_data : CallLogUpdate.t) (call_log : CallLog.t)
    (d : option Z) :
  CallLog.set_duration_seconds d
    (CallLogUpdate.setattrs update_data
       (CallLog.set_duration_seconds d
          (CallLogUpdate.setattrs update_data call_log)))
  = CallLog.set_duration_seconds d
      (CallLogUpdate.setattrs update_data call_log).
Proof. call_log_columns. Qed.

Lemma restamped_priced (update_data : CallLogUpdate.t) (call_log : CallLog.t)
    (d : option Z) (c : float) :
  CallLog.set_cost c
    (CallLog.set_duration_seconds d
       (CallLogUpdate.setattrs update_data
          (CallLog.set_cost c
             (CallLog.set_duration_seconds d
                (CallLogUpdate.setattrs update_data call_log)))))
  = CallLog.set_cost c
      (CallLog.set_duration_seconds d
         (CallLogUpdate.setattrs update_data call_log)).
Proof. call_log_columns. Qed.

Lemma resettled (rate : option float) (update_data : CallLogUpdate.t)
    (call_log : CallLog.t) :
  settled rate
    (CallLogUpdate.setattrs update_data
       (settled rate (CallLogUpdate.setattrs update_data call_log)))
  = settled rate (CallLogUpdate.setattrs update_data call_log).
Proof.
  set (c1 := CallLogUpdate.setattrs update_data call_log).
  destruct (negb (is_None (CallLog.ended_at c1))
            && negb (is_None (CallLog.answered_at c1))) eqn:Hguard.
  - destruct (CallLog.ended_at c1) as [ended |] eqn:He; [| discriminate].
    destruct (CallLog.answered_at c1) as [answered |] eqn:Ha;
      [| now rewrite andb_false_r in Hguard].
    destruct (settled_keeps rate c1) as (_ & _ & Ka & Ke).
    assert (Ha2 : CallLog.answered_at
                    (CallLogUpdate.setattrs update_data (settled rate c1))
                  = Some answered).
    { change (CallLogUpdate.setattr (CallLogUpdate.answered_at update_data)
                (CallLog.answered_at (settled rate c1)) = Some answered).
      rewrite Ka. subst c1.
      change (CallLog.answered_at
                (CallLogUpdate.setattrs update_data
                   (CallLogUpdate.setattrs update_data call_log))
              = Some answered).
      rewrite setattrs_twice. exact Ha. }
    assert (He2 : CallLog.ended_at
                    (CallLogUpdate.setattrs update_data (settled rate c1))
                  = Some ended).
    { change (CallLogUpdate.setattr (CallLogUpdate.ended_at update_data)
                (CallLog.ended_at (settled rate c1)) = Some ended).
      rewrite Ke. subst c1.
      change (CallLog.ended_at
                (CallLogUpdate.setattrs update_data
                   (CallLogUpdate.setattrs update_data call_log))
              = Some ended).
      rewrite setattrs_twice. exact He. }
    rewrite (settled_timed rate _ answered ended Ha2 He2).
    rewrite (settled_timed rate c1 answered ended Ha He).
    cbv zeta. subst c1.
    destruct rate as [r |]; [| apply restamped].
    destruct (CallLog.whole_seconds (ended - answered) =? 0);
      [apply restamped | apply restamped_priced].
  - rewrite (settled_open rate c1 Hguard). subst c1.
    rewrite setattrs_twice. apply settled_open. exact Hguard.
Qed.

Lemma put_twice {A : Type} (key : A -> string) (rows : list A) (written : A) :
  map (fun row => if String.eqb (key row) (key written) then written else row)
    (map (fun row => if String.eqb (key row) (key written) then written else row)
         rows)
  = map (fun row => if String.eqb (key row) (key written) then written else row)
        rows.
Proof.
  rewrite map_map. apply map_ext. intros row.
  destruct (String.eqb (key row) (key written)) eqn:E.
  - now rewrite String.eqb_refl.
  - now rewrite E.
Qed.

Lemma get_trunk_by_id_same_trunks (trunk_id : string) (s s1 : db)
    (found : option SipTrunk.t) :
  sip_trunks s1 = sip_trunks s ->
  SipTrunkService._get_trunk_by_id trunk_id s = Returned (found, s) ->
  SipTrunkService._get_trunk_by_id trunk_id s1 = Returned (found, s1).
Proof.
  unfold SipTrunkService._get_trunk_by_id, execute_scalar_one_or_none.
  intros ->. destruct (scalar_one_or_none _); [| discriminate].
  intros H. now inversion H.
Qed.

(** X9: [update_call_log] is idempotent.  The same update delivered a
    second time returns what the first delivery returned and leaves the
    database the first delivery left, whatever the update and the
    database are. *)
Theorem update_call_log_idempotent (call_id : string)
    (update_data : CallLogUpdate.t) (s : db) :
  SipTrunkService.update_call_log call_id update_data
    (snd (SipTrunkService.update_call_log call_id update_data s))
  = SipTrunkService.update_call_log call_id update_data s.
Proof.
  destruct (update_call_log_cases call_id update_data s)
    as [Hsame | (call_log & rate0 & Hcall & _)];
    [now rewrite Hsame |].
  assert (Hcid : CallLog.call_id call_log = call_id).
  { assert (Hin : In call_log
                    (filter (fun row => String.eqb (CallLog.call_id row) call_id)
                            (call_logs s)))
      by (rewrite Hcall; now left).
    apply filter_In in Hin. now apply String.eqb_eq. }
  set (c1 := CallLogUpdate.setattrs update_data call_log).
  destruct (negb (is_None (CallLog.ended_at c1))
            && negb (is_None (CallLog.answered_at c1))) eqn:Hguard.
  - destruct (SipTrunkService._get_trunk_by_id (CallLog.sip_trunk_id call_log) s)
      as [[found s0] | e] eqn:Htrunk.
    + assert (s0 = s).
      { unfold SipTrunkService._get_trunk_by_id, execute_scalar_one_or_none
          in Htrunk.
        destruct (scalar_one_or_none _); [now inversion Htrunk | discriminate]. }
      subst s0.
      pose proof (update_call_log_found call_id update_data s call_log found
                    Hcall Htrunk) as Hrun.
      cbv zeta in Hrun. fold c1 in Hrun.
      set (rate := option_map SipTrunk.cost_per_minute found) in *.
      set (c2 := settled rate c1) in *.
      destruct (settled_keeps rate c1) as (Kid & Ktid & _ & _).
      fold c2 in Kid, Ktid.
      assert (Hc2 : CallLog.call_id c2 = call_id) by (now rewrite Kid).
      rewrite Hrun. cbn [snd].
      set (s1 := {| sip_trunks := sip_trunks s; call_logs := _ |}).
      assert (Hcall1 : filter (fun row => String.eqb (CallLog.call_id row) call_id)
                         (call_logs s1) = [c2]).
      { subst s1. cbn [call_logs].
        exact (put_lookup CallLog.t CallLog.call_id call_id (call_logs s)
                 call_log c2 Hcall Hc2). }
      assert (Htrunk1 : SipTrunkService._get_trunk_by_id (CallLog.sip_trunk_id c2) s1
                        = Returned (found, s1)).
      { apply (get_trunk_by_id_same_trunks _ s s1 found); [reflexivity |].
        rewrite Ktid. exact Htrunk. }
      rewrite (update_call_log_found call_id update_data s1 c2 found
                 Hcall1 Htrunk1).
      fold rate. subst c2 c1. rewrite resettled.
      subst s1. cbn [sip_trunks call_logs].
      now rewrite (put_twice CallLog.call_id).
    + assert (Hr : SipTrunkService.update_call_log call_id update_data s
                   = (Raised e, s)).
      { unfold SipTrunkService.update_call_log,
          SipTrunkService.update_call_log_body.
        unfold bind at 1. unfold execute_scalar_one_or_none at 1.
        rewrite Hcall. simpl scalar_one_or_none. cbv beta iota.
        unfold bind at 1. rewrite ended_guard_false.
        unfold ret at 1. cbv beta iota.
        unfold bind at 1. fold c1. rewrite Hguard. unfold bind at 1.
        replace (CallLog.sip_trunk_id (snd (CallLog.calculate_duration c1)))
          with (CallLog.sip_trunk_id call_log)
          by (symmetry; apply (calculate_duration_keeps c1)).
        now rewrite Htrunk. }
      now rewrite Hr.
  - pose proof (update_call_log_found_open call_id update_data s call_log
                  Hcall Hguard) as Hrun.
    cbv zeta in Hrun. fold c1 in Hrun.
    assert (Hc1 : CallLog.call_id c1 = call_id) by exact Hcid.
    rewrite Hrun. cbn [snd].
    set (s1 := {| sip_trunks := sip_trunks s; call_logs := _ |}).
    assert (Hcall1 : filter (fun row => String.eqb (CallLog.call_id row) call_id)
                       (call_logs s1) = [c1]).
    { subst s1. cbn [call_logs].
      exact (put_lookup CallLog.t CallLog.call_id call_id (call_logs s)
               call_log c1 Hcall Hc1). }
    assert (Hguard1 :
              negb (is_None (CallLog.ended_at (CallLogUpdate.setattrs update_data c1)))
              && negb (is_None (CallLog.answered_at
                                  (CallLogUpdate.setattrs update_data c1)))
              = false).
    { subst c1. now rewrite setattrs_twice. }
    rewrite (update_call_log_found_open call_id update_data s1 c1 Hcall1 Hguard1).
    subst c1. rewrite setattrs_twice.
    subst s1. cbn [sip_trunks call_logs].
    now rewrite (put_twice CallLog.call_id).
Qed.

(** ** Health checks over the table *)

Lemma perform_health_check_same_but_health (now : datetime)
    (p : SipTrunkService.probe) (trunk : SipTrunk.t) :
  same_but_health trunk (snd (SipTrunkService._perform_health_check now p trunk))
  /\ SipTrunk.last_health_check
       (snd (SipTrunkService._perform_health_check now p trunk)) = Some now
  /\ SipTrunk.health_status
       (snd (SipTrunkService._perform_health_check now p trunk))
     = match SipTrunkService.hr_status
               (fst (SipTrunkService._perform_health_check now p trunk)) with
       | Some st => st
       | None => "unknown"
       end.
Proof.
  unfold SipTrunkService._perform_health_check, same_but_health.
  destruct (SipTrunkService.providers (SipTrunk.provider trunk));
    [destruct p |]; simpl; repeat split; reflexivity.
Qed.

Lemma same_but_health_refl (trunk : SipTrunk.t) : same_but_health trunk trunk.
Proof. unfold same_but_health. repeat split; reflexivity. Qed.

(** X10: [perform_health_checks] writes health columns only, and only on
    the rows of its query.  Row by row, the table after has the same
    trunks with every other column as before; a row that is deleted, or
    that belongs to another user when a user is given, is the very row it
    was; a row of the query carries the time of its check in
    [last_health_check].  The call logs are untouched. *)
Theorem perform_health_checks_writes_health_only
    (world : SipTrunk.t -> datetime * SipTrunkService.probe)
    (user_id : option string) (s : db) :
  let s' := snd (SipTrunkService.perform_health_checks world user_id s) in
  Forall2
    (fun before after =>
       same_but_health before after
       /\ (if SipTrunkService.health_check_where user_id before
           then SipTrunk.last_health_check after = Some (fst (world before))
           else after = before))
    (sip_trunks s) (sip_trunks s')
  /\ call_logs s' = call_logs s.
Proof.
  cbv zeta. unfold SipTrunkService.perform_health_checks. cbn [snd sip_trunks call_logs].
  split; [| reflexivity].
  induction (sip_trunks s) as [| row rows IH]; simpl; constructor; [| exact IH].
  destruct (SipTrunkService.health_check_where user_id row).
  - destruct (perform_health_check_same_but_health
                (fst (world row)) (snd (world row)) row) as (H1 & H2 & _).
    split; assumption.
  - split; [apply same_but_health_refl | reflexivity].
Qed.

Lemma available_where_same_but_health (user_id : string)
    (direction : CallDirection) (before after : SipTrunk.t) :
  same_but_health before after ->
  SipTrunkService.available_where user_id direction after
  = SipTrunkService.available_where user_id direction before.
Proof.
  intros (_ & Hu & _ & _ & Hs & Hd & Hm & Hc & _ & _ & _ & Hdel).
  unfold SipTrunkService.available_where.
  now rewrite Hu, Hs, Hd, Hm, Hc, Hdel.
Qed.

Lemma order_key_leb_same_but_health (a a' b b' : SipTrunk.t) :
  same_but_health a a' -> same_but_health b b' ->
  SipTrunkService.order_key_leb a' b' = SipTrunkService.order_key_leb a b.
Proof.
  intros (_ & _ & _ & _ & _ & _ & _ & Hca & _ & _ & Hpa & _)
         (_ & _ & _ & _ & _ & _ & _ & Hcb & _ & _ & Hpb & _).
  unfold SipTrunkService.order_key_leb. now rewrite Hca, Hcb, Hpa, Hpb.
Qed.

(** Selection over a table rewritten row by row in its health columns. *)
Lemma get_available_trunk_for_call_health_blind (relink : SipTrunk.t -> SipTrunk.t)
    (user_id : string) (direction : CallDirection) (s : db) :
  (forall row, same_but_health row (relink row)) ->
  SipTrunkService.get_available_trunk_for_call user_id direction
    {| sip_trunks := map relink (sip_trunks s); call_logs := call_logs s |}
  = match SipTrunkService.get_available_trunk_for_call user_id direction s with
    | Returned (Some trunk) => Returned (Some (relink trunk))
    | other => other
    end.
Proof.
  intros Hrelink.
  unfold SipTrunkService.get_available_trunk_for_call,
    SipTrunkService.available_query. cbn [sip_trunks].
  rewrite filter_map_preserved
    by (intros row; now apply available_where_same_but_health).
  rewrite order_by_priority_load_map
    by (intros a b; now apply order_key_leb_same_but_health).
  destruct (SipTrunkService.order_by_priority_load _) as [| a [| b rest]];
    reflexivity.
Qed.

(** X11: a round of health checks never changes the selection.  After
    [perform_health_checks], [get_available_trunk_for_call] returns [None]
    where it returned [None], raises where it raised, and where it
    returned a trunk it returns the same trunk, which differs at most in
    its health columns: a trunk just found unhealthy is still the one
    selected. *)
Theorem perform_health_checks_keeps_selection
    (world : SipTrunk.t -> datetime * SipTrunkService.probe)
    (checked : option string) (user_id : string) (direction : CallDirection)
    (s : db) :
  let s' := snd (SipTrunkService.perform_health_checks world checked s) in
  match SipTrunkService.get_available_trunk_for_call user_id direction s with
  | Returned (Some trunk) =>
      exists after,
        SipTrunkService.get_available_trunk_for_call user_id direction s'
        = Returned (Some after)
        /\ same_but_health trunk after
  | other =>
      SipTrunkService.get_available_trunk_for_call user_id direction s' = other
  end.
Proof.
  cbv zeta. unfold SipTrunkService.perform_health_checks. cbn [snd].
  rewrite get_available_trunk_for_call_health_blind.
  - destruct (SipTrunkService.get_available_trunk_for_call user_id direction s)
      as [[trunk |] | e]; try reflexivity.
    eexists. split; [reflexivity |].
    destruct (SipTrunkService.health_check_where checked trunk);
      [apply perform_health_check_same_but_health | apply same_but_health_refl].
  - intros row. destruct (SipTrunkService.health_check_where checked row);
      [apply perform_health_check_same_but_health | apply same_but_health_refl].
Qed.

Lemma dict_set_fresh {V : Type} (key : string) (value : V)
    (d : list (string * V)) :
  ~ In key (map fst d) -> SipTrunkService.dict_set key value d = d ++ [(key, value)].
Proof.
  intros Hfresh. unfold SipTrunkService.dict_set.
  destruct (existsb (fun item => String.eqb (fst item) key) d) eqn:E;
    [| reflexivity].
  apply existsb_exists in E. destruct E as (item & Hin & Hk).
  apply String.eqb_eq in Hk. exfalso. apply Hfresh. rewrite <- Hk.
  now apply in_map.
Qed.

Lemma fold_dict_set_distinct {V : Type} (value : SipTrunk.t -> V)
    (trunks : list SipTrunk.t) (d : list (string * V)) :
  NoDup (map fst d ++ map SipTrunk.id trunks) ->
  fold_left (fun results trunk =>
               SipTrunkService.dict_set (SipTrunk.id trunk) (value trunk) results)
            trunks d
  = d ++ map (fun trunk => (SipTrunk.id trunk, value trunk)) trunks.
Proof.
  revert d. induction trunks as [| trunk trunks IH]; intros d Hnd; simpl.
  - now rewrite app_nil_r.
  - assert (Hfresh : ~ In (SipTrunk.id trunk) (map fst d)).
    { intros Hin. apply NoDup_remove_2 in Hnd. apply Hnd.
      apply in_or_app. now left. }
    rewrite (dict_set_fresh _ _ _ Hfresh).
    rewrite IH.
    + now rewrite <- app_assoc.
    + rewrite map_app. simpl. rewrite <- app_assoc. exact Hnd.
Qed.

Lemma where_keeps_keys_distinct {Row Key : Type} (key : Row -> Key)
    (keep : Row -> bool) (rows : list Row) :
  NoDup (map key rows) -> NoDup (map key (filter keep rows)).
Proof.
  induction rows as [| row rows IH]; simpl; intros Hnd; [constructor |].
  inversion Hnd as [| ? ? Hnotin Hnd']; subst.
  destruct (keep row); simpl; [constructor |]; auto.
  intros Hin. apply Hnotin. apply in_map_iff in Hin.
  destruct Hin as (other & Hother & Hin). apply filter_In in Hin.
  rewrite <- Hother. apply in_map. tauto.
Qed.

(** X12: in a table of trunks with distinct [id]s, the dict
    [perform_health_checks] returns has one entry for each trunk of the
    query, in the order of the table, and each entry tells what was
    stored: the trunk with that [id] is in the table after, and its
    [health_status] is the ["status"] of the entry (["unknown"] when the
    entry has none). *)
Theorem perform_health_checks_reports_what_it_stores
    (world : SipTrunk.t -> datetime * SipTrunkService.probe)
    (user_id : option string) (s : db) :
  NoDup (map SipTrunk.id (sip_trunks s)) ->
  let results := fst (SipTrunkService.perform_health_checks world user_id s) in
  let s' := snd (SipTrunkService.perform_health_checks world user_id s) in
  map fst results
  = map SipTrunk.id
      (filter (SipTrunkService.health_check_where user_id) (sip_trunks s))
  /\ forall trunk_id result,
       In (trunk_id, result) results ->
       exists after,
         In after (sip_trunks s')
         /\ SipTrunk.id after = trunk_id
         /\ SipTrunk.health_status after
            = match SipTrunkService.hr_status result with
              | Some st => st
              | None => "unknown"
              end.
Proof.
  intros Hnd. cbv zeta.
  unfold SipTrunkService.perform_health_checks. cbn [fst snd sip_trunks].
  rewrite fold_dict_set_distinct
    by (simpl; now apply where_keeps_keys_distinct).
  cbn [app]. split.
  - rewrite map_map. reflexivity.
  - intros trunk_id result Hin. apply in_map_iff in Hin.
    destruct Hin as (trunk & Heq & Hin). inversion Heq; subst; clear Heq.
    apply filter_In in Hin. destruct Hin as [Hin Hsel].
    destruct (perform_health_check_same_but_health
                (fst (world trunk)) (snd (world trunk)) trunk)
      as ((Hid & _) & _ & Hst).
    exists (snd (SipTrunkService._perform_health_check
                   (fst (world trunk)) (snd (world trunk)) trunk)).
    split; [| split; [exact Hid | exact Hst]].
    apply in_map_iff. exists trunk. now rewrite Hsel.
Qed.

Lemma perform_health_checks_reports_what_it_stores_witness :
  let world := fun _ : SipTrunk.t =>
                 (Sample.seconds 60, SipTrunkService.ProbeRaises) in
  map fst (fst (SipTrunkService.perform_health_checks world (Some "u1")
                  Sample.three_trunks))
  = ["T1"; "T2"; "T3"].
Proof.
  cbv zeta.
  apply (perform_health_checks_reports_what_it_stores
           (fun _ => (Sample.seconds 60, SipTrunkService.ProbeRaises))
           (Some "u1") Sample.three_trunks).
  simpl. repeat constructor; simpl; intuition discriminate.
Defined.

(** ** Creating a trunk *)

(** What passes the checks of [create_sip_trunk] is the row [SipTrunk(...)]
    builds. *)
Lemma create_sip_trunk_checks_trunk (users : list User.t)
    (user_id trunk_id : string) (trunk_data : SipTrunkCreate.t) (s : db)
    (trunk : SipTrunk.t) :
  SipTrunkService.create_sip_trunk_checks users user_id trunk_id trunk_data s
  = Returned trunk ->
  trunk = SipTrunkService.new_trunk trunk_id user_id trunk_data.
Proof.
  unfold SipTrunkService.create_sip_trunk_checks.
  destruct (SipTrunkService._get_user users user_id) as [[user |] | e];
    try discriminate.
  cbv zeta. destruct (_ >=? _); [discriminate |].
  intros H. now inversion H.
Qed.

(** No call of [create_sip_trunk] returns or changes the database. *)
Lemma create_sip_trunk_raises (users : list User.t)
    (init : SipTrunkService.provider_call) (now : datetime)
    (p : SipTrunkService.probe) (user_id trunk_id : string)
    (trunk_data : SipTrunkCreate.t) (s : db) :
  exists e,
    SipTrunkService.create_sip_trunk users init now p user_id trunk_id
      trunk_data s = (Raised e, s).
Proof.
  unfold SipTrunkService.create_sip_trunk.
  destruct (SipTrunkService.create_sip_trunk_checks users user_id trunk_id
              trunk_data s) as [trunk | e] eqn:Hchecks.
  - apply create_sip_trunk_checks_trunk in Hchecks. subst trunk.
    exists IntegrityError. reflexivity.
  - exists e. reflexivity.
Qed.

(** X13: [create_sip_trunk] holds a user to the trunk limit of the tier
    (1 on the free tier, 5 on pro, 50 on enterprise), and creates no trunk
    below it either.  With the user found: when the user's trunks that
    are not deleted have reached the limit, the call raises [ValueError]
    with the message of the limit; below the limit the trunk is built and
    added with no [account_id], the commit raises [IntegrityError], and
    the provider is never asked.  In both cases the database is as
    before. *)
Theorem create_sip_trunk_creates_nothing (users : list User.t)
    (init : SipTrunkService.provider_call) (now : datetime)
    (p : SipTrunkService.probe) (user_id trunk_id : string)
    (trunk_data : SipTrunkCreate.t) (s : db) (user : User.t) :
  SipTrunkService._get_user users user_id = Returned (Some user) ->
  let limit := match User.tier user with
               | FREE => 1 | PRO => 5 | ENTERPRISE => 50
               end in
  let result :=
    SipTrunkService.create_sip_trunk users init now p user_id trunk_id
      trunk_data s in
  (limit <= SipTrunkService._count_user_trunks user_id s ->
   result = (Raised (ValueError (SipTrunkService.trunk_limit_message limit)), s))
  /\ (SipTrunkService._count_user_trunks user_id s < limit ->
      SipTrunk.account_id (SipTrunkService.new_trunk trunk_id user_id trunk_data)
      = None
      /\ result = (Raised IntegrityError, s)).
Proof.
  intros Huser limit result.
  assert (Hlimit : SipTrunkService._get_max_trunks_for_tier
                     (UserTier_value (User.tier user)) = limit)
    by (subst limit; destruct (User.tier user); reflexivity).
  clearbody limit. subst result.
  unfold SipTrunkService.create_sip_trunk, SipTrunkService.create_sip_trunk_checks.
  rewrite Huser. cbv zeta. rewrite Hlimit.
  split; intros Hcount.
  - assert (E : (SipTrunkService._count_user_trunks user_id s >=? limit) = true)
      by (apply Z.geb_le; lia).
    now rewrite E.
  - assert (E : (SipTrunkService._count_user_trunks user_id s >=? limit) = false).
    { destruct (SipTrunkService._count_user_trunks user_id s >=? limit) eqn:E;
        [apply Z.geb_le in E; lia | reflexivity]. }
    rewrite E. split; reflexivity.
Qed.

Lemma create_sip_trunk_creates_nothing_witness :
  SipTrunkService.create_sip_trunk Sample.users SipTrunkService.CallReturns
    (Sample.seconds 5) Sample.healthy_probe "u1" "N"
    (Sample.create_trunk TWILIO) Sample.full_trunk
  = (Raised (ValueError "Maximum number of trunks (1) reached for your tier"),
     Sample.full_trunk)
  /\ SipTrunkService.create_sip_trunk Sample.users SipTrunkService.CallReturns
       (Sample.seconds 5) Sample.healthy_probe "u2" "N"
       (Sample.create_trunk TWILIO) Sample.full_trunk
     = (Raised IntegrityError, Sample.full_trunk).
Proof.
  split.
  - apply (create_sip_trunk_creates_nothing Sample.users
             SipTrunkService.CallReturns (Sample.seconds 5) Sample.healthy_probe
             "u1" "N" (Sample.create_trunk TWILIO) Sample.full_trunk
             {| User.id := "u1"; User.tier := FREE |}).
    + reflexivity.
    + vm_compute. intros H. discriminate H.
  - apply (create_sip_trunk_creates_nothing Sample.users
             SipTrunkService.CallReturns (Sample.seconds 5) Sample.healthy_probe
             "u2" "N" (Sample.create_trunk TWILIO) Sample.full_trunk
             {| User.id := "u2"; User.tier := PRO |}).
    + reflexivity.
    + reflexivity.
Defined.

(** ** Updating a trunk *)

(** What [update_sip_trunk] does with the trunk it finds. *)
Lemma update_sip_trunk_found (init : SipTrunkService.provider_call)
    (user_id trunk_id : string) (update_data : SipTrunkUpdate.t) (s : db)
    (trunk : SipTrunk.t) :
  SipTrunkService._get_trunk user_id trunk_id s = Returned (Some trunk, s) ->
  let written :=
    if SipTrunkUpdate.configuration_changed update_data
    then SipTrunkService._initialize_trunk_with_provider init
           (SipTrunkUpdate.setattrs update_data trunk)
    else SipTrunkUpdate.setattrs update_data trunk in
  SipTrunkService.update_sip_trunk init user_id trunk_id update_data s
  = (Returned (Some (SipTrunkService._trunk_to_response written)),
     {| sip_trunks :=
          map (fun row =>
                 if String.eqb (SipTrunk.id row) (SipTrunk.id written)
                 then written else row)
              (sip_trunks s);
        call_logs := call_logs s |}).
Proof.
  intros Hfound written.
  unfold SipTrunkService.update_sip_trunk, SipTrunkService.update_sip_trunk_body,
    bind.
  rewrite Hfound. reflexivity.
Qed.

Lemma update_sip_trunk_written_fields (init : SipTrunkService.provider_call)
    (update_data : SipTrunkUpdate.t) (trunk : SipTrunk.t) :
  let written :=
    if SipTrunkUpdate.configuration_changed update_data
    then SipTrunkService._initialize_trunk_with_provider init
           (SipTrunkUpdate.setattrs update_data trunk)
    else SipTrunkUpdate.setattrs update_data trunk in
  SipTrunk.id written = SipTrunk.id trunk
  /\ SipTrunk.user_id written = SipTrunk.user_id trunk
  /\ SipTrunk.provider written = SipTrunk.provider trunk
  /\ SipTrunk.current_active_calls written = SipTrunk.current_active_calls trunk
  /\ SipTrunk.deleted_at written = SipTrunk.deleted_at trunk
  /\ SipTrunk.failover_trunk_id written = SipTrunk.failover_trunk_id trunk
  /\ SipTrunk.health_status written = SipTrunk.health_status trunk
  /\ SipTrunk.last_health_check written = SipTrunk.last_health_check trunk
  /\ SipTrunk.max_concurrent_calls written
     = CallLogUpdate.setattr (SipTrunkUpdate.max_concurrent_calls update_data)
         (SipTrunk.max_concurrent_calls trunk)
  /\ SipTrunk.status written
     = if SipTrunkUpdate.configuration_changed update_data
          && SipTrunkService.providers (SipTrunk.provider trunk)
       then match init with
            | SipTrunkService.CallReturns => ACTIVE
            | SipTrunkService.CallRaises => ERROR
            end
       else CallLogUpdate.setattr (SipTrunkUpdate.status update_data)
              (SipTrunk.status trunk).
Proof.
  cbv zeta. unfold SipTrunkService._initialize_trunk_with_provider.
  cbn [SipTrunkUpdate.setattrs SipTrunk.provider].
  destruct (SipTrunkUpdate.configuration_changed update_data);
    [destruct (SipTrunkService.providers (SipTrunk.provider trunk));
     [destruct init |] |];
    cbn; repeat split; reflexivity.
Qed.

(** X16: [update_sip_trunk] cannot touch the counter, the owner, the
    deletion mark, the failover link or the health of a trunk, and writes
    no other row.  With the trunk of the user found, the call returns the
    response of the row it wrote; that row is in the table after under the
    same [id], with those columns as before; the rows under every other
    [id] and the call logs are as before. *)
Theorem update_sip_trunk_keeps_counter_and_owner
    (init : SipTrunkService.provider_call) (user_id trunk_id : string)
    (update_data : SipTrunkUpdate.t) (s : db) (trunk : SipTrunk.t) :
  SipTrunkService._get_trunk user_id trunk_id s = Returned (Some trunk, s) ->
  let s' := snd (SipTrunkService.update_sip_trunk init user_id trunk_id
                   update_data s) in
  exists written,
    fst (SipTrunkService.update_sip_trunk init user_id trunk_id update_data s)
    = Returned (Some (SipTrunkService._trunk_to_response written))
    /\ In written (sip_trunks s')
    /\ SipTrunk.id written = trunk_id
    /\ SipTrunk.user_id written = user_id
    /\ SipTrunk.current_active_calls written = SipTrunk.current_active_calls trunk
    /\ SipTrunk.deleted_at written = None
    /\ SipTrunk.failover_trunk_id written = SipTrunk.failover_trunk_id trunk
    /\ SipTrunk.health_status written = SipTrunk.health_status trunk
    /\ filter (fun row => negb (String.eqb (SipTrunk.id row) trunk_id))
              (sip_trunks s')
       = filter (fun row => negb (String.eqb (SipTrunk.id row) trunk_id))
                (sip_trunks s)
    /\ call_logs s' = call_logs s.
Proof.
  intros Hfound. cbv zeta.
  rewrite (update_sip_trunk_found init user_id trunk_id update_data s trunk Hfound).
  destruct (get_trunk_found _ _ _ _ Hfound) as (Hin & Hid & Huser & Hdel).
  destruct (update_sip_trunk_written_fields init update_data trunk)
    as (W1 & W2 & _ & W4 & W5 & W6 & W7 & _).
  cbv zeta in *. cbn [fst snd sip_trunks call_logs].
  eexists. split; [reflexivity |].
  split; [| split; [| split; [| split; [| split; [| split; [| split; [| split]]]]]]].
  - apply in_map_iff. exists trunk. split; [| exact Hin].
    now rewrite W1, String.eqb_refl.
  - now rewrite W1.
  - now rewrite W2.
  - exact W4.
  - now rewrite W5.
  - exact W6.
  - exact W7.
  - apply (put_frame SipTrunk.t SipTrunk.id). now rewrite W1.
  - reflexivity.
Qed.

Lemma update_sip_trunk_keeps_counter_and_owner_witness :
  exists written,
    fst (SipTrunkService.update_sip_trunk SipTrunkService.CallReturns "u1" "A"
           (Sample.capacity_update 9) Sample.full_trunk)
    = Returned (Some (SipTrunkService._trunk_to_response written))
    /\ SipTrunk.user_id written = "u1"
    /\ SipTrunk.current_active_calls written = 5.
Proof.
  destruct (update_sip_trunk_keeps_counter_and_owner SipTrunkService.CallReturns
              "u1" "A" (Sample.capacity_update 9) Sample.full_trunk
              (Sample.trunk "A" ACTIVE "healthy" 1 5 5 None) eq_refl)
    as (written & Hret & _ & _ & Huser & Hcur & _).
  exists written. split; [exact Hret |]. split; [exact Huser | exact Hcur].
Defined.

(** X17: [update_sip_trunk] checks no capacity.  With the trunk of the
    user found, a request that gives [max_concurrent_calls = m] is
    accepted and stored as given while the counter stays: the row written
    keeps [0 <= current_active_calls <= max_concurrent_calls] exactly when
    the counter was between 0 and [m]; lowered below the calls in
    progress, the limit is exceeded by the row itself. *)
Theorem update_sip_trunk_sets_any_capacity
    (init : SipTrunkService.provider_call) (user_id trunk_id : string)
    (update_data : SipTrunkUpdate.t) (s : db) (trunk : SipTrunk.t) (m : Z) :
  SipTrunkService._get_trunk user_id trunk_id s = Returned (Some trunk, s) ->
  SipTrunkUpdate.max_concurrent_calls update_data = Some m ->
  exists written,
    SipTrunkService.update_sip_trunk init user_id trunk_id update_data s
    = (Returned (Some (SipTrunkService._trunk_to_response written)),
       {| sip_trunks :=
            map (fun row =>
                   if String.eqb (SipTrunk.id row) trunk_id then written else row)
                (sip_trunks s);
          call_logs := call_logs s |})
    /\ SipTrunk.max_concurrent_calls written = m
    /\ SipTrunk.current_active_calls written = SipTrunk.current_active_calls trunk
    /\ (SipTrunk.within_capacity written
        <-> 0 <= SipTrunk.current_active_calls trunk <= m).
Proof.
  intros Hfound Hmax.
  pose proof (update_sip_trunk_found init user_id trunk_id update_data s trunk
                Hfound) as Hrun.
  destruct (get_trunk_found _ _ _ _ Hfound) as (_ & Hid & _).
  destruct (update_sip_trunk_written_fields init update_data trunk)
    as (W1 & _ & _ & W4 & _ & _ & _ & _ & W9 & _).
  cbv zeta in *. rewrite Hmax in W9. cbn [CallLogUpdate.setattr] in W9.
  eexists. split; [| split; [exact W9 | split; [exact W4 |]]].
  - rewrite Hrun. rewrite W1, Hid. reflexivity.
  - unfold SipTrunk.within_capacity. rewrite W9, W4. tauto.
Qed.

Lemma update_sip_trunk_sets_any_capacity_witness :
  exists written,
    fst (SipTrunkService.update_sip_trunk SipTrunkService.CallReturns "u1" "A"
           (Sample.capacity_update 2) Sample.full_trunk)
    = Returned (Some (SipTrunkService._trunk_to_response written))
    /\ SipTrunk.max_concurrent_calls written = 2
    /\ SipTrunk.current_active_calls written = 5
    /\ ~ SipTrunk.within_capacity written.
Proof.
  destruct (update_sip_trunk_sets_any_capacity SipTrunkService.CallReturns
              "u1" "A" (Sample.capacity_update 2) Sample.full_trunk
              (Sample.trunk "A" ACTIVE "healthy" 1 5 5 None) 2 eq_refl eq_refl)
    as (written & Hrun & Hmax & Hcur & Hiff).
  exists written. split; [now rewrite Hrun |].
  split; [exact Hmax |]. split; [exact Hcur |].
  intros Hcap. apply Hiff in Hcap. simpl in Hcap. lia.
Defined.

(** X18: a change of password decides the status.  With the trunk of the
    user found, when the request gives [sip_password] and the service has
    a client for the trunk's provider, the status returned and stored is
    ACTIVE if the provider initialises the trunk and ERROR if it raises,
    whatever [status] the request gave; in every other case it is the
    status the request gave, or the one before when it gave none. *)
Theorem update_sip_trunk_status (init : SipTrunkService.provider_call)
    (user_id trunk_id : string) (update_data : SipTrunkUpdate.t) (s : db)
    (trunk : SipTrunk.t) :
  SipTrunkService._get_trunk user_id trunk_id s = Returned (Some trunk, s) ->
  exists response,
    fst (SipTrunkService.update_sip_trunk init user_id trunk_id update_data s)
    = Returned (Some response)
    /\ SipTrunkResponse.status response
       = (if negb (is_None (SipTrunkUpdate.sip_password update_data))
             && SipTrunkService.providers (SipTrunk.provider trunk)
          then match init with
               | SipTrunkService.CallReturns => ACTIVE
               | SipTrunkService.CallRaises => ERROR
               end
          else match SipTrunkUpdate.status update_data with
               | Some st => st
               | None => SipTrunk.status trunk
               end)
    /\ forall row, In row (sip_trunks
                             (snd (SipTrunkService.update_sip_trunk init user_id
                                     trunk_id update_data s))) ->
                   SipTrunk.id row = trunk_id ->
                   SipTrunk.status row = SipTrunkResponse.status response.
Proof.
  intros Hfound.
  rewrite (update_sip_trunk_found init user_id trunk_id update_data s trunk Hfound).
  destruct (get_trunk_found _ _ _ _ Hfound) as (_ & Hid & _).
  destruct (update_sip_trunk_written_fields init update_data trunk)
    as (W1 & _ & _ & _ & _ & _ & _ & _ & _ & W10).
  cbv zeta in *. cbn [fst snd sip_trunks].
  eexists. split; [reflexivity |].
  cbn [SipTrunkService._trunk_to_response SipTrunkResponse.status].
  split; [exact W10 |].
  intros row Hrow Hrid. apply in_map_iff in Hrow.
  destruct Hrow as (row0 & Hrow0 & _).
  destruct (String.eqb (SipTrunk.id row0) _) eqn:E; [now subst row |].
  subst row. apply String.eqb_neq in E. rewrite W1, Hid in E. contradiction.
Qed.

Lemma update_sip_trunk_status_witness :
  exists response,
    fst (SipTrunkService.update_sip_trunk SipTrunkService.CallReturns "u1" "A"
           Sample.suspend_with_password Sample.full_trunk)
    = Returned (Some response)
    /\ SipTrunkUpdate.status Sample.suspend_with_password = Some SUSPENDED
    /\ SipTrunkResponse.status response = ACTIVE.
Proof.
  destruct (update_sip_trunk_status SipTrunkService.CallReturns "u1" "A"
              Sample.suspend_with_password Sample.full_trunk
              (Sample.trunk "A" ACTIVE "healthy" 1 5 5 None) eq_refl)
    as (response & Hret & Hstatus & _).
  exists response. split; [exact Hret |]. split; [reflexivity | exact Hstatus].
Defined.

(** ** The provider clients *)

(** X19: what a health check through the clients can store.  The client
    of a provider lets no exception out, so the stored [health_status] is
    one of ["healthy"], ["unhealthy"], ["error"], or ["unknown"] when the
    service has no client for the provider.  It is ["healthy"] exactly
    when the request returned code 200 with a body that reads and, for
    Twilio, the account's status is ["active"].  No client reports a
    packet loss: [packet_loss_percent] is never written; [latency_ms] is
    written exactly when a client got a response and did not fail reading
    it.  No other column changes. *)
Theorem health_check_with_client_outcomes (now : datetime) (http : http_get)
    (latency_ms : float) (trunk : SipTrunk.t) :
  let after := health_check_with_client now http latency_ms trunk in
  same_but_health trunk after
  /\ SipTrunk.packet_loss_percent after = SipTrunk.packet_loss_percent trunk
  /\ In (SipTrunk.health_status after) ["healthy"; "unhealthy"; "error"; "unknown"]
  /\ (SipTrunk.health_status after = "unknown"
      <-> SipTrunkService.providers (SipTrunk.provider trunk) = false)
  /\ (SipTrunk.health_status after = "healthy"
      <-> exists body,
            http = GetResponse 200 (Some body)
            /\ match SipTrunk.provider trunk with
               | TWILIO => body = Some "active"
               | TELNYX => True
               | BANDWIDTH | VONAGE | CUSTOM => False
               end)
  /\ SipTrunk.latency_ms after
     = (if SipTrunkService.providers (SipTrunk.provider trunk)
           && negb (String.eqb (SipTrunk.health_status after) "error")
        then Some latency_ms
        else SipTrunk.latency_ms trunk).
Proof.
  cbv zeta.
  destruct trunk as [tid uid acct prov st dir mx cur lhc hs lat loss cost fo prio del].
  unfold health_check_with_client, provider_health_check, same_but_health,
    SipTrunkService._perform_health_check,
    TwilioProvider.health_check, TelnyxProvider.health_check.
  cbn [SipTrunk.provider].
  destruct prov; cbn [SipTrunkService.providers];
    [destruct http as [| code [[account |] |]];
     [| destruct (Z.eqb_spec code 200) as [-> | Hcode];
        [destruct (String.eqb_spec account "active") as [-> | Hacc] |]
      | destruct (Z.eqb_spec code 200) as [-> | Hcode]
      | destruct (Z.eqb_spec code 200) as [-> | Hcode]]
    | destruct http as [| code [account |]];
     [| destruct (Z.eqb_spec code 200) as [-> | Hcode]
      | destruct (Z.eqb_spec code 200) as [-> | Hcode]]
    | | | ];
    cbn;
    (split; [repeat split; reflexivity |]);
    (split; [reflexivity |]);
    (split; [auto 8 |]);
    (split; [split; intros H; (discriminate H || reflexivity) |]);
    (split; [| reflexivity]);
    (split;
     [intros H; try discriminate H
     | intros (body & Hb & Hp); try contradiction; try discriminate Hb;
       try (inversion Hb; subst; try discriminate Hp; try congruence)]);
    try (eexists; split; reflexivity);
    try (eexists; split; [reflexivity | exact I]);
    try reflexivity.
Qed.

(** X20: what the initialisation through the clients stores.  For a
    provider the service has a client for, the status after is ACTIVE
    exactly when the credentials are configured and the request returned
    code 200 with a body that reads, and ERROR otherwise; for a provider
    with no client the trunk is left as it is.  No other column changes. *)
Theorem initialize_with_client_status (credentials : bool) (http : http_get)
    (trunk : SipTrunk.t) :
  let after := initialize_with_client credentials http trunk in
  after = SipTrunk.set_status (SipTrunk.status after) trunk
  /\ if SipTrunkService.providers (SipTrunk.provider trunk)
     then (SipTrunk.status after = ACTIVE
           <-> credentials = true
               /\ exists body, http = GetResponse 200 (Some body))
          /\ (SipTrunk.status after = ACTIVE \/ SipTrunk.status after = ERROR)
     else SipTrunk.status after = SipTrunk.status trunk.
Proof.
  cbv zeta.
  destruct trunk as [tid uid acct prov st dir mx cur lhc hs lat loss cost fo prio del].
  unfold initialize_with_client, provider_initialize_trunk,
    SipTrunkService._initialize_trunk_with_provider,
    TwilioProvider.initialize_trunk, TelnyxProvider.initialize_trunk.
  cbn [SipTrunk.provider].
  destruct prov; cbn [SipTrunkService.providers];
    try (split; reflexivity);
    (destruct credentials;
     [destruct http as [| code [body |]];
      [| destruct (Z.eqb_spec code 200) as [-> | Hcode]
       | destruct (Z.eqb_spec code 200) as [-> | Hcode]] |]);
    cbn;
    (split; [reflexivity |]);
    (split; [| auto]);
    (split;
     [intros H; try discriminate H
     | intros (Hc & body' & Hb); try discriminate Hc; try discriminate Hb;
       try (inversion Hb; congruence)]);
    try (split; [reflexivity | eexists; reflexivity]);
    try reflexivity.
Qed.

(** ** Any run of requests *)

Lemma within_capacity_same_but_health (before after : SipTrunk.t) :
  same_but_health before after ->
  SipTrunk.within_capacity before -> SipTrunk.within_capacity after.
Proof.
  intros (_ & _ & _ & _ & _ & _ & Hm & Hc & _). unfold SipTrunk.within_capacity.
  now rewrite Hm, Hc.
Qed.

Lemma Forall_In_row {A : Type} (P : A -> Prop) (rows : list A) (row : A) :
  Forall P rows -> In row rows -> P row.
Proof. intros H. now apply Forall_forall. Qed.

Lemma get_trunk_state (user_id trunk_id : string) (s s0 : db)
    (found : option SipTrunk.t) :
  SipTrunkService._get_trunk user_id trunk_id s = Returned (found, s0) -> s0 = s.
Proof.
  unfold SipTrunkService._get_trunk, execute_scalar_one_or_none.
  destruct (scalar_one_or_none _); [| discriminate].
  intros H. now inversion H.
Qed.

Lemma handle_keeps_capacity (r : request) (s : db) :
  keeps_capacity r -> db_within_capacity s -> db_within_capacity (handle r s).
Proof.
  unfold db_within_capacity.
  destruct r as [users init now p user_id trunk_id trunk_data
                | init user_id trunk_id update_data
                | now user_id trunk_id
                | world user_id
                | call_data
                | call_id update_data]; cbn [handle keeps_capacity];
    intros Hr Hs.
  - (* create *)
    destruct (create_sip_trunk_raises users init now p user_id trunk_id
                trunk_data s) as [e ->].
    exact Hs.
  - (* update *)
    destruct (SipTrunkService._get_trunk user_id trunk_id s)
      as [[found s0] | e] eqn:Hget.
    + pose proof (get_trunk_state _ _ _ _ _ Hget). subst s0.
      destruct found as [trunk |].
      * rewrite (update_sip_trunk_found init user_id trunk_id update_data s
                   trunk Hget).
        cbn [snd sip_trunks].
        destruct (get_trunk_found _ _ _ _ Hget) as (Hin & _).
        destruct (update_sip_trunk_written_fields init update_data trunk)
          as (_ & _ & _ & W4 & _ & _ & _ & _ & W9 & _).
        cbv zeta in W4, W9. rewrite Hr in W9. cbn [CallLogUpdate.setattr] in W9.
        apply (put_Forall SipTrunk.t SipTrunk.id); [| exact Hs].
        unfold SipTrunk.within_capacity. rewrite W4, W9.
        exact (Forall_In_row _ _ _ Hs Hin).
      * unfold SipTrunkService.update_sip_trunk,
          SipTrunkService.update_sip_trunk_body, bind. rewrite Hget. exact Hs.
    + unfold SipTrunkService.update_sip_trunk,
        SipTrunkService.update_sip_trunk_body, bind. rewrite Hget. exact Hs.
  - (* delete *)
    unfold SipTrunkService.delete_sip_trunk,
      SipTrunkService.delete_sip_trunk_body, bind.
    destruct (SipTrunkService._get_trunk user_id trunk_id s)
      as [[found s0] | e] eqn:Hget; [| exact Hs].
    pose proof (get_trunk_state _ _ _ _ _ Hget). subst s0.
    destruct found as [trunk |]; [| exact Hs].
    destruct (SipTrunk.current_active_calls trunk >? 0); [exact Hs |].
    cbn [snd sip_trunks flush_trunk ret].
    destruct (get_trunk_found _ _ _ _ Hget) as (Hin & _).
    apply (put_Forall SipTrunk.t SipTrunk.id); [| exact Hs].
    exact (Forall_In_row _ _ _ Hs Hin).
  - (* health checks *)
    unfold SipTrunkService.perform_health_checks. cbn [snd sip_trunks].
    induction Hs as [| row rows Hrow _ IH]; simpl; constructor; [| exact IH].
    destruct (SipTrunkService.health_check_where user_id row); [| exact Hrow].
    apply (within_capacity_same_but_health row); [| exact Hrow].
    apply perform_health_check_same_but_health.
  - (* log_call *)
    destruct (log_call_raises call_data s) as [e ->]. exact Hs.
  - (* update_call_log *)
    now rewrite update_call_log_keeps_trunks.
Qed.

(** X21: the service keeps every counter within its limit.  From a
    database in which every trunk has
    [0 <= current_active_calls <= max_concurrent_calls], any run of
    requests (creating, updating and deleting trunks, rounds of health
    checks, logging and updating calls), whatever the providers answer,
    ends in such a database, provided each creation gives
    [max_concurrent_calls >= 1], as its schema demands, and no update of a
    trunk sets [max_concurrent_calls]. *)
Theorem handle_all_keeps_capacity (requests : list request) (s : db) :
  Forall keeps_capacity requests ->
  db_within_capacity s ->
  db_within_capacity (handle_all requests s).
Proof.
  unfold handle_all. revert s.
  induction requests as [| r requests IH]; intros s Hrs Hs; simpl; [exact Hs |].
  inversion Hrs as [| ? ? Hr Hrs']; subst.
  apply IH; [exact Hrs' |]. now apply handle_keeps_capacity.
Qed.

Lemma handle_all_keeps_capacity_witness :
  db_within_capacity
    (handle_all
       [CreateSipTrunk Sample.users SipTrunkService.CallReturns
          (Sample.seconds 5) Sample.healthy_probe "u2" "N"
          (Sample.create_trunk TWILIO);
        LogCall (Sample.create "c2");
        UpdateCallLog "c1" (Sample.ended_update 70);
        PerformHealthChecks
          (fun _ => (Sample.seconds 60, SipTrunkService.ProbeRaises)) None;
        DeleteSipTrunk (Sample.seconds 99) "u2" "N"]
       Sample.one_call_in_progress).
Proof.
  apply handle_all_keeps_capacity.
  - repeat constructor. simpl. lia.
  - unfold db_within_capacity. simpl. repeat constructor; simpl; lia.
Defined.

(** *** Counters only grow *)

Lemma Forall2_same {A : Type} (R : A -> A -> Prop) (l : list A) :
  (forall x, In x l -> R x x) -> Forall2 R l l.
Proof.
  induction l as [| x l IH]; intros H; constructor.
  - apply H. now left.
  - apply IH. intros y Hy. apply H. now right.
Qed.

Lemma Forall2_map_r {A : Type} (R : A -> A -> Prop) (f : A -> A) (l : list A) :
  (forall x, In x l -> R x (f x)) -> Forall2 R l (map f l).
Proof.
  induction l as [| x l IH]; intros H; simpl; constructor.
  - apply H. now left.
  - apply IH. intros y Hy. apply H. now right.
Qed.

Lemma counters_grow_map (f : SipTrunk.t -> SipTrunk.t) (rows : list SipTrunk.t) :
  (forall row, In row rows ->
               SipTrunk.id (f row) = SipTrunk.id row
               /\ SipTrunk.current_active_calls row
                  <= SipTrunk.current_active_calls (f row)) ->
  counters_grow rows (map f rows).
Proof.
  intros H. exists (map f rows), []. split; [now rewrite app_nil_r |].
  now apply Forall2_map_r.
Qed.

Lemma counters_grow_refl (rows : list SipTrunk.t) : counters_grow rows rows.
Proof.
  exists rows, []. split; [now rewrite app_nil_r |].
  apply Forall2_same. intros row _. split; [reflexivity | lia].
Qed.

Lemma counters_grow_trans (a b c : list SipTrunk.t) :
  counters_grow a b -> counters_grow b c -> counters_grow a c.
Proof.
  intros (kept1 & added1 & -> & H1) (kept2 & added2 & -> & H2).
  apply Forall2_app_inv_l in H2.
  destruct H2 as (k2 & a2 & Hk & Ha & ->).
  exists k2, (a2 ++ added2). split; [now rewrite app_assoc |].
  clear - H1 Hk. revert k2 Hk.
  induction H1 as [| x y l l' (Hid & Hle) _ IH]; intros k2 Hk.
  - inversion Hk. constructor.
  - inversion Hk as [| ? z ? k2' (Hid' & Hle') Hk']; subst.
    constructor; [split; [congruence | lia] | now apply IH].
Qed.

(** In a table with distinct [id]s, writing [written] over the row [found]
    of its [id] changes that row alone. *)
Lemma counters_grow_put (rows : list SipTrunk.t) (found written : SipTrunk.t) :
  NoDup (map SipTrunk.id rows) ->
  In found rows ->
  SipTrunk.id written = SipTrunk.id found ->
  SipTrunk.current_active_calls found <= SipTrunk.current_active_calls written ->
  counters_grow rows
    (map (fun row =>
            if String.eqb (SipTrunk.id row) (SipTrunk.id written)
            then written else row)
         rows).
Proof.
  intros Hnd Hin Hid Hle. apply counters_grow_map. intros row Hrow.
  destruct (String.eqb (SipTrunk.id row) (SipTrunk.id written)) eqn:E.
  - apply String.eqb_eq in E. rewrite Hid in E.
    assert (row = found).
    { clear - Hnd Hin Hrow E. induction rows as [| r rows IH]; [contradiction |].
      simpl in Hnd. inversion Hnd as [| ? ? Hnotin Hnd']; subst.
      destruct Hrow as [-> | Hrow], Hin as [-> | Hin]; try reflexivity.
      - exfalso. apply Hnotin. rewrite E. now apply in_map.
      - exfalso. apply Hnotin. rewrite <- E. now apply in_map.
      - now apply IH. }
    subst row. split; [exact Hid | exact Hle].
  - split; [reflexivity | lia].
Qed.

Lemma handle_counters_grow (r : request) (s : db) :
  NoDup (map SipTrunk.id (sip_trunks s)) ->
  counters_grow (sip_trunks s) (sip_trunks (handle r s))
  /\ map SipTrunk.id (sip_trunks (handle r s)) = map SipTrunk.id (sip_trunks s).
Proof.
  intros Hnd.
  assert (Hsame : counters_grow (sip_trunks s) (sip_trunks s)
                  /\ map SipTrunk.id (sip_trunks s) = map SipTrunk.id (sip_trunks s))
    by (split; [apply counters_grow_refl | reflexivity]).
  assert (Hput : forall found written,
            In found (sip_trunks s) ->
            SipTrunk.id written = SipTrunk.id found ->
            SipTrunk.current_active_calls found
            <= SipTrunk.current_active_calls written ->
            counters_grow (sip_trunks s)
              (map (fun row =>
                      if String.eqb (SipTrunk.id row) (SipTrunk.id written)
                      then written else row) (sip_trunks s))
            /\ map SipTrunk.id
                 (map (fun row =>
                         if String.eqb (SipTrunk.id row) (SipTrunk.id written)
                         then written else row) (sip_trunks s))
               = map SipTrunk.id (sip_trunks s)).
  { intros found written Hin Hid Hle.
    split; [now apply (counters_grow_put _ found) |].
    apply (put_keys SipTrunk.t SipTrunk.id). }
  destruct r as [users init now p user_id trunk_id trunk_data
                | init user_id trunk_id update_data
                | now user_id trunk_id
                | world user_id
                | call_data
                | call_id update_data]; cbn [handle].
  - (* create *)
    destruct (create_sip_trunk_raises users init now p user_id trunk_id
                trunk_data s) as [e ->].
    exact Hsame.
  - (* update *)
    destruct (SipTrunkService._get_trunk user_id trunk_id s)
      as [[found s0] | e] eqn:Hget.
    + pose proof (get_trunk_state _ _ _ _ _ Hget). subst s0.
      destruct found as [trunk |].
      * rewrite (update_sip_trunk_found init user_id trunk_id update_data s
                   trunk Hget).
        cbn [snd sip_trunks].
        destruct (get_trunk_found _ _ _ _ Hget) as (Hin & _).
        destruct (update_sip_trunk_written_fields init update_data trunk)
          as (W1 & _ & _ & W4 & _).
        cbv zeta in W1, W4.
        apply (Hput trunk); [exact Hin | exact W1 | rewrite W4; lia].
      * unfold SipTrunkService.update_sip_trunk,
          SipTrunkService.update_sip_trunk_body, bind. rewrite Hget.
        exact Hsame.
    + unfold SipTrunkService.update_sip_trunk,
        SipTrunkService.update_sip_trunk_body, bind. rewrite Hget. exact Hsame.
  - (* delete *)
    unfold SipTrunkService.delete_sip_trunk,
      SipTrunkService.delete_sip_trunk_body, bind.
    destruct (SipTrunkService._get_trunk user_id trunk_id s)
      as [[found s0] | e] eqn:Hget; [| exact Hsame].
    pose proof (get_trunk_state _ _ _ _ _ Hget). subst s0.
    destruct found as [trunk |]; [| exact Hsame].
    destruct (SipTrunk.current_active_calls trunk >? 0); [exact Hsame |].
    cbn [snd sip_trunks flush_trunk ret].
    destruct (get_trunk_found _ _ _ _ Hget) as (Hin & _).
    apply (Hput trunk); [exact Hin | reflexivity | cbn; lia].
  - (* health checks *)
    unfold SipTrunkService.perform_health_checks. cbn [snd sip_trunks]. split.
    + apply counters_grow_map. intros row _.
      destruct (SipTrunkService.health_check_where user_id row);
        [| split; [reflexivity | lia]].
      destruct (perform_health_check_same_but_health
                  (fst (world row)) (snd (world row)) row)
        as ((Hid & _ & _ & _ & _ & _ & _ & Hc & _) & _).
      split; [exact Hid | rewrite Hc; lia].
    + rewrite map_map. apply map_ext. intros row.
      destruct (SipTrunkService.health_check_where user_id row); [| reflexivity].
      apply perform_health_check_same_but_health.
  - (* log_call *)
    destruct (log_call_raises call_data s) as [e ->]. exact Hsame.
  - (* update_call_log *)
    rewrite update_call_log_keeps_trunks. exact Hsame.
Qed.

Lemma NoDup_app_drop_middle {A : Type} (a b c : list A) :
  NoDup (a ++ b ++ c) -> NoDup (a ++ c).
Proof.
  induction b as [| x b IH]; simpl; intros H; [exact H |].
  apply IH. now apply NoDup_remove_1 in H.
Qed.

(** X22: no request removes a trunk row or lowers a counter.  From a table
    with distinct [id]s, after any run of requests that creates trunks
    only under [id]s not yet taken, every trunk row of the start is still
    in its place under its [id], with a [current_active_calls] that is not
    below the one it had: what a call once took is never given back by
    the service, whether the call ends or the trunk is deleted. *)
Theorem handle_all_counters_grow (requests : list request) (s : db) :
  NoDup (map SipTrunk.id (sip_trunks s) ++ created_ids requests) ->
  counters_grow (sip_trunks s) (sip_trunks (handle_all requests s)).
Proof.
  unfold handle_all. revert s.
  induction requests as [| r requests IH]; intros s Hnd; simpl.
  - apply counters_grow_refl.
  - assert (Hnd0 : NoDup (map SipTrunk.id (sip_trunks s)))
      by (now apply NoDup_app_remove_r in Hnd).
    assert (Hsplit : created_ids (r :: requests)
                     = created_ids [r] ++ created_ids requests)
      by (unfold created_ids; cbn [flat_map]; now rewrite app_nil_r).
    rewrite Hsplit in Hnd.
    destruct (handle_counters_grow r s Hnd0) as (Hgrow & Hids).
    apply (counters_grow_trans _ (sip_trunks (handle r s))); [exact Hgrow |].
    apply IH. rewrite Hids. now apply NoDup_app_drop_middle in Hnd.
Qed.

Lemma handle_all_counters_grow_witness :
  let s' :=
    handle_all
      [LogCall (Sample.create "c2");
       UpdateCallLog "c1" (Sample.ended_update 70);
       DeleteSipTrunk (Sample.seconds 99) "u1" "A"]
      Sample.one_call_in_progress in
  counters_grow (sip_trunks Sample.one_call_in_progress) (sip_trunks s')
  /\ map SipTrunk.current_active_calls (sip_trunks s') = [1]
  /\ map SipTrunk.deleted_at (sip_trunks s') = [None]
  /\ map CallLog.ended_at (call_logs s') = [Some (Sample.seconds 70)].
Proof.
  cbv zeta. split; [| repeat split; reflexivity].
  apply handle_all_counters_grow.
  simpl. constructor; [intros [] | constructor].
Defined.

(** ** Selecting a trunk, again *)

Lemma order_by_priority_load_single (rows : list SipTrunk.t) (trunk : SipTrunk.t) :
  SipTrunkService.order_by_priority_load rows = [trunk] <-> rows = [trunk].
Proof.
  split.
  - intros H. pose proof (order_by_priority_load_length rows) as Hlen.
    rewrite H in Hlen. destruct rows as [| row [| row' rest]]; try discriminate.
    exact H.
  - intros ->. reflexivity.
Qed.

(** X23: [get_available_trunk_for_call] returns a trunk exactly when it is
    the one row that passes the filter of the query; the trunk returned is
    then a row of the table that belongs to the user, is ACTIVE and not
    deleted, takes calls of the direction asked (its own direction is
    BIDIRECTIONAL or the one asked) and has
    [current_active_calls < max_concurrent_calls]. *)
Theorem get_available_trunk_for_call_returns_the_only_one (user_id : string)
    (direction : CallDirection) (s : db) (trunk : SipTrunk.t) :
  (SipTrunkService.get_available_trunk_for_call user_id direction s
   = Returned (Some trunk)
   <-> filter (SipTrunkService.available_where user_id direction) (sip_trunks s)
       = [trunk])
  /\ (SipTrunkService.get_available_trunk_for_call user_id direction s
      = Returned (Some trunk) ->
      In trunk (sip_trunks s)
      /\ SipTrunk.user_id trunk = user_id
      /\ SipTrunk.status trunk = ACTIVE
      /\ SipTrunk.deleted_at trunk = None
      /\ (SipTrunk.call_direction trunk = BIDIRECTIONAL
          \/ SipTrunk.call_direction trunk = direction)
      /\ SipTrunk.current_active_calls trunk < SipTrunk.max_concurrent_calls trunk).
Proof.
  assert (Hiff : SipTrunkService.get_available_trunk_for_call user_id direction s
                 = Returned (Some trunk)
                 <-> filter (SipTrunkService.available_where user_id direction)
                            (sip_trunks s) = [trunk]).
  { unfold SipTrunkService.get_available_trunk_for_call,
      SipTrunkService.available_query.
    rewrite <- order_by_priority_load_single.
    destruct (SipTrunkService.order_by_priority_load _) as [| a [| b rest]];
      simpl; split; intros H; try discriminate; now inversion H. }
  split; [exact Hiff |].
  intros H. apply Hiff in H.
  assert (Hin : In trunk (filter (SipTrunkService.available_where user_id direction)
                                 (sip_trunks s)))
    by (rewrite H; now left).
  apply filter_In in Hin. destruct Hin as [Hin Hw].
  unfold SipTrunkService.available_where in Hw.
  repeat (apply andb_true_iff in Hw; destruct Hw as [Hw ?]).
  split; [exact Hin |].
  split; [now apply String.eqb_eq |].
  split; [now apply SipTrunkStatus_eqb_eq |].
  split; [destruct (SipTrunk.deleted_at trunk); [discriminate | reflexivity] |].
  split; [| now apply Z.ltb_lt].
  match goal with
  | Hd : (_ || _)%bool = true |- _ =>
      apply orb_true_iff in Hd; destruct Hd as [Hd | Hd];
      [left | right];
      destruct (SipTrunk.call_direction trunk), direction;
      (reflexivity || discriminate Hd)
  end.
Qed.
